(** * PdfParserObject: the delayed-load parser object

    A shallow embedding of [src/podofo/base/PdfParserObject.cpp] together
    with the few members of its base class [PdfObject] that it drives
    (declared in [src/pdfmm/base/PdfObject.h]).

    The C++ object is a mutable record; every member function becomes a
    computation in a state-and-error monad over that record.  An exception
    raised by [PODOFO_RAISE_ERROR] keeps whatever the object had already
    been changed to, exactly as a C++ throw does.  Only the error code of
    an exception is modelled, not the call-stack text added to it. *)

From stdpp Require Import gmap strings list.
From Stdlib Require Import ZArith Lia.

Set Warnings "-register-all".
Open Scope Z_scope.

(** ** Errors *)

(** The [EPdfError] codes raised in the file, followed by the ones the
    tokenizer and the variant accessors can raise through it. *)
Inductive EPdfError :=
| InvalidHandle
| NoObject
| UnexpectedEOF
| InvalidStreamLength
| InternalLogic
| InvalidDataType
| NoNumber
| InvalidEncryptionDict.

Inductive Result (A : Type) :=
| Ok (a : A)
| Raise (e : EPdfError).
Arguments Ok {A} a.
Arguments Raise {A} e.

(** ** Values *)

(** Modelled from the spec: [PdfReference.h] is not part of the sources;
    section 3 gives a reference as an object number (u32) and a
    generation (u16). *)
Record PdfReference := mkReference {
  ObjectNumber : Z;
  GenerationNumber : Z }.

(** The casts [static_cast<uint32_t>] and [static_cast<uint16_t>] of
    [ReadObjectNumber], with their wrap-around written out. *)
Definition uint32_t (n : Z) : Z := n mod 2 ^ 32.
Definition uint16_t (n : Z) : Z := n mod 2 ^ 16.

(** [PdfReference(static_cast<uint32_t>(obj), static_cast<uint16_t>(gen))]. *)
Definition PdfReference_of (obj gen : Z) : PdfReference :=
  mkReference (uint32_t obj) (uint16_t gen).

(** Modelled from the spec: [PdfVariant.h] is not part of the sources;
    section 2 lists the alternatives of the tagged union and section 3
    makes a dictionary a map with unique, case-sensitive names as keys.
    The payload of a real is kept as its decimal text. *)
Inductive PdfVariant :=
| PdfNull
| PdfBool (b : bool)
| PdfNumber (n : Z)
| PdfReal (digits : string)
| PdfString (s : string)
| PdfName (s : string)
| PdfArray (l : list PdfVariant)
| PdfDictionary (d : gmap string PdfVariant)
| PdfRef (r : PdfReference)
| PdfRawData (s : string).

(** [PdfVariant::IsDictionary]. *)
Definition IsDictionary (v : PdfVariant) : bool :=
  match v with PdfDictionary _ => true | _ => false end.

(** [PdfName::KeyLength] and [PdfName::KeyFilter]. *)
Definition KeyLength : string := "Length".
Definition KeyFilter : string := "Filter".

(** ** The source device *)

(** Modelled from the spec: the class [PdfInputDevice] is not part of the
    sources.  Section 6 of the specification gives it as a seekable byte
    input with [Seek], [Tell], [Look] (peek one byte), [GetChar] and a
    bulk read.  Bytes are integers in [0, 255]; [Look] and [GetChar]
    answer [EOF] past the end, as the C++ [int] results do. *)
Record PdfInputDevice := mkDevice {
  dev_data : list Z;
  dev_pos : Z }.

(** The C [EOF] that [Look] and [GetChar] answer past the end. *)
Definition EOF : Z := -1.

(** Modelled from the spec: [Seek(offset)] of the source device. *)
Definition Seek (off : Z) (d : PdfInputDevice) : PdfInputDevice :=
  mkDevice (dev_data d) off.

(** Modelled from the spec: [Tell()] of the source device. *)
Definition Tell (d : PdfInputDevice) : Z := dev_pos d.

(** Modelled from the spec: [Look()], a peek at one byte. *)
Definition Look (d : PdfInputDevice) : Z :=
  if dev_pos d <? 0 then EOF
  else nth (Z.to_nat (dev_pos d)) (dev_data d) EOF.

(** Modelled from the spec: [GetChar()], the byte under the cursor, which
    then moves on by one. *)
Definition GetChar (d : PdfInputDevice) : Z * PdfInputDevice :=
  let c := Look d in
  (c, if c =? EOF then d else Seek (dev_pos d + 1) d).

(** Modelled from the spec: [Read(n)], the bytes a read of [len] bytes at
    the cursor delivers: at most [len], fewer when the device ends
    first. *)
Definition Read (len : Z) (d : PdfInputDevice) : list Z :=
  if dev_pos d <? 0 then []
  else firstn (Z.to_nat len) (skipn (Z.to_nat (dev_pos d)) (dev_data d)).

(** The cursor moved on by [n] bytes. *)
Definition Advance (n : Z) (d : PdfInputDevice) : PdfInputDevice :=
  Seek (dev_pos d + n) d.

(** ** The encryption context *)

(** Modelled from the spec: [PdfEncrypt] is an external collaborator
    exposing [SetCurrentReference], [IsMetadataEncrypted] and a factory of
    decrypting input streams keyed by the current reference.  The virtual
    decoding transform is the function field [DecryptWith]. *)
Record PdfEncrypt := mkEncrypt {
  IsMetadataEncrypted : bool;
  m_curReference : PdfReference;
  DecryptWith : PdfReference -> list Z -> list Z }.

(** Modelled from the spec: [PdfEncrypt::SetCurrentReference]. *)
Definition SetCurrentReference (r : PdfReference) (e : PdfEncrypt) : PdfEncrypt :=
  mkEncrypt (IsMetadataEncrypted e) r (DecryptWith e).

(** Modelled from the spec: the input streams, [PdfDeviceInputStream
    reader(device)] and the decrypting wrapper returned by
    [CreateEncryptionInputStream(&reader)]. *)
Inductive PdfInputStream :=
| PdfDeviceInputStream (d : PdfInputDevice)
| EncryptionInputStream (e : PdfEncrypt) (inner : PdfInputStream).

(** Modelled from the spec: [PdfEncrypt::CreateEncryptionInputStream]. *)
Definition CreateEncryptionInputStream (e : PdfEncrypt) (s : PdfInputStream)
  : PdfInputStream := EncryptionInputStream e s.

(** Modelled from the spec: the raw bytes that pass the device when
    [len] bytes are pulled from an input stream. *)
Fixpoint RawBytes (s : PdfInputStream) (len : Z) : list Z :=
  match s with
  | PdfDeviceInputStream d => Read len d
  | EncryptionInputStream _ inner => RawBytes inner len
  end.

(** Modelled from the spec: what the consumer of an input stream
    receives, the raw bytes through the decoding transform of each
    wrapper, keyed by the reference current when the wrapper was made. *)
Fixpoint ReadStream (s : PdfInputStream) (len : Z) : list Z :=
  match s with
  | PdfDeviceInputStream d => Read len d
  | EncryptionInputStream e inner =>
      DecryptWith e (m_curReference e) (ReadStream inner len)
  end.

(** ** The object store *)

(** Modelled from the spec: the store resolves a reference to a live
    object or to nothing, and demand-loads the object it returns, which
    reads from the shared device.  A lookup answers the value found and
    the place where it leaves the device cursor. *)
Record PdfVecObjects := mkVecObjects {
  GetObject : PdfReference -> PdfInputDevice -> option PdfVariant * Z }.

(** Modelled from the spec: [PdfDocument], reached by [GetDocument()],
    of which only [GetObjects()] is used. *)
Record PdfDocument := mkDocument {
  GetObjects : PdfVecObjects }.

(** ** The parser object *)

(** Modelled from the spec: [PdfStream], the raw, un-filtered payload
    owned by the object. *)
Record PdfStream := mkStream {
  stream_data : list Z }.

(** The members of [PdfObject] as its header declares them (first seven;
    the parent link and the immutability latch, which the file never
    touches, are left out), of [PdfTokenizer] ([m_device]; [None] is a
    null [Device()]) and of [PdfParserObject]. *)
Record PdfParserObject := mkParserObject {
  m_Variant : PdfVariant;
  m_IndirectReference : PdfReference;
  m_Document : option PdfDocument;
  m_IsDirty : bool;
  m_DelayedLoadDone : bool;
  m_DelayedLoadStreamDone : bool;
  m_Stream : option PdfStream;
  m_device : option PdfInputDevice;
  m_pEncrypt : option PdfEncrypt;
  m_bIsTrailer : bool;
  m_bLoadOnDemand : bool;
  m_lOffset : Z;
  m_bStream : bool;
  m_lStreamOffset : Z }.

Definition set_Variant (v : PdfVariant) (o : PdfParserObject) :=
  let 'mkParserObject _ r doc dirty dl dls st dev enc tr lod off bs so := o in
  mkParserObject v r doc dirty dl dls st dev enc tr lod off bs so.
Definition set_IndirectReference (r : PdfReference) (o : PdfParserObject) :=
  let 'mkParserObject v _ doc dirty dl dls st dev enc tr lod off bs so := o in
  mkParserObject v r doc dirty dl dls st dev enc tr lod off bs so.
Definition set_IsDirty (dirty : bool) (o : PdfParserObject) :=
  let 'mkParserObject v r doc _ dl dls st dev enc tr lod off bs so := o in
  mkParserObject v r doc dirty dl dls st dev enc tr lod off bs so.
Definition set_DelayedLoadDone (dl : bool) (o : PdfParserObject) :=
  let 'mkParserObject v r doc dirty _ dls st dev enc tr lod off bs so := o in
  mkParserObject v r doc dirty dl dls st dev enc tr lod off bs so.
Definition set_DelayedLoadStreamDone (dls : bool) (o : PdfParserObject) :=
  let 'mkParserObject v r doc dirty dl _ st dev enc tr lod off bs so := o in
  mkParserObject v r doc dirty dl dls st dev enc tr lod off bs so.
Definition set_Stream (st : option PdfStream) (o : PdfParserObject) :=
  let 'mkParserObject v r doc dirty dl dls _ dev enc tr lod off bs so := o in
  mkParserObject v r doc dirty dl dls st dev enc tr lod off bs so.
Definition set_device (dev : option PdfInputDevice) (o : PdfParserObject) :=
  let 'mkParserObject v r doc dirty dl dls st _ enc tr lod off bs so := o in
  mkParserObject v r doc dirty dl dls st dev enc tr lod off bs so.
Definition set_pEncrypt (enc : option PdfEncrypt) (o : PdfParserObject) :=
  let 'mkParserObject v r doc dirty dl dls st dev _ tr lod off bs so := o in
  mkParserObject v r doc dirty dl dls st dev enc tr lod off bs so.
Definition set_bIsTrailer (tr : bool) (o : PdfParserObject) :=
  let 'mkParserObject v r doc dirty dl dls st dev enc _ lod off bs so := o in
  mkParserObject v r doc dirty dl dls st dev enc tr lod off bs so.
Definition set_bLoadOnDemand (lod : bool) (o : PdfParserObject) :=
  let 'mkParserObject v r doc dirty dl dls st dev enc tr _ off bs so := o in
  mkParserObject v r doc dirty dl dls st dev enc tr lod off bs so.
Definition set_lOffset (off : Z) (o : PdfParserObject) :=
  let 'mkParserObject v r doc dirty dl dls st dev enc tr lod _ bs so := o in
  mkParserObject v r doc dirty dl dls st dev enc tr lod off bs so.
Definition set_bStream (bs : bool) (o : PdfParserObject) :=
  let 'mkParserObject v r doc dirty dl dls st dev enc tr lod off _ so := o in
  mkParserObject v r doc dirty dl dls st dev enc tr lod off bs so.
Definition set_lStreamOffset (so : Z) (o : PdfParserObject) :=
  let 'mkParserObject v r doc dirty dl dls st dev enc tr lod off bs _ := o in
  mkParserObject v r doc dirty dl dls st dev enc tr lod off bs so.

(** ** The monad of member functions *)

Definition M (A : Type) : Type := PdfParserObject -> Result A * PdfParserObject.

#[global] Instance M_ret : MRet M := fun A a o => (Ok a, o).

#[global] Instance M_bind : MBind M := fun A B f m o =>
  match m o with
  | (Ok a, o') => f a o'
  | (Raise e, o') => (Raise e, o')
  end.

(** [PODOFO_RAISE_ERROR(code)]. *)
Definition PODOFO_RAISE_ERROR {A : Type} (e : EPdfError) : M A :=
  fun o => (Raise e, o).

Definition gets {A : Type} (f : PdfParserObject -> A) : M A :=
  fun o => (Ok (f o), o).

Definition modify (f : PdfParserObject -> PdfParserObject) : M unit :=
  fun o => (Ok tt, f o).

(** A null test on a pointer member. *)
Definition is_nullptr {A : Type} (p : option A) : bool :=
  match p with None => true | Some _ => false end.

Definition when (b : bool) (m : M unit) : M unit :=
  if b then m else mret tt.

(** Modelled from the spec: the macro [PODOFO_ASSERT] is not part of the
    sources; a failed internal assertion is the fatal internal-logic error
    of section 7. *)
Definition PODOFO_ASSERT (b : bool) : M unit :=
  if b then mret tt else PODOFO_RAISE_ERROR InternalLogic.

(** Calls on [m_device.Device()].  The C++ code dereferences the pointer
    unchecked after the null test of [ParseFile] and [ParseStream]; the
    model raises [InvalidHandle] on a null device instead. *)
Definition withDevice {A : Type} (f : PdfInputDevice -> A * PdfInputDevice) : M A :=
  fun o =>
    match m_device o with
    | Some d => let '(a, d') := f d in (Ok a, set_device (Some d') o)
    | None => (Raise InvalidHandle, o)
    end.

Definition Device_Seek (off : Z) : M unit := withDevice (fun d => (tt, Seek off d)).
Definition Device_Tell : M Z := withDevice (fun d => (Tell d, d)).

(** ** Members inherited from [PdfObject] *)

(** [PdfObject.cpp] and [PdfParserObject.h] are not part of the sources.
    The members below follow the documentation of [PdfObject.h] and
    sections 3 and 4.2 of the specification. *)

(** Modelled from the spec: [SetDirty(bool)], the dirty flag is set to
    the argument. *)
Definition SetDirty (bDirty : bool) : M unit := modify (set_IsDirty bDirty).

(** Modelled from the spec: [Clear()] resets to the null value, releases
    any stream and clears the dirty flag; it never fails. *)
Definition Clear : M unit :=
  modify (fun o => set_IsDirty false (set_Stream None (set_Variant PdfNull o))).

(** Modelled from the spec: [FreeStream()] releases the stream. *)
Definition FreeStream : M unit := modify (set_Stream None).

(** [EnableDelayedLoading()], inline in [PdfObject.h]. *)
Definition EnableDelayedLoading : M unit := modify (set_DelayedLoadDone false).

(** Modelled from the spec: [EnableDelayedLoadingStream()], the stream
    counterpart of [EnableDelayedLoading()]. *)
Definition EnableDelayedLoadingStream : M unit :=
  modify (set_DelayedLoadStreamDone false).

(** [SetIndirectReference(reference)], inline in [PdfObject.h]. *)
Definition SetIndirectReference (r : PdfReference) : M unit :=
  modify (set_IndirectReference r).

(** Modelled from the spec: [PdfVariant::GetDictionary()], a type-checked
    accessor that fails when the value is not a dictionary. *)
Definition GetDictionary (v : PdfVariant) : M (gmap string PdfVariant) :=
  match v with
  | PdfDictionary d => mret d
  | _ => PODOFO_RAISE_ERROR InvalidDataType
  end.

(** Modelled from the spec: [getOrCreateStream().SetRawData(input, lLen)].
    The stream is created when absent and its payload replaced by what
    [input] delivers for [lLen] bytes; the device under [input] moves
    past the bytes pulled from it. *)
Definition SetRawData (input : PdfInputStream) (lLen : Z) : M unit :=
  modify (set_Stream (Some (mkStream (ReadStream input lLen))));;
  withDevice (fun d => (tt, Advance (Z.of_nat (length (RawBytes input lLen))) d)).

(** Modelled from the spec: [HasStreamToParse()], the mark "has a stream
    to parse" recorded by the body-load. *)
Definition HasStreamToParse (o : PdfParserObject) : bool := m_bStream o.

(** Modelled from the spec: [IsLoadOnDemand()], whether the object
    supports demand loading. *)
Definition IsLoadOnDemand (o : PdfParserObject) : bool := m_bLoadOnDemand o.

(** Modelled from the spec: [SetLoadOnDemand(bool)], the switch read by
    [IsLoadOnDemand()]. *)
Definition SetLoadOnDemand (bDelayed : bool) : M unit :=
  modify (set_bLoadOnDemand bDelayed).

(** ** The tokenizer *)

(** The base class [PdfTokenizer] is not part of the sources and is an
    external collaborator in section 6 of the specification: its
    operations, and the token types, are taken as an interface.  Each
    operation reads from the device and leaves it further on;
    [GetNextToken] answers [None] at the end of the input, the other
    three may throw. *)
Class PdfTokenizer := {
  EPdfTokenType : Type;
  IsWhitespace : Z -> bool;
  GetNextToken :
    PdfInputDevice -> option (string * EPdfTokenType) * PdfInputDevice;
  GetNextNumber : PdfInputDevice -> Result Z * PdfInputDevice;
  IsNextToken : string -> PdfInputDevice -> Result bool * PdfInputDevice;
  GetNextVariant :
    string -> EPdfTokenType -> option PdfEncrypt -> PdfInputDevice ->
    Result PdfVariant * PdfInputDevice }.

(** [strncmp(pszToken, lit, strlen(lit)) == 0]: the first [strlen(lit)]
    characters of the token are those of [lit]. *)
Definition strncmp_eq (pszToken lit : string) : bool := String.prefix lit pszToken.

Definition CR : Z := 13.
Definition LF : Z := 10.

Section ParserObject.
Context {T : PdfTokenizer}.

Definition withTokenizer {A : Type}
    (f : PdfInputDevice -> Result A * PdfInputDevice) : M A :=
  fun o =>
    match m_device o with
    | Some d => let '(r, d') := f d in (r, set_device (Some d') o)
    | None => (Raise InvalidHandle, o)
    end.

(** Constructor from a creator, a device and an offset (lines 57-64),
    after [InitPdfParserObject] (lines 74-91).  A fresh [PdfObject] has
    reference (-1, -1) per its header and is not dirty. *)
Definition PdfParserObject_new (doc : option PdfDocument)
    (rDevice : option PdfInputDevice) (lOffset : Z) : PdfParserObject :=
  {| m_Variant := PdfNull;
     m_IndirectReference := mkReference (-1) (-1);
     m_Document := doc;
     m_IsDirty := false;
     m_DelayedLoadDone := false;
     m_DelayedLoadStreamDone := false;
     m_Stream := None;
     m_device := rDevice;
     m_pEncrypt := None;
     m_bIsTrailer := false;
     m_bLoadOnDemand := false;
     m_lOffset :=
       if lOffset <? 0
       then match rDevice with Some d => Tell d | None => lOffset end
       else lOffset;
     m_bStream := false;
     m_lStreamOffset := 0 |}.

(** Constructor from a buffer alone (lines 66-72): no document, no device. *)
Definition PdfParserObject_of_buffer : PdfParserObject :=
  set_lOffset (-1) (PdfParserObject_new None None (-1)).

(** Lines 93-116. *)
Definition ReadObjectNumber : M unit :=
  obj ← withTokenizer GetNextNumber;
  gen ← withTokenizer GetNextNumber;
  let reference := PdfReference_of obj gen in
  SetIndirectReference reference;;
  isObj ← withTokenizer (IsNextToken "obj");
  if negb isObj then PODOFO_RAISE_ERROR NoObject else mret tt.

(** Lines 167-217. *)
Definition ParseFileComplete (bIsTrailer : bool) : M unit :=
  off ← gets m_lOffset;
  Device_Seek off;;
  ref ← gets m_IndirectReference;
  modify (fun o => set_pEncrypt (SetCurrentReference ref <$> m_pEncrypt o) o);;
  tok ← withDevice GetNextToken;
  match tok with
  | None => PODOFO_RAISE_ERROR UnexpectedEOF
  | Some (pszToken, eTokenType) =>
      if negb (strncmp_eq pszToken "endobj") then
        enc ← gets m_pEncrypt;
        v ← withTokenizer (GetNextVariant pszToken eTokenType enc);
        modify (set_Variant v);;
        SetDirty false;;
        if negb bIsTrailer then
          tok' ← withDevice GetNextToken;
          match tok' with
          | None => PODOFO_RAISE_ERROR UnexpectedEOF
          | Some (pszToken, _) =>
              isDict ← gets (fun o => IsDictionary (m_Variant o));
              if strncmp_eq pszToken "endobj" then mret tt
              else if isDict && strncmp_eq pszToken "stream" then
                modify (set_bStream true);;
                pos ← Device_Tell;
                modify (set_lStreamOffset pos)
              else PODOFO_RAISE_ERROR NoObject
          end
        else mret tt
      else mret tt
  end.

(** Lines 320-323. *)
Definition DelayedLoadImpl : M unit :=
  bIsTrailer ← gets m_bIsTrailer;
  ParseFileComplete bIsTrailer.

(** Modelled from the spec: [PdfObject::DelayedLoad()] calls the virtual
    hook [DelayedLoadImpl()] if the object is not already loaded, and the
    object then counts as loaded; a second call does nothing. *)
Definition DelayedLoad : M unit :=
  loaded ← gets m_DelayedLoadDone;
  when (negb loaded) (DelayedLoadImpl;; modify (set_DelayedLoadDone true)).

(** Lines 118-156. *)
Definition ParseFile (pEncrypt : option PdfEncrypt) (bIsTrailer : bool) : M unit :=
  dev ← gets m_device;
  when (is_nullptr dev) (PODOFO_RAISE_ERROR InvalidHandle);;
  off ← gets m_lOffset;
  when (0 <=? off) (Device_Seek off);;
  when (negb bIsTrailer) ReadObjectNumber;;
  pos ← Device_Tell;
  modify (set_lOffset pos);;
  modify (set_pEncrypt pEncrypt);;
  modify (set_bIsTrailer bIsTrailer);;
  lod ← gets m_bLoadOnDemand;
  when (negb lod) DelayedLoad.

(** Lines 242-255 of [ParseStream]: the end-of-line marker after the
    [stream] keyword. *)
Definition ConsumeStreamEol (d : PdfInputDevice) : PdfInputDevice :=
  let c := Look d in
  if IsWhitespace c then
    let '(c, d) := GetChar d in
    if c =? CR then
      let c := Look d in
      if c =? LF then snd (GetChar d) else d
    else d
  else d.

(** Lines 259-285 of [ParseStream]: the value of [/Length]. *)
Definition ResolveLength (doc : PdfDocument) (dict : gmap string PdfVariant) : M Z :=
  match dict !! KeyLength with
  | Some (PdfNumber n) => mret n
  | Some (PdfRef r) =>
      pObj ← withDevice (fun d =>
                let '(found, cursor) := GetObject (GetObjects doc) r d in
                (found, Seek cursor d));
      match pObj with
      | None => PODOFO_RAISE_ERROR InvalidHandle
      | Some (PdfNumber n) => mret n
      | Some _ => PODOFO_RAISE_ERROR InvalidStreamLength
      end
  | _ => PODOFO_RAISE_ERROR InvalidStreamLength
  end.

(** Lines 290-301 of [ParseStream]: the loop over the [/Filter] array.
    Every element that is the name [Crypt] nulls [m_pEncrypt]. *)
Definition CryptFilterLoop (filters : list PdfVariant) : M unit :=
  foldr (fun it rest =>
           match it with
           | PdfName name =>
               when (String.eqb name "Crypt") (modify (set_pEncrypt None))
           | _ => mret tt
           end;; rest)
        (mret tt) filters.

Definition CryptFilterCheck (dict : gmap string PdfVariant) : M unit :=
  enc ← gets m_pEncrypt;
  match enc with
  | Some e =>
      if negb (IsMetadataEncrypted e) then
        match dict !! KeyFilter with
        | Some (PdfArray filters) => CryptFilterLoop filters
        | _ => mret tt
        end
      else mret tt
  | None => mret tt
  end.

(** Lines 223-318. *)
Definition ParseStream : M unit :=
  loaded ← gets m_DelayedLoadDone;
  PODOFO_ASSERT loaded;;
  dev ← gets m_device;
  doc ← gets m_Document;
  match dev, doc with
  | Some _, Some doc =>
      off ← gets m_lStreamOffset;
      Device_Seek off;;
      withDevice (fun d => (tt, ConsumeStreamEol d));;
      fLoc ← Device_Tell;
      v ← gets m_Variant;
      dict ← GetDictionary v;
      lLen ← ResolveLength doc dict;
      Device_Seek fLoc;;
      reader ← withDevice (fun d => (PdfDeviceInputStream d, d));
      CryptFilterCheck dict;;
      enc ← gets m_pEncrypt;
      match enc with
      | Some e =>
          ref ← gets m_IndirectReference;
          let e := SetCurrentReference ref e in
          modify (set_pEncrypt (Some e));;
          let pInput := CreateEncryptionInputStream e reader in
          SetRawData pInput lLen
      | None => SetRawData reader lLen
      end;;
      SetDirty false
  | _, _ => PODOFO_RAISE_ERROR InvalidHandle
  end.

(** Lines 325-345. *)
Definition DelayedLoadStreamImpl : M unit :=
  st ← gets m_Stream;
  PODOFO_ASSERT (is_nullptr st);;
  has ← gets HasStreamToParse;
  when has ParseStream.

(** Modelled from the spec: [PdfObject::DelayedLoadStream()] loads the
    body, which the stream hook asserts, then calls the hook
    [DelayedLoadStreamImpl()] unless the stream is already loaded; a
    second call does nothing. *)
Definition DelayedLoadStream : M unit :=
  DelayedLoad;;
  loaded ← gets m_DelayedLoadStreamDone;
  when (negb loaded)
       (DelayedLoadStreamImpl;; modify (set_DelayedLoadStreamDone true)).

(** Lines 158-162. *)
Definition ForceStreamParse : M unit := DelayedLoadStream.

(** Lines 347-356. *)
Definition FreeObjectMemory (bForce : bool) : M unit :=
  lod ← gets IsLoadOnDemand;
  dirty ← gets m_IsDirty;
  if lod && (bForce || negb dirty) then
    Clear;;
    FreeStream;;
    EnableDelayedLoading;;
    EnableDelayedLoadingStream
  else mret tt.

End ParserObject.

(** ** A reference tokenizer *)

(** A small instance of the tokenizer interface, for running the model on
    concrete files: white-space separated tokens, the delimiters [<<],
    [>>], [[] and []], names, and as values the keywords, integers, names
    and dictionaries of those.  It stands for no more than that subset. *)
Module RefTokenizer.

Inductive TokenType := Delimiter | Token.

Definition is_white (c : Z) : bool :=
  bool_decide (c ∈ [0; 9; 10; 12; 13; 32]).

Definition is_delim (c : Z) : bool :=
  bool_decide (c ∈ [40; 41; 60; 62; 91; 93; 123; 125; 47; 37]).

Fixpoint skip_white (l : list Z) : list Z :=
  match l with
  | c :: r => if is_white c then skip_white r else l
  | [] => []
  end.

Fixpoint regular (l : list Z) : list Z * list Z :=
  match l with
  | c :: r =>
      if is_white c || is_delim c then ([], l)
      else let '(w, rest) := regular r in (c :: w, rest)
  | [] => ([], [])
  end.

Definition text (l : list Z) : string :=
  String.string_of_list_ascii (map (fun c => Ascii.ascii_of_nat (Z.to_nat c)) l).

Definition bytes (s : string) : list Z :=
  map (fun a => Z.of_nat (Ascii.nat_of_ascii a)) (String.list_ascii_of_string s).

Definition remaining (d : PdfInputDevice) : list Z :=
  if dev_pos d <? 0 then [] else skipn (Z.to_nat (dev_pos d)) (dev_data d).

Definition at_rest (d : PdfInputDevice) (rest : list Z) : PdfInputDevice :=
  Seek (Z.of_nat (length (dev_data d)) - Z.of_nat (length rest)) d.

Definition next_word (l : list Z) : option (list Z * TokenType) * list Z :=
  match skip_white l with
  | [] => (None, [])
  | 60 :: 60 :: r => (Some ([60; 60], Delimiter), r)
  | 62 :: 62 :: r => (Some ([62; 62], Delimiter), r)
  | 47 :: r => let '(w, rest) := regular r in (Some (47 :: w, Token), rest)
  | c :: r =>
      if is_delim c then (Some ([c], Delimiter), r)
      else let '(w, rest) := regular (c :: r) in (Some (w, Token), rest)
  end.

Definition next_token (d : PdfInputDevice)
  : option (string * TokenType) * PdfInputDevice :=
  let '(w, rest) := next_word (remaining d) in
  (prod_map text id <$> w, at_rest d rest).

Definition digit (c : Z) : option Z :=
  if (48 <=? c) && (c <=? 57) then Some (c - 48) else None.

Fixpoint digits (acc : Z) (l : list Z) : option Z :=
  match l with
  | [] => Some acc
  | c :: r => v ← digit c; digits (10 * acc + v) r
  end.

Definition integer (w : list Z) : option Z :=
  match w with
  | [] => None
  | [45] => None
  | 45 :: r => Z.opp <$> digits 0 r
  | _ => digits 0 w
  end.

Definition atom (w : list Z) : option PdfVariant :=
  match integer w with
  | Some n => Some (PdfNumber n)
  | None =>
      match w with
      | 47 :: name => Some (PdfName (text name))
      | _ =>
          if String.eqb (text w) "null" then Some PdfNull
          else if String.eqb (text w) "true" then Some (PdfBool true)
          else if String.eqb (text w) "false" then Some (PdfBool false)
          else None
      end
  end.

(** The entries of a dictionary up to its closing [>>]. *)
Fixpoint entries (fuel : nat) (acc : gmap string PdfVariant) (l : list Z)
  : option (gmap string PdfVariant) * list Z :=
  match fuel with
  | O => (None, l)
  | S fuel =>
      match next_word l with
      | (Some ([62; 62], Delimiter), rest) => (Some acc, rest)
      | (Some (47 :: key, Token), rest) =>
          match next_word rest with
          | (Some (w, Token), rest') =>
              match atom w with
              | Some v => entries fuel (<[text key := v]> acc) rest'
              | None => (None, rest')
              end
          | (_, rest') => (None, rest')
          end
      | (_, rest) => (None, rest)
      end
  end.

Definition next_number (d : PdfInputDevice) : Result Z * PdfInputDevice :=
  match next_word (remaining d) with
  | (Some (w, _), rest) =>
      (match integer w with Some n => Ok n | None => Raise NoNumber end,
       at_rest d rest)
  | (None, rest) => (Raise UnexpectedEOF, at_rest d rest)
  end.

Definition is_next_token (s : string) (d : PdfInputDevice)
  : Result bool * PdfInputDevice :=
  match next_token d with
  | (Some (t, _), d') => (Ok (String.eqb t s), d')
  | (None, d') => (Raise UnexpectedEOF, d')
  end.

Definition next_variant (pszToken : string) (ty : TokenType)
    (enc : option PdfEncrypt) (d : PdfInputDevice)
  : Result PdfVariant * PdfInputDevice :=
  match ty with
  | Delimiter =>
      if String.eqb pszToken "<<" then
        let l := remaining d in
        match entries (S (length l)) ∅ l with
        | (Some m, rest) => (Ok (PdfDictionary m), at_rest d rest)
        | (None, rest) => (Raise InvalidDataType, at_rest d rest)
        end
      else (Raise InvalidDataType, d)
  | Token =>
      match atom (bytes pszToken) with
      | Some v => (Ok v, d)
      | None => (Raise InvalidDataType, d)
      end
  end.

#[export] Instance tokenizer : PdfTokenizer := {|
  EPdfTokenType := TokenType;
  IsWhitespace := is_white;
  GetNextToken := next_token;
  GetNextNumber := next_number;
  IsNextToken := is_next_token;
  GetNextVariant := next_variant |}.

(** A file given as lines, each closed by a line feed. *)
Definition file (lines : list string) : PdfInputDevice :=
  mkDevice (concat (map (fun s => bytes s ++ [LF]) lines)) 0.

End RefTokenizer.

(** ** Vocabulary of the statements *)

(** The [/Filter] value is an array that contains the name [Crypt]. *)
Definition IsCryptName (it : PdfVariant) : bool :=
  match it with PdfName name => String.eqb name "Crypt" | _ => false end.

Definition HasCryptFilter (dict : gmap string PdfVariant) : bool :=
  match dict !! KeyFilter with
  | Some (PdfArray filters) => existsb IsCryptName filters
  | _ => false
  end.

(** What a stream-load needs before it looks at [/Length]: the body is
    loaded, device and document are there, the body is a dictionary. *)
Definition ReadyForStream (o : PdfParserObject) (dev : PdfInputDevice)
    (doc : PdfDocument) (dict : gmap string PdfVariant) : Prop :=
  m_DelayedLoadDone o = true /\ m_device o = Some dev /\
  m_Document o = Some doc /\ m_Variant o = PdfDictionary dict.

(** The device just after the end-of-line marker that follows [stream]. *)
Definition StreamStart {T : PdfTokenizer} (o : PdfParserObject)
    (dev : PdfInputDevice) : PdfInputDevice :=
  ConsumeStreamEol (Seek (m_lStreamOffset o) dev).

(** [/Length] is the number [n], directly or through the store as seen
    from device state [d]. *)
Definition LengthIs (doc : PdfDocument) (dict : gmap string PdfVariant)
    (d : PdfInputDevice) (n : Z) : Prop :=
  dict !! KeyLength = Some (PdfNumber n) \/
  exists r, dict !! KeyLength = Some (PdfRef r) /\
            (GetObject (GetObjects doc) r d).1 = Some (PdfNumber n).

(** The context left in [m_pEncrypt] by a stream-load. *)
Definition StreamEncrypt (o : PdfParserObject) (dict : gmap string PdfVariant)
  : option PdfEncrypt :=
  match m_pEncrypt o with
  | Some e =>
      if negb (IsMetadataEncrypted e) && HasCryptFilter dict then None
      else Some (SetCurrentReference (m_IndirectReference o) e)
  | None => None
  end.

(** The payload stored for raw bytes [raw] under context [enc]. *)
Definition Payload (enc : option PdfEncrypt) (raw : list Z) : list Z :=
  match enc with
  | Some e => DecryptWith e (m_curReference e) raw
  | None => raw
  end.

(** The object a successful stream-load of [n] bytes leaves behind. *)
Definition StreamLoaded {T : PdfTokenizer} (o : PdfParserObject)
    (dev : PdfInputDevice) (dict : gmap string PdfVariant) (n : Z)
  : PdfParserObject :=
  let start := StreamStart o dev in
  let raw := Read n start in
  set_IsDirty false
    (set_device (Some (Advance (Z.of_nat (length raw)) start))
       (set_Stream (Some (mkStream (Payload (StreamEncrypt o dict) raw)))
          (set_pEncrypt (StreamEncrypt o dict) o))).

(** The object [ParseFile] hands to the loader once the header is read. *)
Definition HeaderDone (pEncrypt : option PdfEncrypt) (bIsTrailer : bool)
    (d : PdfInputDevice) (o : PdfParserObject) : PdfParserObject :=
  set_bIsTrailer bIsTrailer
    (set_pEncrypt pEncrypt (set_lOffset (Tell d) (set_device (Some d) o))).

(** ** Sample documents *)

(** Concrete collaborators and files on which the statements below are
    run. *)
Module Samples.
Import RefTokenizer.

(** A toy cipher: every byte is xor-ed with the low byte of the object
    number the context is keyed with. *)
Definition xor_cipher (r : PdfReference) (raw : list Z) : list Z :=
  map (Z.lxor (ObjectNumber r mod 256)) raw.

Definition enc_all : PdfEncrypt := mkEncrypt true (mkReference 0 0) xor_cipher.
Definition enc_no_metadata : PdfEncrypt :=
  mkEncrypt false (mkReference 0 0) xor_cipher.

(** A store holding the number 5 as object 20 (its load leaves the cursor
    at offset 3), a name as object 21, and nothing else. *)
Definition store : PdfVecObjects :=
  mkVecObjects (fun r d =>
    if ObjectNumber r =? 20 then (Some (PdfNumber 5), 3)
    else if ObjectNumber r =? 21 then (Some (PdfName "five"), 0)
    else (None, Tell d)).

Definition doc : PdfDocument := mkDocument store.

Definition empty_file : PdfInputDevice :=
  mkDevice (bytes "7 0 obj" ++ [LF] ++ bytes "endobj") 0.

Definition hello_file : PdfInputDevice :=
  file ["12 0 obj"; "<< /Length 5 >>"; "stream"; "HELLO"; "endstream"; "endobj"].

Definition lax_file : PdfInputDevice := file ["1 0 obj"; "5"; "endobjx"].

Definition number_stream_file : PdfInputDevice :=
  file ["2 0 obj"; "5"; "stream"; "HELLO"; "endstream"; "endobj"].

Definition trailer_file : PdfInputDevice :=
  file ["<< /Size 3 >>"; "stream"; "HELLO"].

(** The bytes after a [stream] keyword, with the three line endings. *)
Definition after_crlf : PdfInputDevice := mkDevice ([CR; LF] ++ bytes "HELLO") 0.
Definition after_lf : PdfInputDevice := mkDevice ([LF] ++ bytes "HELLO") 0.
Definition after_cr : PdfInputDevice := mkDevice ([CR] ++ bytes "HELLO") 0.

(** A loaded dictionary object (12, 0) whose stream starts at the head of
    [dev]. *)
Definition stream_object (dict : gmap string PdfVariant)
    (enc : option PdfEncrypt) (dev : PdfInputDevice) : PdfParserObject :=
  {| m_Variant := PdfDictionary dict;
     m_IndirectReference := mkReference 12 0;
     m_Document := Some doc;
     m_IsDirty := false;
     m_DelayedLoadDone := true;
     m_DelayedLoadStreamDone := false;
     m_Stream := None;
     m_device := Some dev;
     m_pEncrypt := enc;
     m_bIsTrailer := false;
     m_bLoadOnDemand := false;
     m_lOffset := 0;
     m_bStream := true;
     m_lStreamOffset := 0 |}.

Definition length_direct : gmap string PdfVariant :=
  {[ KeyLength := PdfNumber 5 ]}.
Definition length_indirect : gmap string PdfVariant :=
  {[ KeyLength := PdfRef (mkReference 20 0) ]}.
Definition length_dangling : gmap string PdfVariant :=
  {[ KeyLength := PdfRef (mkReference 99 0) ]}.
Definition length_crypt : gmap string PdfVariant :=
  <[ KeyFilter := PdfArray [PdfName "FlateDecode"; PdfName "Crypt"] ]>
    length_direct.

End Samples.

(** More sample files and objects. *)
Module MoreSamples.
Import RefTokenizer Samples.

(** A header whose numbers do not fit 32 and 16 bits. *)
Definition wide_header_file : PdfInputDevice :=
  file ["4294967303 65536 obj"; "endobj"].

(** A file that ends right after the header, and one that ends right
    after the value. *)
Definition header_only_file : PdfInputDevice := mkDevice (bytes "7 0 obj") 0.
Definition value_only_file : PdfInputDevice := file ["7 0 obj"; "5"].

(** A file whose value does not parse. *)
Definition bad_value_file : PdfInputDevice := file ["7 0 obj"; ")"; "endobj"].

(** The bytes after a [stream] keyword with no marker at all, and with a
    space before the line feed. *)
Definition after_nothing : PdfInputDevice := mkDevice (bytes "HELLO") 0.
Definition after_space : PdfInputDevice :=
  mkDevice ([32; LF] ++ bytes "HELLO") 0.

Definition trailer_dict : gmap string PdfVariant := {[ "Size" := PdfNumber 3 ]}.

(** An object built by the constructor on [dev], with demand loading
    switched as [lod]. *)
Definition fresh (lod : bool) (dev : PdfInputDevice) : PdfParserObject :=
  (SetLoadOnDemand lod (PdfParserObject_new (Some doc) (Some dev) 0)).2.

(** The same object with only its header read. *)
Definition header_read (dev : PdfInputDevice) : PdfParserObject :=
  (ParseFile None false (fresh true dev)).2.

End MoreSamples.

(** * The annotation collection of a page

    A shallow embedding of [src/pdfmm/base/PdfAnnotationCollection.cpp]:
    the bookkeeping that keeps the vector of annotations, the [/Annots]
    array of the page and the map from references to indices in step.
    [std::vector] and [std::map] are a list and a finite map.  The header
    of the class and [PdfAnnotation], [PdfArray] and [PdfPage] are not
    part of the sources: an annotation is seen through the reference of
    its object, the [/Annots] array through the references of the objects
    its indirect iterator visits, and whether an object makes an
    annotation ([TryCreateFromObject]) is a parameter. *)
Module Annotations.
Local Open Scope nat_scope.

#[export] Instance PdfReference_eq_dec : EqDecision PdfReference.
Proof. solve_decision. Defined.

#[export] Instance PdfReference_countable : Countable PdfReference.
Proof.
  refine (inj_countable' (fun r => (ObjectNumber r, GenerationNumber r))
            (fun p => mkReference p.1 p.2) _).
  by intros [].
Defined.

(** The error code raised in the file. *)
Inductive PdfErrorCode := ValueOutOfRange.

Inductive Outcome (A : Type) :=
| Done (a : A)
| Throw (e : PdfErrorCode).
Arguments Done {A} a.
Arguments Throw {A} e.

(** Modelled from the spec: [PdfAnnotation] is not part of the sources.
    The file reads one thing of an annotation, the reference of its
    object, [annot->GetObject().GetIndirectReference()]. *)
Record PdfAnnotation := mkAnnotation {
  GetObjectReference : PdfReference }.

(** Modelled from the spec: [PdfArray] is not part of the sources.  The
    [/Annots] array is seen through the references of the objects its
    indirect iterator visits, in the order of the array, as a list of
    references; [PdfArray::GetSize] is the number of entries. *)
Definition GetSize (a : list PdfReference) : nat := length a.

(** Modelled from the spec: [PdfArray::RemoveAt], which unlinks the entry
    at an index.  The file calls it with the index of an entry. *)
Definition RemoveAt (index : nat) (a : list PdfReference)
  : list PdfReference := delete index a.

(** Modelled from the spec: [PdfArray::AddIndirectSafe], which appends a
    reference to the object. *)
Definition AddIndirectSafe (obj : PdfReference) (a : list PdfReference)
  : list PdfReference :=
  a ++ [obj].

(** The members [m_annotArray] (a pointer into the page dictionary: the
    flag says it is not null, the array it points at is [page_Annots]),
    [m_annotMap] (a [unique_ptr], [None] when null) and [m_Annots] (a
    null entry is a placeholder for an invalid annotation), with the
    [/Annots] entry of the page of [m_Page]. *)
Record PdfAnnotationCollection := mkCollection {
  page_Annots : option (list PdfReference);
  m_annotArray : bool;
  m_annotMap : option (gmap PdfReference nat);
  m_Annots : list (option PdfAnnotation) }.

(** Lines 13-16. *)
Definition PdfAnnotationCollection_new (annots : option (list PdfReference))
  : PdfAnnotationCollection :=
  mkCollection annots false None [].

(** Lines 163-171. *)
Definition fixIndices (index : nat) (m : gmap PdfReference nat)
  : gmap PdfReference nat :=
  (fun second => if index <? second then second - 1 else second) <$> m.

Section Collection.
Variable TryCreateFromObject : PdfReference -> bool.

(** Lines 143-160, the loop of [initAnnotations]. *)
Fixpoint initLoop (objs : list PdfReference) (i : nat)
    (m : gmap PdfReference nat) (annots : list (option PdfAnnotation))
  : gmap PdfReference nat * list (option PdfAnnotation) :=
  match objs with
  | [] => (m, annots)
  | obj :: rest =>
      initLoop rest (S i) (<[obj := i]> m)
        (annots ++ [if TryCreateFromObject obj
                    then Some (mkAnnotation obj) else None])
  end.

(** Lines 132-161; [getAnnotationsArray] (lines 114-121) is the lookup of
    [page_Annots]. *)
Definition initAnnotations (c : PdfAnnotationCollection)
  : PdfAnnotationCollection :=
  match m_annotMap c with
  | Some _ => c
  | None =>
      match page_Annots c with
      | None => mkCollection None false (Some ∅) (m_Annots c)
      | Some arr =>
          let '(m, annots) := initLoop arr 0 ∅ (m_Annots c) in
          mkCollection (Some arr) true (Some m) annots
      end
  end.

(** Lines 70-74. *)
Definition GetCount (c : PdfAnnotationCollection)
  : nat * PdfAnnotationCollection :=
  let c := initAnnotations c in (length (m_Annots c), c).

(** Lines 123-130.  The entry is returned as it is stored; C++
    dereferences it, also when it is a null placeholder. *)
Definition getAt (index : nat) (c : PdfAnnotationCollection)
  : Outcome (option PdfAnnotation) * PdfAnnotationCollection :=
  let c := initAnnotations c in
  if length (m_Annots c) <=? index then (Throw ValueOutOfRange, c)
  else (Done (mjoin (m_Annots c !! index)), c).

(** Lines 101-112. *)
Definition addAnnotation (annot : PdfAnnotation) (c : PdfAnnotationCollection)
  : PdfAnnotationCollection :=
  let c := initAnnotations c in
  let arr := if m_annotArray c then default [] (page_Annots c) else [] in
  mkCollection (Some (AddIndirectSafe (GetObjectReference annot) arr)) true
    (<[GetObjectReference annot := GetSize arr]> <$> m_annotMap c)
    (m_Annots c ++ [Some annot]).

(** Lines 33-51.  The map entry erased is the one found under the
    reference of the annotation, which is there whenever the containers
    are in step ([InStep] below). *)
Definition RemoveAnnotAt (index : nat) (c : PdfAnnotationCollection)
  : Outcome unit * PdfAnnotationCollection :=
  let c := initAnnotations c in
  if length (m_Annots c) <=? index then (Throw ValueOutOfRange, c)
  else
    let m := match m_Annots c !! index with
             | Some (Some annot) =>
                 delete (GetObjectReference annot) <$> m_annotMap c
             | _ => m_annotMap c
             end in
    (Done tt,
     mkCollection (RemoveAt index <$> page_Annots c) (m_annotArray c)
       (fixIndices index <$> m) (delete index (m_Annots c))).

(** Lines 53-68. *)
Definition RemoveAnnot (ref : PdfReference) (c : PdfAnnotationCollection)
  : PdfAnnotationCollection :=
  let c := initAnnotations c in
  match m_annotMap c ≫= (fun m => m !! ref) with
  | None => c
  | Some index =>
      mkCollection (RemoveAt index <$> page_Annots c) (m_annotArray c)
        (fixIndices index <$> (delete ref <$> m_annotMap c))
        (delete index (m_Annots c))
  end.

(** The [/Annots] array as the collection sees it. *)
Definition annotArray (c : PdfAnnotationCollection) : list PdfReference :=
  if m_annotArray c then default [] (page_Annots c) else [].

(** The three containers are in step: the map sends exactly the
    reference at each index of the array to that index, the vector is as
    long as the array, and each annotation in it is that of the object at
    the same index. *)
Definition InStep (c : PdfAnnotationCollection) : Prop :=
  exists m, m_annotMap c = Some m /\
    (forall r i, m !! r = Some i <-> annotArray c !! i = Some r) /\
    length (m_Annots c) = length (annotArray c) /\
    (forall i annot, m_Annots c !! i = Some (Some annot) ->
                     annotArray c !! i = Some (GetObjectReference annot)).

End Collection.
End Annotations.

(** A page with three [/Annots] entries, the second of which does not
    make an annotation, and an annotation to add. *)
Module AnnotSamples.
Import Annotations.

Definition valid (obj : PdfReference) : bool :=
  negb (ObjectNumber obj =? 8).

Definition page_entries : option (list PdfReference) :=
  Some [mkReference 7 0; mkReference 8 0; mkReference 9 0].

Definition opened : PdfAnnotationCollection :=
  initAnnotations valid (PdfAnnotationCollection_new page_entries).

Definition note : PdfAnnotation := mkAnnotation (mkReference 20 0).

End AnnotSamples.

(** * Style markers in font names

    A shallow embedding of [extractBaseName] of
    [src/pdfmm/base/PdfFontManager.cpp] (lines 443-469), which
    [PdfFontManager::GetFont] and [GetFontSubset] call on the name they
    are given before they look the font up.  A [std::string] is a list
    of characters; [find] and [erase] are those of the C++ standard
    library. *)
Module FontNames.
Local Open Scope nat_scope.

(** The characters [needle] are at the start of [s]. *)
Fixpoint starts_with (needle s : list Ascii.ascii) : bool :=
  match needle, s with
  | [], _ => true
  | _ :: _, [] => false
  | a :: needle', b :: s' => Ascii.eqb a b && starts_with needle' s'
  end.

(** [s.find(needle)]: the first position at which [needle] occurs in [s],
    [None] for [npos]. *)
Fixpoint find (needle s : list Ascii.ascii) : option nat :=
  if starts_with needle s then Some 0
  else match s with
       | [] => None
       | _ :: s' => S <$> find needle s'
       end.

(** [s.erase(index, count)]: [None] is [std::out_of_range], raised when
    [index] is beyond the size; the characters removed are those that
    exist. *)
Definition erase (index count : nat) (s : list Ascii.ascii) : option (list Ascii.ascii) :=
  if length s <? index then None
  else Some (take index s ++ drop (index + count) s).

Definition BoldItalic : list Ascii.ascii := String.list_ascii_of_string ",BoldItalic".
Definition Bold : list Ascii.ascii := String.list_ascii_of_string ",Bold".
Definition Italic : list Ascii.ascii := String.list_ascii_of_string ",Italic".

(** What a call leaves behind: the name returned with the two flags, or
    the exception with the flags as they are when it is raised. *)
Inductive Extracted :=
| Returns (name : list Ascii.ascii) (isBold isItalic : bool)
| out_of_range (isBold isItalic : bool).

(** Lines 461-468. *)
Definition extractItalic (fontName name : list Ascii.ascii) (isBold isItalic : bool)
  : Extracted :=
  match find Italic fontName with
  | Some index =>
      match erase index (length Italic) name with
      | Some name => Returns name isBold true
      | None => out_of_range isBold isItalic
      end
  | None => Returns name isBold isItalic
  end.

(** Lines 454-468. *)
Definition extractBold (fontName name : list Ascii.ascii) (isBold isItalic : bool)
  : Extracted :=
  match find Bold fontName with
  | Some index =>
      match erase index (length Bold) name with
      | Some name => extractItalic fontName name true isItalic
      | None => out_of_range isBold isItalic
      end
  | None => extractItalic fontName name isBold isItalic
  end.

(** Lines 443-469.  The reference parameters [isBold] and [isItalic] are
    read on entry and returned. *)
Definition extractBaseName (fontName : list Ascii.ascii) (isBold isItalic : bool)
  : Extracted :=
  let name := fontName in
  match find BoldItalic fontName with
  | Some index =>
      match erase index (length BoldItalic) name with
      | Some name => extractBold fontName name true true
      | None => out_of_range isBold isItalic
      end
  | None => extractBold fontName name isBold isItalic
  end.

(** The marker occurs in the name. *)
Definition occurs (needle s : list Ascii.ascii) : bool :=
  match find needle s with Some _ => true | None => false end.

(** The comma every marker begins with. *)
Definition comma : Ascii.ascii := Ascii.ascii_of_nat 44.

(** An outcome with the characters [base] put back in front of the
    name. *)
Definition behind (base : list Ascii.ascii) (r : Extracted) : Extracted :=
  match r with
  | Returns name isBold isItalic => Returns (base ++ name) isBold isItalic
  | out_of_range isBold isItalic => out_of_range isBold isItalic
  end.

End FontNames.

(** Font names for the runs. *)
Module FontSamples.

Definition Arial : list Ascii.ascii := String.list_ascii_of_string "Arial".
Definition Times_Bold : list Ascii.ascii :=
  String.list_ascii_of_string "Times,Bold".
Definition Times : list Ascii.ascii := String.list_ascii_of_string "Times".

End FontSamples.

(** * Properties *)

Ltac unfold_monad :=
  unfold mbind, M_bind, mret, M_ret, gets, modify, when, PODOFO_ASSERT,
    PODOFO_RAISE_ERROR, withDevice, withTokenizer, Device_Seek, Device_Tell,
    SetDirty, Clear, FreeStream,
    EnableDelayedLoading, EnableDelayedLoadingStream, SetIndirectReference,
    GetDictionary, SetRawData, SetLoadOnDemand.

Ltac unfold_monad_in H :=
  unfold mbind, M_bind, mret, M_ret, gets, modify, when, PODOFO_ASSERT,
    PODOFO_RAISE_ERROR, withDevice, withTokenizer, Device_Seek, Device_Tell,
    SetDirty, Clear, FreeStream,
    EnableDelayedLoading, EnableDelayedLoadingStream, SetIndirectReference,
    GetDictionary, SetRawData, SetLoadOnDemand in H.

Lemma Seek_Tell (d : PdfInputDevice) : Seek (Tell d) d = d.
Proof. by destruct d. Qed.

Lemma CryptFilterLoop_run (filters : list PdfVariant) (o : PdfParserObject) :
  CryptFilterLoop filters o =
    (Ok tt, if existsb IsCryptName filters then set_pEncrypt None o else o).
Proof.
  revert o.
  induction filters as [|it filters IH]; intros o; first done.
  cbn [CryptFilterLoop foldr existsb].
  change (foldr _ _ filters) with (CryptFilterLoop filters).
  unfold mbind, M_bind.
  destruct it; cbn; rewrite ?IH; try done.
  destruct (String.eqb s "Crypt"); cbn; rewrite IH; last done.
  destruct (existsb IsCryptName filters); by destruct o.
Qed.

Lemma CryptFilterCheck_run (dict : gmap string PdfVariant) (o : PdfParserObject) :
  CryptFilterCheck dict o =
    (Ok tt,
     match m_pEncrypt o with
     | Some e =>
         if negb (IsMetadataEncrypted e) && HasCryptFilter dict
         then set_pEncrypt None o else o
     | None => o
     end).
Proof.
  unfold CryptFilterCheck, HasCryptFilter. unfold_monad.
  destruct (m_pEncrypt o) as [e|]; last done.
  destruct (IsMetadataEncrypted e); cbn; first done.
  destruct (dict !! KeyFilter) as [[]|]; try done.
  apply CryptFilterLoop_run.
Qed.

Section ParseStreamFacts.
Context {T : PdfTokenizer}.

(** The last part of [ParseStream], from the seek back to the saved
    position on, whatever the cursor was moved to in between. *)
Lemma ParseStream_read (o : PdfParserObject) (dev : PdfInputDevice)
    (doc : PdfDocument) (dict : gmap string PdfVariant) (n : Z) :
  ReadyForStream o dev doc dict ->
  LengthIs doc dict (StreamStart o dev) n ->
  ParseStream o = (Ok tt, StreamLoaded o dev dict n).
Proof.
  intros (Hdone & Hdev & Hdoc & Hvar) Hlen.
  unfold StreamLoaded, StreamEncrypt. unfold StreamStart in *.
  destruct o as [v ref odoc dirty dl dls st odev enc tr lod off bs so].
  cbn in Hdone, Hdev, Hdoc, Hvar; subst.
  cbn [m_lStreamOffset] in *.
  set (start := ConsumeStreamEol (Seek so dev)) in *.
  unfold ParseStream, ResolveLength. unfold_monad. cbn.
  fold start.
  assert (Hseek : mkDevice (dev_data start) (Tell start) = start)
    by apply Seek_Tell.
  destruct Hlen as [Hn | (r & Hr & Hobj)].
  - rewrite Hn. cbn. rewrite CryptFilterCheck_run. cbn.
    unfold Seek. cbn. rewrite !Hseek.
    destruct enc as [e|]; cbn; last done.
    destruct (negb (IsMetadataEncrypted e) && HasCryptFilter dict); by cbn.
  - rewrite Hr. cbn.
    destruct (GetObject (GetObjects doc) r start) as [found cursor].
    cbn in Hobj; subst found. cbn.
    rewrite CryptFilterCheck_run. cbn.
    unfold Seek. cbn. rewrite !Hseek.
    destruct enc as [e|]; cbn; last done.
    destruct (negb (IsMetadataEncrypted e) && HasCryptFilter dict); by cbn.
Qed.

End ParseStreamFacts.

(** ** Releasing the memory of an object *)

(** C7.  [FreeObjectMemory(force)] never fails.  When the object supports
    demand loading and either [force] is set or the object is not dirty,
    it nulls the body value, drops the stream and puts both delayed-load
    flags back to "not loaded"; in every other case the object comes back
    exactly as it was. *)
Theorem FreeObjectMemory_effect (bForce : bool) (o : PdfParserObject) :
  let applies := IsLoadOnDemand o = true /\ (bForce = true \/ m_IsDirty o = false) in
  let o' := (FreeObjectMemory bForce o).2 in
  (FreeObjectMemory bForce o).1 = Ok tt /\
  (applies ->
     m_Variant o' = PdfNull /\ m_Stream o' = None /\
     m_DelayedLoadDone o' = false /\ m_DelayedLoadStreamDone o' = false) /\
  (~ applies -> o' = o).
Proof.
  destruct o as [v ref odoc dirty dl dls st odev enc tr lod off bs so].
  unfold FreeObjectMemory, IsLoadOnDemand. unfold_monad. cbn.
  destruct lod, bForce, dirty; cbn; intuition congruence.
Qed.

(** ** Loading the stream *)

Section StreamLoad.
Context {T : PdfTokenizer}.

Lemma GetChar_byte (p c : Z) (dev : PdfInputDevice) :
  Look (Seek p dev) = c -> c <> EOF ->
  GetChar (Seek p dev) = (c, Seek (p + 1) dev).
Proof.
  intros Hc Hne. unfold GetChar. rewrite Hc.
  by destruct (Z.eqb_spec c EOF).
Qed.

Lemma ConsumeStreamEol_crlf (p : Z) (dev : PdfInputDevice) :
  IsWhitespace CR = true ->
  Look (Seek p dev) = CR -> Look (Seek (p + 1) dev) = LF ->
  ConsumeStreamEol (Seek p dev) = Seek (p + 2) dev.
Proof.
  intros Hws H0 H1. unfold ConsumeStreamEol.
  rewrite (GetChar_byte p CR), H0, Hws by done.
  rewrite H1, (GetChar_byte (p + 1) LF) by done.
  cbv beta iota zeta. change (LF =? LF) with true. change (CR =? CR) with true.
  cbv beta iota. unfold snd, Seek. f_equal. lia.
Qed.

Lemma ConsumeStreamEol_lf (p : Z) (dev : PdfInputDevice) :
  IsWhitespace LF = true ->
  Look (Seek p dev) = LF ->
  ConsumeStreamEol (Seek p dev) = Seek (p + 1) dev.
Proof.
  intros Hws H0. unfold ConsumeStreamEol.
  by rewrite (GetChar_byte p LF), H0, Hws.
Qed.

Lemma ConsumeStreamEol_cr (p : Z) (dev : PdfInputDevice) :
  IsWhitespace CR = true ->
  Look (Seek p dev) = CR -> Look (Seek (p + 1) dev) <> LF ->
  ConsumeStreamEol (Seek p dev) = Seek (p + 1) dev.
Proof.
  intros Hws H0 H1. unfold ConsumeStreamEol.
  rewrite (GetChar_byte p CR), H0, Hws by done.
  cbv beta iota zeta. change (CR =? CR) with true. cbv beta iota.
  by destruct (Z.eqb_spec (Look (Seek (p + 1) dev)) LF).
Qed.

(** C3.  In a stream-load the marker consumed between the [stream]
    keyword and the data is two bytes for a carriage return followed by
    a line feed, one byte for a line feed, and one byte for a carriage
    return that no line feed follows: the raw bytes of the stream are
    then read from the byte right after that carriage return. *)
Theorem ParseStream_terminator (o : PdfParserObject) (dev : PdfInputDevice)
    (doc : PdfDocument) (dict : gmap string PdfVariant) (n : Z) :
  IsWhitespace CR = true -> IsWhitespace LF = true ->
  ReadyForStream o dev doc dict ->
  LengthIs doc dict (StreamStart o dev) n ->
  let p := m_lStreamOffset o in
  let byte k := Look (Seek (p + k) dev) in
  let reads_from k o' :=
    let raw := Read n (Seek (p + k) dev) in
    m_Stream o' = Some (mkStream (Payload (m_pEncrypt o') raw)) /\
    m_device o' = Some (Seek (p + k + Z.of_nat (length raw)) dev) in
  exists o', ParseStream o = (Ok tt, o') /\
    (byte 0 = CR -> byte 1 = LF -> reads_from 2 o') /\
    (byte 0 = LF -> reads_from 1 o') /\
    (byte 0 = CR -> byte 1 <> LF -> reads_from 1 o').
Proof.
  intros Hcr Hlf Hready Hlen p byte reads_from.
  exists (StreamLoaded o dev dict n).
  split; first by apply ParseStream_read with doc.
  subst byte reads_from. cbn beta. rewrite Z.add_0_r.
  unfold StreamLoaded, StreamStart. fold p.
  destruct o as [v ref odoc dirty dl dls st odev enc tr lod off bs so].
  cbn in p. subst p. cbn.
  repeat split.
  all: intros; first
    [ rewrite ConsumeStreamEol_crlf by done
    | rewrite ConsumeStreamEol_lf by done
    | rewrite ConsumeStreamEol_cr by done ]; done.
Qed.

(** C9.  In every stream-load whose [/Length] is the number [n] the
    position right after the end-of-line marker is what the stream is
    read from: the load stores the [n] bytes found there and leaves the
    device just past them.  This holds also when [/Length] is an indirect
    reference and the store, run on the device at that position, leaves
    the cursor at an arbitrary [cursor]: the [/Length] step ends with the
    device there, and the bytes are still read from the saved position. *)
Theorem ParseStream_restores_position (o : PdfParserObject)
    (dev : PdfInputDevice) (doc : PdfDocument)
    (dict : gmap string PdfVariant) (n : Z) :
  ReadyForStream o dev doc dict ->
  LengthIs doc dict (StreamStart o dev) n ->
  let start := StreamStart o dev in
  let raw := Read n start in
  (exists o', ParseStream o = (Ok tt, o') /\
     m_Stream o' = Some (mkStream (Payload (m_pEncrypt o') raw)) /\
     m_device o' = Some (Advance (Z.of_nat (length raw)) start)) /\
  (forall r cursor,
     dict !! KeyLength = Some (PdfRef r) ->
     GetObject (GetObjects doc) r start = (Some (PdfNumber n), cursor) ->
     ResolveLength doc dict (set_device (Some start) o) =
       (Ok n, set_device (Some (Seek cursor start)) o)).
Proof.
  intros Hready Hlen start raw. split.
  - exists (StreamLoaded o dev dict n). split.
    + by apply ParseStream_read with doc.
    + unfold StreamLoaded. fold start raw. by destruct o.
  - intros r cursor Hr Hobj. clearbody start.
    unfold ResolveLength. rewrite Hr. unfold_monad.
    destruct o; cbn. by rewrite Hobj.
Qed.

(** C2.  In a stream-load with an encryption context [e] in effect:
    when [e] reports metadata as not encrypted and the [/Filter] value of
    the object is an array containing the name [Crypt], the payload is
    the raw bytes, read without the decoding transform (and the object
    drops its context); otherwise the payload is the raw bytes passed
    through the decoding transform of [e] keyed with the reference of the
    object. *)
Theorem ParseStream_decryption (o : PdfParserObject) (dev : PdfInputDevice)
    (doc : PdfDocument) (dict : gmap string PdfVariant) (e : PdfEncrypt)
    (n : Z) :
  ReadyForStream o dev doc dict ->
  LengthIs doc dict (StreamStart o dev) n ->
  m_pEncrypt o = Some e ->
  let raw := Read n (StreamStart o dev) in
  exists o', ParseStream o = (Ok tt, o') /\
    if negb (IsMetadataEncrypted e) && HasCryptFilter dict
    then m_Stream o' = Some (mkStream raw) /\ m_pEncrypt o' = None
    else m_Stream o' =
           Some (mkStream (DecryptWith e (m_IndirectReference o) raw)) /\
         m_pEncrypt o' = Some (SetCurrentReference (m_IndirectReference o) e).
Proof.
  intros Hready Hlen Henc raw.
  exists (StreamLoaded o dev dict n).
  split; first by apply ParseStream_read with doc.
  unfold StreamLoaded, StreamEncrypt. fold raw. rewrite Henc.
  destruct o; cbn.
  destruct (negb (IsMetadataEncrypted e) && HasCryptFilter dict); by cbn.
Qed.

(** A failure of the [/Length] step is the failure of the load. *)
Lemma ParseStream_length_error (o : PdfParserObject) (dev : PdfInputDevice)
    (doc : PdfDocument) (dict : gmap string PdfVariant) (e : EPdfError)
    (o1 : PdfParserObject) :
  ReadyForStream o dev doc dict ->
  ResolveLength doc dict (set_device (Some (StreamStart o dev)) o) = (Raise e, o1) ->
  ParseStream o = (Raise e, o1).
Proof.
  intros (Hdone & Hdev & Hdoc & Hvar). unfold StreamStart.
  destruct o as [v ref odoc dirty dl dls st odev enc tr lod off bs so].
  cbn in Hdone, Hdev, Hdoc, Hvar; subst. cbn [m_lStreamOffset].
  intros Hres. unfold ParseStream. unfold_monad. cbn.
  cbn in Hres. by rewrite Hres.
Qed.

(** The [/Length] step on an object whose device is [d]. *)
Lemma ResolveLength_run (doc : PdfDocument) (dict : gmap string PdfVariant)
    (d : PdfInputDevice) (o : PdfParserObject) :
  m_device o = Some d ->
  ResolveLength doc dict o =
    match dict !! KeyLength with
    | Some (PdfNumber n) => (Ok n, o)
    | Some (PdfRef r) =>
        (match (GetObject (GetObjects doc) r d).1 with
         | Some (PdfNumber n) => Ok n
         | Some _ => Raise InvalidStreamLength
         | None => Raise InvalidHandle
         end,
         set_device (Some (Seek (GetObject (GetObjects doc) r d).2 d)) o)
    | _ => (Raise InvalidStreamLength, o)
    end.
Proof.
  intros Hdev. unfold ResolveLength.
  destruct (dict !! KeyLength) as [[]|]; try done.
  unfold_monad. rewrite Hdev.
  destruct (GetObject (GetObjects doc) r d) as [found cursor]. cbn.
  by destruct found as [[]|].
Qed.

Lemma ResolveLength_ok_inv (doc : PdfDocument) (dict : gmap string PdfVariant)
    (d : PdfInputDevice) (o o1 : PdfParserObject) (n : Z) :
  m_device o = Some d ->
  ResolveLength doc dict o = (Ok n, o1) -> LengthIs doc dict d n.
Proof.
  intros Hdev. rewrite (ResolveLength_run doc dict d o Hdev). unfold LengthIs.
  destruct (dict !! KeyLength) as [[]|]; try done.
  - intros [= -> _]. by left.
  - destruct (GetObject (GetObjects doc) r d) as [found cursor] eqn:Hobj.
    cbn. destruct found as [[]|]; try done.
    intros [= -> _]. right. exists r. by rewrite Hobj.
Qed.

(** C1, as the code has it.  In a stream-load that reaches the [/Length]
    key: a direct number is used as the stream length; an indirect
    reference is looked up in the object store, and a number found there
    is used as the stream length, a value of another type fails the load
    with [InvalidStreamLength], and no object at all fails it with
    [InvalidHandle]; a [/Length] of any other form, or none, fails the
    load with [InvalidStreamLength]. *)
Theorem ParseStream_length (o : PdfParserObject) (dev : PdfInputDevice)
    (doc : PdfDocument) (dict : gmap string PdfVariant) :
  ReadyForStream o dev doc dict ->
  let start := StreamStart o dev in
  let loads n :=
    exists o', ParseStream o = (Ok tt, o') /\
      m_Stream o' = Some (mkStream (Payload (m_pEncrypt o') (Read n start))) in
  match dict !! KeyLength with
  | Some (PdfNumber n) => loads n
  | Some (PdfRef r) =>
      match (GetObject (GetObjects doc) r start).1 with
      | Some (PdfNumber n) => loads n
      | Some _ => (ParseStream o).1 = Raise InvalidStreamLength
      | None => (ParseStream o).1 = Raise InvalidHandle
      end
  | _ => (ParseStream o).1 = Raise InvalidStreamLength
  end.
Proof.
  intros Hready start loads.
  assert (Hloads : forall n, LengthIs doc dict start n -> loads n).
  { intros n Hn. exists (StreamLoaded o dev dict n).
    split; first by apply ParseStream_read with doc.
    unfold StreamLoaded. by destruct o. }
  assert (Hfails : forall e,
    (ResolveLength doc dict (set_device (Some start) o)).1 = Raise e ->
    (ParseStream o).1 = Raise e).
  { intros e He.
    destruct (ResolveLength doc dict (set_device (Some start) o))
      as [res o1] eqn:Hres.
    cbn in He; subst res.
    by rewrite (ParseStream_length_error o dev doc dict e o1). }
  assert (Hdev : m_device (set_device (Some start) o) = Some start)
    by by destruct o.
  pose proof (ResolveLength_run doc dict start _ Hdev) as Hrun.
  destruct (dict !! KeyLength) as [[]|] eqn:Hlen;
    try (apply Hfails; by rewrite Hrun).
  - apply Hloads. by left.
  - destruct (GetObject (GetObjects doc) r start) as [found cursor] eqn:Hobj.
    cbn [fst snd] in *.
    destruct found as [[]|]; try (apply Hfails; by rewrite Hrun).
    apply Hloads. right. exists r. by rewrite Hobj.
Qed.

(** A stream-load succeeds only from a ready object whose [/Length] is a
    number, directly or through the store. *)
Lemma ParseStream_ok_inv (o o' : PdfParserObject) :
  ParseStream o = (Ok tt, o') ->
  exists dev doc dict n,
    ReadyForStream o dev doc dict /\ LengthIs doc dict (StreamStart o dev) n.
Proof.
  intros Hok.
  destruct o as [v ref odoc dirty dl dls st odev enc tr lod off bs so].
  destruct dl, odev as [dev|], odoc as [doc|];
    try (unfold ParseStream in Hok; unfold_monad_in Hok; by cbn in Hok).
  destruct v as [| | | | | | |dict| |];
    try (unfold ParseStream in Hok; unfold_monad_in Hok; by cbn in Hok).
  exists dev, doc, dict.
  match type of Hok with ParseStream ?x = _ => set (o := x) in * end.
  assert (Hready : ReadyForStream o dev doc dict) by done.
  destruct (ResolveLength doc dict (set_device (Some (StreamStart o dev)) o))
    as [[n|e] o1] eqn:Hres.
  - exists n. split; first done.
    by apply (ResolveLength_ok_inv doc dict (StreamStart o dev) _ o1 n)
      in Hres.
  - by rewrite (ParseStream_length_error o dev doc dict e o1) in Hok.
Qed.

(** A successful stream-load leaves the object clean. *)
Lemma ParseStream_ok_clean (o o' : PdfParserObject) :
  ParseStream o = (Ok tt, o') -> m_IsDirty o' = false.
Proof.
  intros Hok.
  destruct (ParseStream_ok_inv o o' Hok) as (dev & doc & dict & n & Hr & Hl).
  rewrite (ParseStream_read o dev doc dict n Hr Hl) in Hok.
  injection Hok as <-. unfold StreamLoaded. by destruct o.
Qed.

End StreamLoad.

(** ** Loading the body *)

Section BodyLoad.
Context {T : PdfTokenizer}.

(** [ParseFileComplete] on an object with a device, written as the tree
    of the answers of the tokenizer. *)
Lemma ParseFileComplete_run (bIsTrailer : bool) (o : PdfParserObject)
    (dev : PdfInputDevice) :
  m_device o = Some dev ->
  ParseFileComplete bIsTrailer o =
    let enc := SetCurrentReference (m_IndirectReference o) <$> m_pEncrypt o in
    let o0 := set_pEncrypt enc o in
    match GetNextToken (Seek (m_lOffset o) dev) with
    | (None, d1) => (Raise UnexpectedEOF, set_device (Some d1) o0)
    | (Some (t, ty), d1) =>
        if strncmp_eq t "endobj" then (Ok tt, set_device (Some d1) o0)
        else
          match GetNextVariant t ty enc d1 with
          | (Raise e, d2) => (Raise e, set_device (Some d2) o0)
          | (Ok v, d2) =>
              let o2 := set_IsDirty false
                          (set_Variant v (set_device (Some d2) o0)) in
              if bIsTrailer then (Ok tt, o2)
              else
                match GetNextToken d2 with
                | (None, d3) => (Raise UnexpectedEOF, set_device (Some d3) o2)
                | (Some (t2, _), d3) =>
                    if strncmp_eq t2 "endobj"
                    then (Ok tt, set_device (Some d3) o2)
                    else if IsDictionary v && strncmp_eq t2 "stream"
                    then (Ok tt,
                          set_lStreamOffset (Tell d3)
                            (set_bStream true (set_device (Some d3) o2)))
                    else (Raise NoObject, set_device (Some d3) o2)
                end
          end
    end.
Proof.
  intros Hdev.
  destruct o as [v ref odoc dirty dl dls st odev enc tr lod off bs so].
  cbn in Hdev; subst odev.
  unfold ParseFileComplete. unfold_monad. cbn.
  destruct (GetNextToken (Seek off dev)) as [[[t ty]|] d1]; cbn; last done.
  destruct (strncmp_eq t "endobj"); cbn; first done.
  destruct (GetNextVariant t ty (SetCurrentReference ref <$> enc) d1)
    as [[v'|e] d2]; cbn; last done.
  destruct bIsTrailer; cbn; first done.
  destruct (GetNextToken d2) as [[[t2 ty2]|] d3]; cbn; last done.
  destruct (strncmp_eq t2 "endobj"); cbn; first done.
  destruct (IsDictionary v' && strncmp_eq t2 "stream"); by cbn.
Qed.

Lemma ParseFileComplete_no_device (bIsTrailer : bool) (o : PdfParserObject) :
  m_device o = None ->
  ParseFileComplete bIsTrailer o = (Raise InvalidHandle, o).
Proof.
  intros Hdev. destruct o. cbn in Hdev. subst.
  unfold ParseFileComplete. unfold_monad. done.
Qed.

Lemma DelayedLoad_run (o : PdfParserObject) :
  DelayedLoad o =
    if m_DelayedLoadDone o then (Ok tt, o)
    else match ParseFileComplete (m_bIsTrailer o) o with
         | (Ok _, o') => (Ok tt, set_DelayedLoadDone true o')
         | (Raise e, o') => (Raise e, o')
         end.
Proof.
  unfold DelayedLoad, DelayedLoadImpl. unfold_monad.
  destruct (m_DelayedLoadDone o); cbn; first done.
  by destruct (ParseFileComplete (m_bIsTrailer o) o) as [[[]|e] o'].
Qed.

(** [ParseFile] on an object with a device, written as the tree of the
    answers of the tokenizer. *)
Lemma ParseFile_run (pEncrypt : option PdfEncrypt) (bIsTrailer : bool)
    (o : PdfParserObject) (dev : PdfInputDevice) :
  m_device o = Some dev ->
  ParseFile pEncrypt bIsTrailer o =
    let d0 := if 0 <=? m_lOffset o then Seek (m_lOffset o) dev else dev in
    let finish o' d :=
      let o1 := HeaderDone pEncrypt bIsTrailer d o' in
      if m_bLoadOnDemand o then (Ok tt, o1) else DelayedLoad o1 in
    if bIsTrailer then finish o d0
    else
      match GetNextNumber d0 with
      | (Raise e, d1) => (Raise e, set_device (Some d1) o)
      | (Ok obj, d1) =>
          match GetNextNumber d1 with
          | (Raise e, d2) => (Raise e, set_device (Some d2) o)
          | (Ok gen, d2) =>
              let o' := set_IndirectReference (PdfReference_of obj gen) o in
              match IsNextToken "obj" d2 with
              | (Raise e, d3) => (Raise e, set_device (Some d3) o')
              | (Ok isObj, d3) =>
                  if isObj then finish o' d3
                  else (Raise NoObject, set_device (Some d3) o')
              end
          end
      end.
Proof.
  intros Hdev.
  destruct o as [v ref odoc dirty dl dls st odev enc tr lod off bs so].
  cbn in Hdev; subst odev.
  unfold ParseFile, ReadObjectNumber, HeaderDone. unfold_monad. cbn.
  destruct (0 <=? off); cbn.
  all: destruct bIsTrailer; cbn; [by destruct lod|].
  all: match goal with
       | |- context [GetNextNumber ?d] =>
           destruct (GetNextNumber d) as [[obj|e] d1]; cbn; [|done]
       end.
  all: destruct (GetNextNumber d1) as [[gen|e] d2]; cbn; [|done].
  all: destruct (IsNextToken "obj" d2) as [[[]|e] d3]; cbn; [|done|done].
  all: by destruct lod.
Qed.

(** C5.  [ParseFile] on an object with a device and a recorded offset
    reads from the device sought to that offset.  For a trailer no header
    is read.  Otherwise the two numbers and the token after them are
    read: a token that is not [obj] raises [NoObject], and a header that
    is there gives the object its reference.  After the header, with
    demand loading switched on nothing more is read; with demand loading
    switched off the load is forced at once: on an object not yet loaded
    the outcome of [ParseFile] is that of the body-load hook run on the
    spot, followed by the loaded mark. *)
Theorem ParseFile_header_and_forced_load (pEncrypt : option PdfEncrypt)
    (bIsTrailer : bool) (o : PdfParserObject) (dev : PdfInputDevice) :
  m_device o = Some dev ->
  0 <= m_lOffset o ->
  let d0 := Seek (m_lOffset o) dev in
  let proceeds o' d :=
    let o1 := HeaderDone pEncrypt bIsTrailer d o' in
    ParseFile pEncrypt bIsTrailer o =
      if m_bLoadOnDemand o then (Ok tt, o1)
      else if m_DelayedLoadDone o then (Ok tt, o1)
      else (DelayedLoadImpl;; modify (set_DelayedLoadDone true)) o1 in
  if bIsTrailer then proceeds o d0
  else
    forall (obj gen : Z) (isObj : bool) (d1 d2 d3 : PdfInputDevice),
      GetNextNumber d0 = (Ok obj, d1) ->
      GetNextNumber d1 = (Ok gen, d2) ->
      IsNextToken "obj" d2 = (Ok isObj, d3) ->
      if isObj
      then proceeds (set_IndirectReference (PdfReference_of obj gen) o) d3
      else (ParseFile pEncrypt bIsTrailer o).1 = Raise NoObject.
Proof.
  intros Hdev Hoff d0 proceeds.
  assert (Hfinish : forall o' d,
    m_DelayedLoadDone o' = m_DelayedLoadDone o ->
    (if m_bLoadOnDemand o then (Ok tt, HeaderDone pEncrypt bIsTrailer d o')
     else DelayedLoad (HeaderDone pEncrypt bIsTrailer d o')) =
    (if m_bLoadOnDemand o then (Ok tt, HeaderDone pEncrypt bIsTrailer d o')
     else if m_DelayedLoadDone o
          then (Ok tt, HeaderDone pEncrypt bIsTrailer d o')
          else (DelayedLoadImpl;; modify (set_DelayedLoadDone true))
                 (HeaderDone pEncrypt bIsTrailer d o'))).
  { intros o' d Hsame. destruct (m_bLoadOnDemand o); first done.
    unfold DelayedLoad. unfold_monad.
    replace (m_DelayedLoadDone (HeaderDone pEncrypt bIsTrailer d o'))
      with (m_DelayedLoadDone o) by (rewrite <- Hsame; by destruct o').
    by destruct (m_DelayedLoadDone o). }
  subst proceeds. cbv beta zeta.
  rewrite (ParseFile_run pEncrypt bIsTrailer o dev Hdev). cbv zeta.
  destruct (Z.leb_spec 0 (m_lOffset o)); last lia. fold d0.
  destruct bIsTrailer; first by apply Hfinish.
  intros obj gen isObj d1 d2 d3 H1 H2 H3. rewrite H1, H2, H3.
  destruct isObj; last done.
  apply Hfinish. by destruct o.
Qed.

Lemma DelayedLoadStreamImpl_run (o : PdfParserObject) :
  DelayedLoadStreamImpl o =
    if is_nullptr (m_Stream o)
    then if HasStreamToParse o then ParseStream o else (Ok tt, o)
    else (Raise InternalLogic, o).
Proof.
  unfold DelayedLoadStreamImpl. unfold_monad.
  destruct (m_Stream o); cbn; first done.
  by destruct (HasStreamToParse o).
Qed.

Lemma DelayedLoadStream_run (o : PdfParserObject) :
  DelayedLoadStream o =
    match DelayedLoad o with
    | (Raise e, o2) => (Raise e, o2)
    | (Ok _, o2) =>
        if m_DelayedLoadStreamDone o2 then (Ok tt, o2)
        else match DelayedLoadStreamImpl o2 with
             | (Ok _, o3) => (Ok tt, set_DelayedLoadStreamDone true o3)
             | (Raise e, o3) => (Raise e, o3)
             end
    end.
Proof.
  unfold DelayedLoadStream. unfold_monad.
  destruct (DelayedLoad o) as [[[]|e] o2]; last done.
  destruct (m_DelayedLoadStreamDone o2); cbn; first done.
  by destruct (DelayedLoadStreamImpl o2) as [[[]|e] o3].
Qed.

(** *** What the loaders leave alone *)

(** The body-load never dirties an object. *)
Lemma ParseFileComplete_clean (bIsTrailer : bool) (o : PdfParserObject) :
  m_IsDirty o = false -> m_IsDirty (ParseFileComplete bIsTrailer o).2 = false.
Proof.
  intros Hclean. destruct (m_device o) as [dev|] eqn:Hdev.
  2: by rewrite ParseFileComplete_no_device.
  rewrite (ParseFileComplete_run bIsTrailer o dev Hdev). cbv zeta.
  destruct o as [v ref odoc dirty dl dls st odev enc tr lod off bs so].
  cbn in Hclean; subst dirty.
  repeat case_match; done.
Qed.

Lemma DelayedLoad_clean (o : PdfParserObject) :
  m_IsDirty o = false -> m_IsDirty (DelayedLoad o).2 = false.
Proof.
  intros Hclean. rewrite DelayedLoad_run.
  destruct (m_DelayedLoadDone o); first done.
  pose proof (ParseFileComplete_clean (m_bIsTrailer o) o Hclean) as Hc.
  destruct (ParseFileComplete (m_bIsTrailer o) o) as [[[]|e] o'];
    cbn in *; last done.
  by destruct o'.
Qed.

Lemma ParseFile_no_device (pEncrypt : option PdfEncrypt) (bIsTrailer : bool)
    (o : PdfParserObject) :
  m_device o = None ->
  ParseFile pEncrypt bIsTrailer o = (Raise InvalidHandle, o).
Proof.
  intros Hdev. destruct o. cbn in Hdev. subst.
  unfold ParseFile. unfold_monad. done.
Qed.

Lemma ParseFile_clean (pEncrypt : option PdfEncrypt) (bIsTrailer : bool)
    (o : PdfParserObject) :
  m_IsDirty o = false ->
  m_IsDirty (ParseFile pEncrypt bIsTrailer o).2 = false.
Proof.
  intros Hclean. destruct (m_device o) as [dev|] eqn:Hdev.
  2: by rewrite ParseFile_no_device.
  rewrite (ParseFile_run pEncrypt bIsTrailer o dev Hdev). cbv zeta.
  assert (Hfinish : forall o' d, m_IsDirty o' = false ->
    m_IsDirty (if m_bLoadOnDemand o
               then (Ok tt, HeaderDone pEncrypt bIsTrailer d o')
               else DelayedLoad (HeaderDone pEncrypt bIsTrailer d o')).2 = false).
  { intros o' d Hc. destruct (m_bLoadOnDemand o).
    - by destruct o'.
    - apply DelayedLoad_clean. by destruct o'. }
  destruct bIsTrailer; first by apply Hfinish.
  destruct (GetNextNumber _) as [[obj|e] d1]; last by destruct o.
  destruct (GetNextNumber d1) as [[gen|e] d2]; last by destruct o.
  destruct (IsNextToken "obj" d2) as [[[]|e] d3]; try by destruct o.
  apply Hfinish. by destruct o.
Qed.

Lemma DelayedLoadStream_ok_clean (o o' : PdfParserObject) :
  m_IsDirty o = false ->
  DelayedLoadStream o = (Ok tt, o') -> m_IsDirty o' = false.
Proof.
  intros Hclean. rewrite DelayedLoadStream_run.
  pose proof (DelayedLoad_clean o Hclean) as Hc.
  destruct (DelayedLoad o) as [[[]|e] o2]; cbn in Hc; last done.
  destruct (m_DelayedLoadStreamDone o2); first by intros [= <-].
  rewrite DelayedLoadStreamImpl_run.
  destruct (is_nullptr (m_Stream o2)); last done.
  destruct (HasStreamToParse o2).
  - destruct (ParseStream o2) as [[[]|e] o3] eqn:Hps; last done.
    intros [= <-]. apply ParseStream_ok_clean in Hps. by destruct o3.
  - intros [= <-]. by destruct o2.
Qed.

(** The body-load of a trailer leaves the stream mark and the stream
    alone, whatever its outcome. *)
Lemma ParseFileComplete_trailer_frame (o : PdfParserObject) :
  let o' := (ParseFileComplete true o).2 in
  m_bStream o' = m_bStream o /\ m_Stream o' = m_Stream o /\
  m_bIsTrailer o' = m_bIsTrailer o.
Proof.
  destruct (m_device o) as [dev|] eqn:Hdev.
  2: by rewrite ParseFileComplete_no_device.
  rewrite (ParseFileComplete_run true o dev Hdev). cbv zeta.
  destruct o as [v ref odoc dirty dl dls st odev enc tr lod off bs so].
  repeat case_match; done.
Qed.

Lemma DelayedLoad_trailer_frame (o : PdfParserObject) :
  m_bIsTrailer o = true ->
  let o' := (DelayedLoad o).2 in
  m_bStream o' = m_bStream o /\ m_Stream o' = m_Stream o /\
  m_bIsTrailer o' = true.
Proof.
  intros Htr. rewrite DelayedLoad_run.
  destruct (m_DelayedLoadDone o); first done.
  rewrite Htr.
  pose proof (ParseFileComplete_trailer_frame o) as Hf. cbv zeta in Hf.
  rewrite Htr in Hf.
  destruct (ParseFileComplete true o) as [[[]|e] o'];
    cbn in *; last done.
  by destruct o'.
Qed.

Lemma ParseFile_trailer_frame (pEncrypt : option PdfEncrypt)
    (o : PdfParserObject) :
  let o' := (ParseFile pEncrypt true o).2 in
  m_bStream o' = m_bStream o /\ m_Stream o' = m_Stream o.
Proof.
  destruct (m_device o) as [dev|] eqn:Hdev.
  2: by rewrite ParseFile_no_device.
  rewrite (ParseFile_run pEncrypt true o dev Hdev). cbv zeta.
  destruct (m_bLoadOnDemand o); first by destruct o.
  set (d0 := if 0 <=? m_lOffset o then _ else _).
  destruct (DelayedLoad_trailer_frame (HeaderDone pEncrypt true d0 o))
    as (Hb & Hs & _); first by destruct o.
  rewrite Hb, Hs. by destruct o.
Qed.

(** C4, as the code has it.  In the body-load of a non-trailer object
    that parses a value [v], the token [t2] after the value decides:
    when its first six characters are [endobj] the load succeeds and
    marks nothing; otherwise, when [v] is a dictionary and the first six
    characters of [t2] are [stream], the load succeeds, marks the object
    as having a stream to parse and records the device position after
    the token as the stream start, without touching the stream of the
    object or reading further; in every other case the load raises
    [NoObject]. *)
Theorem ParseFileComplete_trailing_token (o : PdfParserObject)
    (dev d1 d2 d3 : PdfInputDevice) (t t2 : string) (ty ty2 : EPdfTokenType)
    (v : PdfVariant) :
  m_device o = Some dev ->
  GetNextToken (Seek (m_lOffset o) dev) = (Some (t, ty), d1) ->
  strncmp_eq t "endobj" = false ->
  GetNextVariant t ty
    (SetCurrentReference (m_IndirectReference o) <$> m_pEncrypt o) d1 = (Ok v, d2) ->
  GetNextToken d2 = (Some (t2, ty2), d3) ->
  let r := (ParseFileComplete false o).1 in
  let o' := (ParseFileComplete false o).2 in
  m_Variant o' = v /\ m_Stream o' = m_Stream o /\ m_device o' = Some d3 /\
  if strncmp_eq t2 "endobj" then
    r = Ok tt /\ m_bStream o' = m_bStream o /\
    m_lStreamOffset o' = m_lStreamOffset o
  else if IsDictionary v && strncmp_eq t2 "stream" then
    r = Ok tt /\ m_bStream o' = true /\ m_lStreamOffset o' = Tell d3
  else r = Raise NoObject.
Proof.
  intros Hdev Htok Hne Hvar Htok2.
  rewrite (ParseFileComplete_run false o dev Hdev).
  cbv zeta. rewrite Htok, Hne, Hvar, Htok2.
  destruct o as [v0 ref odoc dirty dl dls st odev enc tr lod off bs so].
  destruct (strncmp_eq t2 "endobj"); first done.
  destruct (IsDictionary v && strncmp_eq t2 "stream"); done.
Qed.

End BodyLoad.

(** ** From construction to a loaded object *)

Section Lifecycle.
Context {T : PdfTokenizer}.

(** C6.  A parser object built by the constructor and then parsed,
    whose header reads as [obj gen obj] and whose first token after the
    header is [endobj], ends up with the reference of the header, a null
    value and no stream, whether the load was forced by [ParseFile] or
    made on demand; a stream-load on it finds nothing to parse and
    leaves it so. *)
Theorem empty_object_is_null (doc : option PdfDocument)
    (dev d1 d2 d3 d4 : PdfInputDevice) (lOffset obj gen : Z) (lod : bool)
    (pEncrypt : option PdfEncrypt) (ty : EPdfTokenType) :
  let o0 := set_bLoadOnDemand lod (PdfParserObject_new doc (Some dev) lOffset) in
  GetNextNumber (Seek (m_lOffset o0) dev) = (Ok obj, d1) ->
  GetNextNumber d1 = (Ok gen, d2) ->
  IsNextToken "obj" d2 = (Ok true, d3) ->
  GetNextToken d3 = (Some ("endobj", ty), d4) ->
  exists o', (ParseFile pEncrypt false;; DelayedLoad) o0 = (Ok tt, o') /\
    m_IndirectReference o' = PdfReference_of obj gen /\
    m_Variant o' = PdfNull /\ m_Stream o' = None /\
    HasStreamToParse o' = false /\
    exists o'', DelayedLoadStream o' = (Ok tt, o'') /\
      m_Variant o'' = PdfNull /\ m_Stream o'' = None.
Proof.
  intros o0 H1 H2 H3 H4.
  assert (Hd0 : (if 0 <=? m_lOffset o0 then Seek (m_lOffset o0) dev else dev)
                = Seek (m_lOffset o0) dev).
  { destruct (Z.leb_spec 0 (m_lOffset o0)) as [|Hneg]; first done.
    subst o0. cbn in *. destruct (lOffset <? 0) eqn:Hlt.
    - by rewrite Seek_Tell.
    - apply Z.ltb_ge in Hlt. lia. }
  set (o1 := HeaderDone pEncrypt false d3
               (set_IndirectReference (PdfReference_of obj gen) o0)).
  assert (Hbody : ParseFileComplete false o1 =
    (Ok tt, set_device (Some d4)
              (set_pEncrypt (SetCurrentReference (PdfReference_of obj gen)
                               <$> pEncrypt) o1))).
  { rewrite (ParseFileComplete_run false o1 d3) by done. cbv zeta.
    replace (Seek (m_lOffset o1) d3) with d3 by (symmetry; apply Seek_Tell).
    by rewrite H4. }
  assert (Hload : DelayedLoad o1 =
    (Ok tt, set_DelayedLoadDone true
              (set_device (Some d4)
                 (set_pEncrypt (SetCurrentReference (PdfReference_of obj gen)
                                  <$> pEncrypt) o1)))).
  { rewrite DelayedLoad_run. change (m_DelayedLoadDone o1) with false.
    change (m_bIsTrailer o1) with false. by rewrite Hbody. }
  set (o' := set_DelayedLoadDone true _) in Hload.
  assert (Hrun : (ParseFile pEncrypt false;; DelayedLoad) o0 = (Ok tt, o')).
  { unfold mbind, M_bind.
    rewrite (ParseFile_run pEncrypt false o0 dev) by done. cbv zeta.
    rewrite Hd0, H1, H2, H3. fold o1.
    change (m_bLoadOnDemand o0) with lod. destruct lod.
    - exact Hload.
    - rewrite Hload. by rewrite DelayedLoad_run. }
  exists o'. split; first done.
  repeat split.
  exists (set_DelayedLoadStreamDone true o'). split; last done.
  rewrite DelayedLoadStream_run, DelayedLoad_run.
  change (m_DelayedLoadDone o') with true. cbv iota.
  change (m_DelayedLoadStreamDone o') with false. cbv iota.
  by rewrite DelayedLoadStreamImpl_run.
Qed.

(** C8.  A freshly parsed object reports not dirty.  A body-load that
    parses a value clears the flag whatever it was, and so does a
    stream-load once the bytes are stored; a body-load of any kind, the
    empty object with its immediate [endobj] included, leaves a clean
    object clean.  Hence an object built by the constructor is clean
    after a successful [ParseFile], after the body-load and after the
    stream-load. *)
Theorem parsed_object_not_dirty :
  (forall bIsTrailer o dev t ty d1 o',
     m_device o = Some dev ->
     GetNextToken (Seek (m_lOffset o) dev) = (Some (t, ty), d1) ->
     strncmp_eq t "endobj" = false ->
     ParseFileComplete bIsTrailer o = (Ok tt, o') ->
     m_IsDirty o' = false) /\
  (forall o o', ParseStream o = (Ok tt, o') -> m_IsDirty o' = false) /\
  (forall bIsTrailer o,
     m_IsDirty o = false ->
     m_IsDirty (ParseFileComplete bIsTrailer o).2 = false) /\
  (forall doc rDevice lOffset lod pEncrypt bIsTrailer o1,
     ParseFile pEncrypt bIsTrailer
       (set_bLoadOnDemand lod (PdfParserObject_new doc rDevice lOffset))
       = (Ok tt, o1) ->
     m_IsDirty o1 = false /\
     (forall o2, DelayedLoad o1 = (Ok tt, o2) -> m_IsDirty o2 = false) /\
     (forall o3, DelayedLoadStream o1 = (Ok tt, o3) -> m_IsDirty o3 = false)).
Proof.
  split; [|split; [|split]].
  - intros tr o dev t ty d1 o' Hdev Htok Hne.
    rewrite (ParseFileComplete_run tr o dev Hdev). cbv zeta.
    rewrite Htok, Hne.
    destruct (GetNextVariant _ _ _ _) as [[v|e] d2]; last done.
    destruct tr; first by (intros [= <-]; destruct o).
    destruct (GetNextToken d2) as [[[t2 ty2]|] d3]; last done.
    repeat case_match; try done; intros [= <-]; by destruct o.
  - apply ParseStream_ok_clean.
  - apply ParseFileComplete_clean.
  - intros doc rDevice lOffset lod enc tr o1 Hparse.
    assert (Hc : m_IsDirty o1 = false).
    { change o1 with (Ok tt, o1).2. rewrite <- Hparse.
      by apply ParseFile_clean. }
    split; first done. split.
    + intros o2 Hload. change o2 with (Ok tt, o2).2. rewrite <- Hload.
      by apply DelayedLoad_clean.
    + intros o3. by apply DelayedLoadStream_ok_clean.
Qed.

(** C10.  The body-load of a trailer never marks the object as having a
    stream to parse.  So an object built by the constructor and parsed as
    a trailer has no stream to parse and no stream, before and after its
    body-load; the stream-load hook on it succeeds without changing
    anything, and a full stream-load leaves it without a stream and
    leaves the device where the body-load left it. *)
Theorem trailer_has_no_stream (doc : option PdfDocument)
    (rDevice : option PdfInputDevice) (lOffset : Z) (lod : bool)
    (pEncrypt : option PdfEncrypt) :
  let o0 := set_bLoadOnDemand lod (PdfParserObject_new doc rDevice lOffset) in
  let o1 := (ParseFile pEncrypt true o0).2 in
  let o2 := (DelayedLoad o1).2 in
  let o3 := (DelayedLoadStream o1).2 in
  (forall o, m_bStream (ParseFileComplete true o).2 = m_bStream o) /\
  HasStreamToParse o1 = false /\ m_Stream o1 = None /\
  HasStreamToParse o2 = false /\ m_Stream o2 = None /\
  DelayedLoadStreamImpl o2 = (Ok tt, o2) /\
  HasStreamToParse o3 = false /\ m_Stream o3 = None /\
  m_device o3 = m_device o2.
Proof.
  intros o0 o1 o2 o3.
  split; first (intros o; apply ParseFileComplete_trailer_frame).
  destruct (ParseFile_trailer_frame pEncrypt o0) as (Hb1 & Hs1). fold o1 in Hb1, Hs1.
  change (m_bStream o0) with false in Hb1.
  change (m_Stream o0) with (@None PdfStream) in Hs1.
  assert (Htr : m_bIsTrailer o1 = true \/
                 m_DelayedLoadDone o1 = false /\ m_device o1 = None).
  { subst o1. destruct rDevice as [dev|].
    - left. rewrite (ParseFile_run pEncrypt true o0 dev) by done. cbv zeta.
      change (m_bLoadOnDemand o0) with lod. destruct lod; first done.
      by apply DelayedLoad_trailer_frame.
    - right. by rewrite ParseFile_no_device. }
  assert (Hframe2 : m_bStream o2 = false /\ m_Stream o2 = None).
  { subst o2. destruct Htr as [Htr|[Hnl Hnd]].
    - destruct (DelayedLoad_trailer_frame o1 Htr) as (Hb & Hs & _).
      by rewrite Hb, Hs.
    - rewrite DelayedLoad_run, Hnl.
      by rewrite ParseFileComplete_no_device. }
  destruct Hframe2 as (Hb2 & Hs2).
  assert (Hhook : DelayedLoadStreamImpl o2 = (Ok tt, o2)).
  { rewrite DelayedLoadStreamImpl_run. unfold HasStreamToParse.
    by rewrite Hs2, Hb2. }
  unfold HasStreamToParse. repeat split; try done.
  all: subst o3; rewrite DelayedLoadStream_run; fold o2 in Hhook |- *.
  all: destruct (DelayedLoad o1) as [[[]|e] o2'] eqn:Hdl; cbn in o2;
       subst o2; try done.
  all: destruct (m_DelayedLoadStreamDone o2'); try done.
  all: rewrite Hhook; by destruct o2'.
Qed.

End Lifecycle.

(** * Runs on the sample documents *)

Module Runs.
Import RefTokenizer Samples.

(** C1, as stated, fails where [/Length] refers to an object the store
    does not hold: the reference resolves to nothing numeric, and the
    load fails with [InvalidHandle], not with [InvalidStreamLength]. *)
Lemma dangling_length_counterexample :
  let o := stream_object length_dangling None after_lf in
  length_dangling !! KeyLength = Some (PdfRef (mkReference 99 0)) /\
  (GetObject store (mkReference 99 0) (StreamStart o after_lf)).1 = None /\
  (ParseStream o).1 = Raise InvalidHandle /\
  (ParseStream o).1 <> Raise InvalidStreamLength.
Proof. vm_compute. by repeat split. Qed.

Lemma ParseStream_length_witness :
  let o := stream_object length_indirect None after_lf in
  ReadyForStream o after_lf doc length_indirect /\
  exists o', ParseStream o = (Ok tt, o') /\
    m_Stream o' =
      Some (mkStream (Payload (m_pEncrypt o') (Read 5 (StreamStart o after_lf)))).
Proof.
  assert (Hready : ReadyForStream (stream_object length_indirect None after_lf)
                     after_lf doc length_indirect)
    by (repeat split; reflexivity).
  split; [exact Hready|].
  exact (ParseStream_length (T:=tokenizer) _ _ _ _ Hready).
Defined.

Lemma ParseStream_decryption_witness :
  let o := stream_object length_crypt (Some enc_all) after_lf in
  let p := stream_object length_crypt (Some enc_no_metadata) after_lf in
  ReadyForStream o after_lf doc length_crypt /\
  LengthIs doc length_crypt (StreamStart o after_lf) 5 /\
  m_pEncrypt o = Some enc_all /\
  ReadyForStream p after_lf doc length_crypt /\
  LengthIs doc length_crypt (StreamStart p after_lf) 5 /\
  m_pEncrypt p = Some enc_no_metadata /\
  (exists o', ParseStream o = (Ok tt, o') /\
     m_Stream o' = Some (mkStream (xor_cipher (mkReference 12 0)
                                     (Read 5 (StreamStart o after_lf)))) /\
     m_pEncrypt o' = Some (SetCurrentReference (mkReference 12 0) enc_all)) /\
  (exists p', ParseStream p = (Ok tt, p') /\
     m_Stream p' = Some (mkStream (Read 5 (StreamStart p after_lf))) /\
     m_pEncrypt p' = None).
Proof.
  assert (Hready : forall e, ReadyForStream
                     (stream_object length_crypt (Some e) after_lf)
                     after_lf doc length_crypt)
    by (intros e; repeat split; reflexivity).
  assert (Hlen : forall e, LengthIs doc length_crypt
                   (StreamStart (stream_object length_crypt (Some e)
                                   after_lf) after_lf) 5)
    by (intros e; left; vm_compute; reflexivity).
  split; [exact (Hready enc_all)|]. split; [exact (Hlen enc_all)|].
  split; [reflexivity|].
  split; [exact (Hready enc_no_metadata)|].
  split; [exact (Hlen enc_no_metadata)|].
  split; [reflexivity|].
  split.
  - exact (ParseStream_decryption (T:=tokenizer) _ _ _ _ enc_all 5
             (Hready enc_all) (Hlen enc_all) eq_refl).
  - exact (ParseStream_decryption (T:=tokenizer) _ _ _ _ enc_no_metadata 5
             (Hready enc_no_metadata) (Hlen enc_no_metadata) eq_refl).
Defined.

Lemma ParseStream_terminator_witness :
  let loads dev k :=
    let o := stream_object length_direct None dev in
    ReadyForStream o dev doc length_direct /\
    LengthIs doc length_direct (StreamStart o dev) 5 /\
    exists o', ParseStream o = (Ok tt, o') /\
      m_Stream o' =
        Some (mkStream (Payload (m_pEncrypt o') (Read 5 (Seek k dev)))) /\
      m_device o' = Some (Seek (k + 5) dev) in
  IsWhitespace CR = true /\ IsWhitespace LF = true /\
  loads after_crlf 2 /\ loads after_lf 1 /\ loads after_cr 1.
Proof.
  assert (Hready : forall dev, ReadyForStream
                     (stream_object length_direct None dev)
                     dev doc length_direct)
    by (intros dev; repeat split; reflexivity).
  assert (Hlen : forall dev, LengthIs doc length_direct
                   (StreamStart (stream_object length_direct None dev) dev) 5)
    by (intros dev; left; vm_compute; reflexivity).
  split; [reflexivity|]. split; [reflexivity|].
  split; [|split].
  - split; [exact (Hready after_crlf)|]. split; [exact (Hlen after_crlf)|].
    destruct (ParseStream_terminator (T:=tokenizer) _ _ _ _ 5
                eq_refl eq_refl (Hready after_crlf) (Hlen after_crlf))
      as (o' & Hrun & Hcrlf & _ & _).
    exists o'. split; [exact Hrun|]. exact (Hcrlf eq_refl eq_refl).
  - split; [exact (Hready after_lf)|]. split; [exact (Hlen after_lf)|].
    destruct (ParseStream_terminator (T:=tokenizer) _ _ _ _ 5
                eq_refl eq_refl (Hready after_lf) (Hlen after_lf))
      as (o' & Hrun & _ & Hlf & _).
    exists o'. split; [exact Hrun|]. exact (Hlf eq_refl).
  - split; [exact (Hready after_cr)|]. split; [exact (Hlen after_cr)|].
    destruct (ParseStream_terminator (T:=tokenizer) _ _ _ _ 5
                eq_refl eq_refl (Hready after_cr) (Hlen after_cr))
      as (o' & Hrun & _ & _ & Hcr).
    exists o'. split; [exact Hrun|].
    apply (Hcr eq_refl). vm_compute. discriminate.
Defined.

Lemma ParseStream_restores_position_witness :
  let o := stream_object length_indirect None after_lf in
  let start := StreamStart o after_lf in
  ReadyForStream o after_lf doc length_indirect /\
  LengthIs doc length_indirect start 5 /\
  length_indirect !! KeyLength = Some (PdfRef (mkReference 20 0)) /\
  GetObject (GetObjects doc) (mkReference 20 0) start = (Some (PdfNumber 5), 3) /\
  Tell start = 1 /\
  ResolveLength doc length_indirect (set_device (Some start) o) =
    (Ok 5, set_device (Some (Seek 3 start)) o) /\
  exists o', ParseStream o = (Ok tt, o') /\
    m_Stream o' = Some (mkStream (Payload (m_pEncrypt o') (Read 5 start))) /\
    m_device o' = Some (Advance (Z.of_nat (length (Read 5 start))) start).
Proof.
  assert (Hready : ReadyForStream (stream_object length_indirect None after_lf)
                     after_lf doc length_indirect)
    by (repeat split; reflexivity).
  assert (Hlen : LengthIs doc length_indirect
                   (StreamStart (stream_object length_indirect None after_lf)
                      after_lf) 5)
    by (right; exists (mkReference 20 0); split; vm_compute; reflexivity).
  split; [exact Hready|]. split; [exact Hlen|].
  split; [reflexivity|]. split; [reflexivity|]. split; [reflexivity|].
  destruct (ParseStream_restores_position (T:=tokenizer) _ _ _ _ 5
              Hready Hlen) as (Hreads & Hmoved).
  split; [|exact Hreads].
  exact (Hmoved (mkReference 20 0) 3 eq_refl eq_refl).
Defined.

(** C4, as stated, fails on a trailing token that merely begins with
    [endobj]: in [1 0 obj 5 endobjx] the token after the value is
    neither [endobj] nor [stream], and the load succeeds. *)
Lemma lax_trailing_token_counterexample :
  let o := PdfParserObject_new (Some doc) (Some lax_file) 0 in
  (GetNextToken (Seek 9 lax_file)).1 = Some ("endobjx", Token) /\
  "endobjx" <> "endobj" /\ "endobjx" <> "stream" /\
  strncmp_eq "endobjx" "endobj" = true /\
  (ParseFile None false o).1 = Ok tt /\
  (ParseFile None false o).1 <> Raise NoObject /\
  m_Variant (ParseFile None false o).2 = PdfNumber 5 /\
  m_device (ParseFile None false o).2 = Some (Seek 17 lax_file).
Proof. vm_compute. by repeat split. Qed.

Lemma ParseFileComplete_trailing_token_witness :
  let o := set_lOffset 8 (PdfParserObject_new (Some doc) (Some hello_file) 0) in
  let p := set_lOffset 7
             (PdfParserObject_new (Some doc) (Some number_stream_file) 0) in
  m_device o = Some hello_file /\
  GetNextToken (Seek (m_lOffset o) hello_file) =
    (Some ("<<", Delimiter), Seek 11 hello_file) /\
  strncmp_eq "<<" "endobj" = false /\
  GetNextVariant "<<" Delimiter None (Seek 11 hello_file) =
    (Ok (PdfDictionary length_direct), Seek 24 hello_file) /\
  GetNextToken (Seek 24 hello_file) = (Some ("stream", Token), Seek 31 hello_file) /\
  m_device p = Some number_stream_file /\
  GetNextToken (Seek (m_lOffset p) number_stream_file) =
    (Some ("5", Token), Seek 9 number_stream_file) /\
  strncmp_eq "5" "endobj" = false /\
  GetNextVariant "5" Token None (Seek 9 number_stream_file) =
    (Ok (PdfNumber 5), Seek 9 number_stream_file) /\
  GetNextToken (Seek 9 number_stream_file) =
    (Some ("stream", Token), Seek 16 number_stream_file) /\
  (ParseFileComplete false o).1 = Ok tt /\
  m_bStream (ParseFileComplete false o).2 = true /\
  m_lStreamOffset (ParseFileComplete false o).2 = 31 /\
  m_Stream (ParseFileComplete false o).2 = None /\
  m_device (ParseFileComplete false o).2 = Some (Seek 31 hello_file) /\
  (ParseFileComplete false p).1 = Raise NoObject.
Proof.
  assert (H1 : GetNextToken (Seek 8 hello_file) =
                 (Some ("<<", Delimiter), Seek 11 hello_file))
    by (vm_compute; reflexivity).
  assert (H2 : GetNextVariant "<<" Delimiter None (Seek 11 hello_file) =
                 (Ok (PdfDictionary length_direct), Seek 24 hello_file))
    by (vm_compute; reflexivity).
  assert (H3 : GetNextToken (Seek 24 hello_file) =
                 (Some ("stream", Token), Seek 31 hello_file))
    by (vm_compute; reflexivity).
  assert (K1 : GetNextToken (Seek 7 number_stream_file) =
                 (Some ("5", Token), Seek 9 number_stream_file))
    by (vm_compute; reflexivity).
  assert (K2 : GetNextVariant "5" Token None (Seek 9 number_stream_file) =
                 (Ok (PdfNumber 5), Seek 9 number_stream_file))
    by (vm_compute; reflexivity).
  assert (K3 : GetNextToken (Seek 9 number_stream_file) =
                 (Some ("stream", Token), Seek 16 number_stream_file))
    by (vm_compute; reflexivity).
  split; [reflexivity|]. split; [exact H1|]. split; [reflexivity|].
  split; [exact H2|]. split; [exact H3|].
  split; [reflexivity|]. split; [exact K1|]. split; [reflexivity|].
  split; [exact K2|]. split; [exact K3|].
  destruct (ParseFileComplete_trailing_token (T:=tokenizer)
              (set_lOffset 8 (PdfParserObject_new (Some doc) (Some hello_file) 0))
              hello_file _ _ _ "<<" "stream" Delimiter Token _
              eq_refl H1 eq_refl H2 H3)
    as (_ & Hst & Hdev & Hok & Hmark & Hoff).
  destruct (ParseFileComplete_trailing_token (T:=tokenizer)
              (set_lOffset 7
                 (PdfParserObject_new (Some doc) (Some number_stream_file) 0))
              number_stream_file _ _ _ "5" "stream" Token Token _
              eq_refl K1 eq_refl K2 K3)
    as (_ & _ & _ & Hraise).
  repeat split; assumption.
Defined.

Lemma ParseFile_header_and_forced_load_witness :
  let o := PdfParserObject_new (Some doc) (Some empty_file) 0 in
  m_device o = Some empty_file /\ 0 <= m_lOffset o /\
  GetNextNumber (Seek (m_lOffset o) empty_file) = (Ok 7, Seek 1 empty_file) /\
  GetNextNumber (Seek 1 empty_file) = (Ok 0, Seek 3 empty_file) /\
  IsNextToken "obj" (Seek 3 empty_file) = (Ok true, Seek 7 empty_file) /\
  ParseFile None false o =
    (DelayedLoadImpl;; modify (set_DelayedLoadDone true))
      (HeaderDone None false (Seek 7 empty_file)
         (set_IndirectReference (mkReference 7 0) o)).
Proof.
  assert (H1 : GetNextNumber (Seek 0 empty_file) = (Ok 7, Seek 1 empty_file))
    by (vm_compute; reflexivity).
  assert (H2 : GetNextNumber (Seek 1 empty_file) = (Ok 0, Seek 3 empty_file))
    by (vm_compute; reflexivity).
  assert (H3 : IsNextToken "obj" (Seek 3 empty_file) = (Ok true, Seek 7 empty_file))
    by (vm_compute; reflexivity).
  split; [reflexivity|]. split; [cbn; lia|].
  split; [exact H1|]. split; [exact H2|]. split; [exact H3|].
  exact (ParseFile_header_and_forced_load (T:=tokenizer) None false
           (PdfParserObject_new (Some doc) (Some empty_file) 0) empty_file
           eq_refl ltac:(cbn; lia) 7 0 true _ _ _ H1 H2 H3).
Defined.

(** The scenario of the specification: [7 0 obj], a line feed,
    [endobj]. *)
Lemma empty_object_is_null_witness :
  let o0 := set_bLoadOnDemand false
              (PdfParserObject_new (Some doc) (Some empty_file) 0) in
  GetNextNumber (Seek (m_lOffset o0) empty_file) = (Ok 7, Seek 1 empty_file) /\
  GetNextNumber (Seek 1 empty_file) = (Ok 0, Seek 3 empty_file) /\
  IsNextToken "obj" (Seek 3 empty_file) = (Ok true, Seek 7 empty_file) /\
  GetNextToken (Seek 7 empty_file) = (Some ("endobj", Token), Seek 14 empty_file) /\
  exists o', (ParseFile None false;; DelayedLoad) o0 = (Ok tt, o') /\
    m_IndirectReference o' = mkReference 7 0 /\
    m_Variant o' = PdfNull /\ m_Stream o' = None /\
    HasStreamToParse o' = false /\
    exists o'', DelayedLoadStream o' = (Ok tt, o'') /\
      m_Variant o'' = PdfNull /\ m_Stream o'' = None.
Proof.
  assert (H1 : GetNextNumber (Seek 0 empty_file) = (Ok 7, Seek 1 empty_file))
    by (vm_compute; reflexivity).
  assert (H2 : GetNextNumber (Seek 1 empty_file) = (Ok 0, Seek 3 empty_file))
    by (vm_compute; reflexivity).
  assert (H3 : IsNextToken "obj" (Seek 3 empty_file) = (Ok true, Seek 7 empty_file))
    by (vm_compute; reflexivity).
  assert (H4 : GetNextToken (Seek 7 empty_file) =
                 (Some ("endobj", Token), Seek 14 empty_file))
    by (vm_compute; reflexivity).
  split; [exact H1|]. split; [exact H2|]. split; [exact H3|].
  split; [exact H4|].
  exact (empty_object_is_null (T:=tokenizer) (Some doc) empty_file _ _ _ _
           0 7 0 false None Token H1 H2 H3 H4).
Defined.

Lemma FreeObjectMemory_effect_witness :
  let o := set_IsDirty true
             (set_bLoadOnDemand true
                (stream_object length_direct None after_lf)) in
  let o' := (FreeObjectMemory true o).2 in
  (IsLoadOnDemand o = true /\ (true = true \/ m_IsDirty o = false)) /\
  m_Variant o' = PdfNull /\ m_Stream o' = None /\
  m_DelayedLoadDone o' = false /\ m_DelayedLoadStreamDone o' = false /\
  (FreeObjectMemory false o).2 = o.
Proof.
  assert (Happlies : true = true /\ (true = true \/ true = false))
    by (split; [reflexivity | left; reflexivity]).
  split; [exact Happlies|].
  destruct (FreeObjectMemory_effect true
              (set_IsDirty true
                 (set_bLoadOnDemand true
                    (stream_object length_direct None after_lf))))
    as (_ & Hfree & _).
  destruct (Hfree Happlies) as (Hv & Hs & Hl & Hls).
  split; [exact Hv|]. split; [exact Hs|]. split; [exact Hl|].
  split; [exact Hls|]. reflexivity.
Defined.

(** The scenario of the specification with a stream of five bytes:
    parsed, body and stream loaded, and still not dirty. *)
Lemma parsed_object_not_dirty_witness :
  let o0 := set_bLoadOnDemand true
              (PdfParserObject_new (Some doc) (Some hello_file) 0) in
  let o1 := (ParseFile None false o0).2 in
  let o3 := (DelayedLoadStream o1).2 in
  ParseFile None false o0 = (Ok tt, o1) /\
  DelayedLoadStream o1 = (Ok tt, o3) /\
  m_Stream o3 = Some (mkStream (bytes "HELLO")) /\
  m_IsDirty o1 = false /\ m_IsDirty o3 = false.
Proof.
  assert (H1 : ParseFile None false
                 (set_bLoadOnDemand true
                    (PdfParserObject_new (Some doc) (Some hello_file) 0)) =
               (Ok tt, (ParseFile None false
                 (set_bLoadOnDemand true
                    (PdfParserObject_new (Some doc) (Some hello_file) 0))).2))
    by (vm_compute; reflexivity).
  assert (H3 : DelayedLoadStream (ParseFile None false
                 (set_bLoadOnDemand true
                    (PdfParserObject_new (Some doc) (Some hello_file) 0))).2 =
               (Ok tt, (DelayedLoadStream (ParseFile None false
                 (set_bLoadOnDemand true
                    (PdfParserObject_new (Some doc) (Some hello_file) 0))).2).2))
    by (vm_compute; reflexivity).
  split; [exact H1|]. split; [exact H3|].
  split; [vm_compute; reflexivity|].
  destruct (parsed_object_not_dirty (T:=tokenizer)) as (_ & _ & _ & Hfresh).
  destruct (Hfresh _ _ _ _ _ _ _ H1) as (Hc1 & _ & Hc3).
  split; [exact Hc1|]. exact (Hc3 _ H3).
Defined.

Lemma trailer_has_no_stream_witness :
  let o0 := PdfParserObject_new (Some doc) (Some trailer_file) 0 in
  let o1 := (ParseFile None true o0).2 in
  let o3 := (DelayedLoadStream o1).2 in
  ParseFile None true o0 = (Ok tt, o1) /\
  IsDictionary (m_Variant o1) = true /\
  (GetNextToken (Seek 13 trailer_file)).1 = Some ("stream", Token) /\
  HasStreamToParse o1 = false /\
  DelayedLoadStream o1 = (Ok tt, o3) /\
  m_Stream o3 = None /\ m_device o3 = Some (Seek 13 trailer_file).
Proof.
  split; [vm_compute; reflexivity|]. split; [vm_compute; reflexivity|].
  split; [vm_compute; reflexivity|].
  destruct (trailer_has_no_stream (T:=tokenizer) (Some doc)
              (Some trailer_file) 0 false None)
    as (_ & Hmark & _ & _ & _ & _ & _ & Hnone & _).
  split; [exact Hmark|]. split; [vm_compute; reflexivity|].
  split; [exact Hnone|]. vm_compute; reflexivity.
Defined.

End Runs.

(** * Further properties of the stream-load *)

Section StreamLoadMore.
Context {T : PdfTokenizer}.

Lemma GetChar_data (d : PdfInputDevice) : dev_data (GetChar d).2 = dev_data d.
Proof. unfold GetChar. cbn. by destruct (Look d =? EOF). Qed.

Lemma GetChar_pos (d : PdfInputDevice) :
  dev_pos d <= dev_pos (GetChar d).2 <= dev_pos d + 1.
Proof. unfold GetChar. cbn. destruct (Look d =? EOF); cbn; lia. Qed.

Lemma ConsumeStreamEol_data (d : PdfInputDevice) :
  dev_data (ConsumeStreamEol d) = dev_data d.
Proof.
  unfold ConsumeStreamEol.
  destruct (IsWhitespace (Look d)); last done.
  destruct (GetChar d) as [c d1] eqn:Hget.
  assert (Hd1 : dev_data d1 = dev_data d)
    by (change d1 with (c, d1).2; rewrite <- Hget; apply GetChar_data).
  destruct (c =? CR); last done.
  destruct (Look d1 =? LF); last done.
  by rewrite GetChar_data.
Qed.

Lemma ConsumeStreamEol_pos (d : PdfInputDevice) :
  dev_pos d <= dev_pos (ConsumeStreamEol d) <= dev_pos d + 2.
Proof.
  unfold ConsumeStreamEol.
  destruct (IsWhitespace (Look d)); last lia.
  destruct (GetChar d) as [c d1] eqn:Hget.
  assert (Hd1 : dev_pos d <= dev_pos d1 <= dev_pos d + 1)
    by (change d1 with (c, d1).2; rewrite <- Hget; apply GetChar_pos).
  destruct (c =? CR); last lia.
  destruct (Look d1 =? LF); last lia.
  pose proof (GetChar_pos d1). lia.
Qed.

Lemma Seek_same_data (off : Z) (d d' : PdfInputDevice) :
  dev_data d' = dev_data d -> Seek off d' = Seek off d.
Proof. unfold Seek. by intros ->. Qed.

Lemma StreamStart_same_data (o o' : PdfParserObject) (d d' : PdfInputDevice) :
  m_lStreamOffset o' = m_lStreamOffset o -> dev_data d' = dev_data d ->
  StreamStart o' d' = StreamStart o d.
Proof.
  intros Hoff Hdata. unfold StreamStart.
  by rewrite Hoff, (Seek_same_data _ d d').
Qed.

(** [ParseStream] written as the tree of its tests. *)
Lemma ParseStream_cases (o : PdfParserObject) :
  ParseStream o =
    if m_DelayedLoadDone o then
      match m_device o, m_Document o with
      | Some dev, Some doc =>
          let start := StreamStart o dev in
          match m_Variant o with
          | PdfDictionary dict =>
              match ResolveLength doc dict (set_device (Some start) o) with
              | (Ok n, _) => (Ok tt, StreamLoaded o dev dict n)
              | (Raise e, o1) => (Raise e, o1)
              end
          | _ => (Raise InvalidDataType, set_device (Some start) o)
          end
      | _, _ => (Raise InvalidHandle, o)
      end
    else (Raise InternalLogic, o).
Proof.
  destruct (m_DelayedLoadDone o) eqn:Hdone.
  2: { destruct o. cbn in Hdone. subst.
       unfold ParseStream. unfold_monad. done. }
  destruct (m_device o) as [dev|] eqn:Hdev.
  2: { destruct o. cbn in Hdone, Hdev. subst.
       unfold ParseStream. unfold_monad. done. }
  destruct (m_Document o) as [doc|] eqn:Hdoc.
  2: { destruct o. cbn in Hdone, Hdev, Hdoc. subst.
       unfold ParseStream. unfold_monad. done. }
  cbv zeta.
  destruct (m_Variant o) as [| | | | | | |dict| |] eqn:Hvar.
  8: { assert (Hready : ReadyForStream o dev doc dict) by done.
       destruct (ResolveLength doc dict (set_device (Some (StreamStart o dev)) o))
         as [[n|e] o1] eqn:Hres.
       - apply ParseStream_read with doc; first done.
         by apply (ResolveLength_ok_inv doc dict (StreamStart o dev) _ o1 n)
           in Hres; last by destruct o.
       - by apply (ParseStream_length_error o dev doc dict e o1). }
  all: unfold StreamStart; destruct o; cbn in Hdone, Hdev, Hdoc, Hvar; subst;
    unfold ParseStream; unfold_monad; done.
Qed.

(** The [/Length] step changes nothing but the device. *)
Lemma ResolveLength_frame (doc : PdfDocument) (dict : gmap string PdfVariant)
    (o : PdfParserObject) :
  let o' := (ResolveLength doc dict o).2 in
  o' = set_device (m_device o') o.
Proof.
  destruct (m_device o) as [d|] eqn:Hdev.
  - rewrite (ResolveLength_run doc dict d o Hdev).
    destruct (dict !! KeyLength) as [[]|]; cbn; by destruct o; cbn in *; subst.
  - unfold ResolveLength.
    destruct (dict !! KeyLength) as [[]|]; cbn;
      by destruct o; cbn in *; subst.
Qed.

(** X1.  A stream-load never touches the body of the object: value,
    reference, document, offsets, the stream mark and the load flags come
    back as they were, whatever the outcome; and a stream-load that fails
    has changed nothing but the device cursor, so no partial stream is
    ever stored. *)
Theorem ParseStream_frame (o : PdfParserObject) :
  let r := (ParseStream o).1 in
  let o' := (ParseStream o).2 in
  (m_Variant o' = m_Variant o /\
   m_IndirectReference o' = m_IndirectReference o /\
   m_Document o' = m_Document o /\
   m_lOffset o' = m_lOffset o /\
   m_bStream o' = m_bStream o /\
   m_lStreamOffset o' = m_lStreamOffset o /\
   m_DelayedLoadDone o' = m_DelayedLoadDone o /\
   m_DelayedLoadStreamDone o' = m_DelayedLoadStreamDone o /\
   m_bIsTrailer o' = m_bIsTrailer o /\
   m_bLoadOnDemand o' = m_bLoadOnDemand o) /\
  (r <> Ok tt -> o' = set_device (m_device o') o).
Proof.
  rewrite ParseStream_cases.
  destruct o as [v ref odoc dirty dl dls st odev enc tr lod off bs so].
  cbn [m_DelayedLoadDone m_device m_Document m_Variant].
  destruct dl; last done.
  destruct odev as [dev|]; last done.
  destruct odoc as [doc|]; last done.
  cbv zeta.
  destruct v as [| | | | | | |dict| |]; try done.
  match goal with
  | |- context [ResolveLength doc dict ?x] =>
      pose proof (ResolveLength_frame doc dict x) as Hframe;
      destruct (ResolveLength doc dict x) as [[n|e] o1]
  end.
  - done.
  - cbn in *. by rewrite Hframe.
Qed.

(** X2.  A successful stream-load can be run again and reproduces
    itself: the second run seeks back to the recorded stream start,
    finds the same length, keeps or drops the encryption context as the
    first run did, and ends in exactly the same object. *)
Theorem ParseStream_repeatable (o o1 : PdfParserObject) :
  ParseStream o = (Ok tt, o1) -> ParseStream o1 = (Ok tt, o1).
Proof.
  intros Hok.
  destruct (ParseStream_ok_inv o o1 Hok) as (dev & doc & dict & n & Hr & Hl).
  rewrite (ParseStream_read o dev doc dict n Hr Hl) in Hok.
  injection Hok as <-.
  set (start := StreamStart o dev).
  set (dev1 := Advance (Z.of_nat (length (Read n start))) start).
  assert (Hstart : StreamStart (StreamLoaded o dev dict n) dev1 = start).
  { apply StreamStart_same_data; first by destruct o.
    subst dev1 start. unfold Advance, Seek, StreamStart. cbn.
    by rewrite ConsumeStreamEol_data. }
  destruct Hr as (Hdone & Hdev & Hdoc & Hvar).
  rewrite (ParseStream_read (StreamLoaded o dev dict n) dev1 doc dict n).
  - f_equal. unfold StreamLoaded at 1. rewrite Hstart. fold start.
    unfold StreamLoaded, StreamEncrypt. fold start dev1.
    destruct o as [v ref odoc dirty dl dls st odev enc tr lod off bs so].
    cbn in Hdone, Hdev, Hdoc, Hvar; subst. cbn.
    destruct enc as [e|]; last done. cbn.
    destruct (negb (IsMetadataEncrypted e) && HasCryptFilter dict) eqn:Hstrip;
      cbn; first done.
    by rewrite Hstrip.
  - unfold StreamLoaded, ReadyForStream. fold start dev1.
    destruct o. cbn in *. by subst.
  - by rewrite Hstart.
Qed.

(** X3.  A stream-load does not depend on where the shared device cursor
    was left: it starts by seeking to the recorded stream start.  Two
    objects that differ only in the cursor of their device get the same
    outcome and, once the load has passed its handle checks, end in the
    same object. *)
Theorem ParseStream_ignores_cursor (o : PdfParserObject)
    (dev dev' : PdfInputDevice) :
  m_device o = Some dev ->
  dev_data dev' = dev_data dev ->
  let moved := set_device (Some dev') o in
  (ParseStream moved).1 = (ParseStream o).1 /\
  m_Stream (ParseStream moved).2 = m_Stream (ParseStream o).2 /\
  (m_DelayedLoadDone o = true -> m_Document o <> None ->
   ParseStream moved = ParseStream o).
Proof.
  intros Hdev Hdata moved.
  assert (Hstart : StreamStart moved dev' = StreamStart o dev)
    by (apply StreamStart_same_data; [by destruct o | done]).
  assert (Hset : forall d, set_device (Some d) moved = set_device (Some d) o)
    by (intros d; by destruct o).
  rewrite !ParseStream_cases.
  replace (m_DelayedLoadDone moved) with (m_DelayedLoadDone o) by by destruct o.
  replace (m_Document moved) with (m_Document o) by by destruct o.
  replace (m_Variant moved) with (m_Variant o) by by destruct o.
  replace (m_device moved) with (Some dev') by by destruct o.
  rewrite Hdev. cbv zeta. rewrite Hstart, Hset.
  destruct (m_DelayedLoadDone o); last by destruct o.
  destruct (m_Document o) as [doc|]; last by destruct o.
  destruct (m_Variant o) as [| | | | | | |dict| |]; try done.
  destruct (ResolveLength doc dict (set_device (Some (StreamStart o dev)) o))
    as [[n|e] o1]; last done.
  assert (Hloaded : StreamLoaded moved dev' dict n = StreamLoaded o dev dict n).
  { unfold StreamLoaded. rewrite Hstart. by destruct o. }
  by rewrite Hloaded.
Qed.

(** X4.  The end-of-line marker after [stream] is at most two bytes and
    only white space is taken for it.  A byte that is not white space is
    stream data: nothing is consumed and the stream is read from the
    recorded offset itself.  A white-space byte other than a carriage
    return is consumed alone, so that after a space or a tab a following
    line feed already counts as stream data. *)
Theorem ParseStream_marker_bounds (o : PdfParserObject) (dev : PdfInputDevice)
    (doc : PdfDocument) (dict : gmap string PdfVariant) (n : Z) :
  ReadyForStream o dev doc dict ->
  LengthIs doc dict (StreamStart o dev) n ->
  let p := m_lStreamOffset o in
  let c := Look (Seek p dev) in
  let reads_from k o' :=
    m_Stream o' =
      Some (mkStream (Payload (m_pEncrypt o') (Read n (Seek (p + k) dev)))) in
  exists o', ParseStream o = (Ok tt, o') /\
    (exists k, 0 <= k <= 2 /\ StreamStart o dev = Seek (p + k) dev /\
               reads_from k o') /\
    (IsWhitespace c = false -> reads_from 0 o') /\
    (IsWhitespace c = true -> c <> CR -> c <> EOF -> reads_from 1 o').
Proof.
  intros Hready Hlen p c reads_from.
  exists (StreamLoaded o dev dict n).
  split; first by apply ParseStream_read with doc.
  assert (Hreads : forall k, StreamStart o dev = Seek (p + k) dev ->
                             reads_from k (StreamLoaded o dev dict n)).
  { intros k Hk. subst reads_from. cbn beta.
    unfold StreamLoaded. rewrite Hk. by destruct o. }
  repeat split.
  - exists (dev_pos (StreamStart o dev) - p).
    pose proof (ConsumeStreamEol_pos (Seek p dev)) as Hpos.
    pose proof (ConsumeStreamEol_data (Seek p dev)) as Hdata.
    change (ConsumeStreamEol (Seek p dev)) with (StreamStart o dev)
      in Hpos, Hdata.
    assert (Hk : StreamStart o dev =
                 Seek (p + (dev_pos (StreamStart o dev) - p)) dev).
    { unfold Seek. destruct (StreamStart o dev) as [data pos].
      cbn in Hdata |- *. rewrite Hdata. f_equal. lia. }
    cbn in Hpos.
    split; first lia. split; first done. by apply Hreads.
  - intros Hws. apply Hreads. unfold StreamStart, ConsumeStreamEol.
    fold p c. rewrite Hws. by rewrite Z.add_0_r.
  - intros Hws Hcr Heof. apply Hreads. unfold StreamStart, ConsumeStreamEol.
    fold p c. rewrite Hws.
    rewrite (GetChar_byte p c) by done.
    by destruct (Z.eqb_spec c CR).
Qed.

End StreamLoadMore.

(** * Further properties of the header and the body-load *)

Section BodyLoadMore.
Context {T : PdfTokenizer}.

(** X5.  With demand loading switched on, [ParseFile] on an object with a
    device reads the header and nothing else: value, stream, dirty flag,
    load flags and stream mark come back untouched.  A trailer, which
    has no header, cannot fail.  On success the object records the
    position right after the header, the encryption context and the
    trailer flag it was called with; on failure none of the three has
    been recorded. *)
Theorem ParseFile_deferred (pEncrypt : option PdfEncrypt) (bIsTrailer : bool)
    (o : PdfParserObject) (dev : PdfInputDevice) :
  m_device o = Some dev ->
  m_bLoadOnDemand o = true ->
  let r := (ParseFile pEncrypt bIsTrailer o).1 in
  let o' := (ParseFile pEncrypt bIsTrailer o).2 in
  (m_Variant o' = m_Variant o /\ m_Stream o' = m_Stream o /\
   m_IsDirty o' = m_IsDirty o /\
   m_DelayedLoadDone o' = m_DelayedLoadDone o /\
   m_DelayedLoadStreamDone o' = m_DelayedLoadStreamDone o /\
   m_bStream o' = m_bStream o /\ m_lStreamOffset o' = m_lStreamOffset o) /\
  (bIsTrailer = true -> r = Ok tt) /\
  (r = Ok tt ->
     m_pEncrypt o' = pEncrypt /\ m_bIsTrailer o' = bIsTrailer /\
     exists d, m_device o' = Some d /\ m_lOffset o' = Tell d) /\
  (r <> Ok tt ->
     m_lOffset o' = m_lOffset o /\ m_pEncrypt o' = m_pEncrypt o /\
     m_bIsTrailer o' = m_bIsTrailer o).
Proof.
  intros Hdev Hlod.
  rewrite (ParseFile_run pEncrypt bIsTrailer o dev Hdev). cbv zeta.
  rewrite Hlod.
  destruct o as [v ref odoc dirty dl dls st odev enc tr lod off bs so].
  cbn in Hdev, Hlod. subst. cbn [m_lOffset].
  set (d0 := if 0 <=? off then Seek off dev else dev).
  destruct bIsTrailer.
  { cbn. repeat split; try done; by eauto. }
  destruct (GetNextNumber d0) as [[obj|e] d1]; last done.
  destruct (GetNextNumber d1) as [[gen|e] d2]; last done.
  destruct (IsNextToken "obj" d2) as [[[]|e] d3]; try done.
  cbn. repeat split; try done; by eauto.
Qed.

(** X6.  The reference a header gives an object always fits the types of
    [PdfReference]: the object number read is reduced to 32 bits and the
    generation to 16 bits, and numbers that fit are taken as they are.
    The body-load forced by [ParseFile] does not change it. *)
Theorem header_reference_in_range (pEncrypt : option PdfEncrypt)
    (o o' : PdfParserObject) (dev : PdfInputDevice) :
  m_device o = Some dev ->
  ParseFile pEncrypt false o = (Ok tt, o') ->
  let d0 := if 0 <=? m_lOffset o then Seek (m_lOffset o) dev else dev in
  exists obj gen d1 d2,
    GetNextNumber d0 = (Ok obj, d1) /\ GetNextNumber d1 = (Ok gen, d2) /\
    ObjectNumber (m_IndirectReference o') = obj mod 2 ^ 32 /\
    GenerationNumber (m_IndirectReference o') = gen mod 2 ^ 16 /\
    0 <= ObjectNumber (m_IndirectReference o') < 2 ^ 32 /\
    0 <= GenerationNumber (m_IndirectReference o') < 2 ^ 16 /\
    (0 <= obj < 2 ^ 32 -> ObjectNumber (m_IndirectReference o') = obj) /\
    (0 <= gen < 2 ^ 16 -> GenerationNumber (m_IndirectReference o') = gen).
Proof.
  intros Hdev. rewrite (ParseFile_run pEncrypt false o dev Hdev). cbv zeta.
  set (d0 := if 0 <=? m_lOffset o then Seek (m_lOffset o) dev else dev).
  destruct (GetNextNumber d0) as [[obj|e] d1] eqn:H1; last done.
  destruct (GetNextNumber d1) as [[gen|e] d2] eqn:H2; last done.
  destruct (IsNextToken "obj" d2) as [[[]|e] d3]; try done.
  intros Hrun.
  assert (Href : m_IndirectReference o' = PdfReference_of obj gen).
  { set (o1 := HeaderDone pEncrypt false d3
                 (set_IndirectReference (PdfReference_of obj gen) o)) in Hrun.
    assert (Ho1 : m_IndirectReference o1 = PdfReference_of obj gen)
      by by destruct o.
    destruct (m_bLoadOnDemand o); first by injection Hrun as <-.
    rewrite DelayedLoad_run in Hrun.
    destruct (m_DelayedLoadDone o1); first by injection Hrun as <-.
    rewrite (ParseFileComplete_run _ o1 d3) in Hrun by by destruct o.
    cbv zeta in Hrun. rewrite <- Ho1.
    destruct o1. cbn in Hrun |- *.
    repeat case_match; simplify_eq; done. }
  exists obj, gen, d1, d2. rewrite Href.
  unfold PdfReference_of, uint32_t, uint16_t. cbn [ObjectNumber GenerationNumber].
  repeat split; try done.
  - apply Z.mod_pos_bound. lia.
  - apply Z.mod_pos_bound. lia.
  - apply Z.mod_pos_bound. lia.
  - apply Z.mod_pos_bound. lia.
  - intros. by apply Z.mod_small.
  - intros. by apply Z.mod_small.
Qed.

(** X7.  The failures of a body-load.  With no token left at the start
    it raises [UnexpectedEOF] and the value, the dirty flag and the
    stream mark are as before.  An error raised while the value is
    parsed is passed on, with the old value still in place.  With no
    token left after the value of a non-trailer object it raises
    [UnexpectedEOF], and then the new value is already in place and the
    dirty flag cleared. *)
Theorem ParseFileComplete_failures (bIsTrailer : bool) (o : PdfParserObject)
    (dev : PdfInputDevice) :
  m_device o = Some dev ->
  let enc := SetCurrentReference (m_IndirectReference o) <$> m_pEncrypt o in
  let r := (ParseFileComplete bIsTrailer o).1 in
  let o' := (ParseFileComplete bIsTrailer o).2 in
  (forall d1,
     GetNextToken (Seek (m_lOffset o) dev) = (None, d1) ->
     r = Raise UnexpectedEOF /\ m_Variant o' = m_Variant o /\
     m_IsDirty o' = m_IsDirty o /\ m_bStream o' = m_bStream o) /\
  (forall t ty d1 e d2,
     GetNextToken (Seek (m_lOffset o) dev) = (Some (t, ty), d1) ->
     strncmp_eq t "endobj" = false ->
     GetNextVariant t ty enc d1 = (Raise e, d2) ->
     r = Raise e /\ m_Variant o' = m_Variant o /\
     m_IsDirty o' = m_IsDirty o /\ m_bStream o' = m_bStream o) /\
  (forall t ty d1 v d2 d3,
     bIsTrailer = false ->
     GetNextToken (Seek (m_lOffset o) dev) = (Some (t, ty), d1) ->
     strncmp_eq t "endobj" = false ->
     GetNextVariant t ty enc d1 = (Ok v, d2) ->
     GetNextToken d2 = (None, d3) ->
     r = Raise UnexpectedEOF /\ m_Variant o' = v /\
     m_IsDirty o' = false /\ m_bStream o' = m_bStream o).
Proof.
  intros Hdev enc r o'. subst r o'.
  rewrite (ParseFileComplete_run bIsTrailer o dev Hdev). cbv zeta. fold enc.
  split; [|split].
  - intros d1 ->. by destruct o.
  - intros t ty d1 e d2 -> -> ->. by destruct o.
  - intros t ty d1 v d2 d3 -> -> -> -> ->. by destruct o.
Qed.

(** X8.  The body-load of a trailer stops at the value: once the value
    is parsed the load has succeeded, the object holds the value and is
    clean, and the device is where the value parser left it, whatever
    follows in the file. *)
Theorem ParseFileComplete_trailer_value (o : PdfParserObject)
    (dev d1 d2 : PdfInputDevice) (t : string) (ty : EPdfTokenType)
    (v : PdfVariant) :
  m_device o = Some dev ->
  GetNextToken (Seek (m_lOffset o) dev) = (Some (t, ty), d1) ->
  strncmp_eq t "endobj" = false ->
  GetNextVariant t ty
    (SetCurrentReference (m_IndirectReference o) <$> m_pEncrypt o) d1 = (Ok v, d2) ->
  exists o', ParseFileComplete true o = (Ok tt, o') /\
    m_Variant o' = v /\ m_IsDirty o' = false /\ m_device o' = Some d2 /\
    m_bStream o' = m_bStream o /\ m_lStreamOffset o' = m_lStreamOffset o.
Proof.
  intros Hdev Htok Hne Hvar.
  rewrite (ParseFileComplete_run true o dev Hdev). cbv zeta.
  rewrite Htok, Hne, Hvar. eexists. split; first done. by destruct o.
Qed.

(** X9.  A body-load does not depend on where the shared device cursor
    was left, nor on the reference the shared encryption context was
    last keyed with: it seeks to the recorded offset and keys the
    context with the reference of the object before it reads.  Objects
    that differ only in these two end in the same object with the same
    outcome. *)
Theorem ParseFileComplete_ignores_cursor_and_key (bIsTrailer : bool)
    (o : PdfParserObject) (dev dev' : PdfInputDevice) (stale : PdfReference) :
  m_device o = Some dev ->
  dev_data dev' = dev_data dev ->
  ParseFileComplete bIsTrailer
    (set_pEncrypt (SetCurrentReference stale <$> m_pEncrypt o)
       (set_device (Some dev') o))
  = ParseFileComplete bIsTrailer o.
Proof.
  intros Hdev Hdata.
  rewrite (ParseFileComplete_run bIsTrailer o dev Hdev).
  rewrite (ParseFileComplete_run bIsTrailer _ dev') by by destruct o.
  cbv zeta.
  destruct o as [v ref odoc dirty dl dls st odev enc tr lod off bs so].
  cbn in Hdev. subst. cbn.
  rewrite (Seek_same_data off dev dev' Hdata).
  assert (Henc : SetCurrentReference ref <$> (SetCurrentReference stale <$> enc)
                 = SetCurrentReference ref <$> enc) by by destruct enc.
  rewrite Henc. done.
Qed.

End BodyLoadMore.

(** * Composing the loads *)

(** Equations between objects, settled member by member. *)
Ltac by_fields :=
  repeat match goal with o : PdfParserObject |- _ => destruct o end;
  cbn in *;
  repeat match goal with
         | H : mkParserObject _ _ _ _ _ _ _ _ _ _ _ _ _ _ = _ |- _ =>
             injection H; clear H; intros
         end;
  simplify_eq; first [done | by auto].

Section Compose.
Context {T : PdfTokenizer}.

(** The only members a body-load writes. *)
Lemma ParseFileComplete_changes (bIsTrailer : bool) (o : PdfParserObject) :
  let o' := (ParseFileComplete bIsTrailer o).2 in
  o' = set_lStreamOffset (m_lStreamOffset o')
         (set_bStream (m_bStream o')
            (set_IsDirty (m_IsDirty o')
               (set_Variant (m_Variant o')
                  (set_pEncrypt (m_pEncrypt o')
                     (set_device (m_device o') o))))).
Proof.
  destruct (m_device o) as [dev|] eqn:Hdev.
  2: { rewrite ParseFileComplete_no_device by done. by destruct o. }
  rewrite (ParseFileComplete_run bIsTrailer o dev Hdev). cbv zeta.
  destruct o as [v ref odoc dirty dl dls st odev enc tr lod off bs so].
  repeat case_match; done.
Qed.

Lemma DelayedLoad_changes (o : PdfParserObject) :
  let o' := (DelayedLoad o).2 in
  o' = set_DelayedLoadDone (m_DelayedLoadDone o')
         (set_lStreamOffset (m_lStreamOffset o')
            (set_bStream (m_bStream o')
               (set_IsDirty (m_IsDirty o')
                  (set_Variant (m_Variant o')
                     (set_pEncrypt (m_pEncrypt o')
                        (set_device (m_device o') o)))))).
Proof.
  rewrite DelayedLoad_run.
  destruct (m_DelayedLoadDone o) eqn:Hdone; first by destruct o.
  pose proof (ParseFileComplete_changes (m_bIsTrailer o) o) as Hch.
  cbv zeta in Hch.
  destruct (ParseFileComplete (m_bIsTrailer o) o) as [[[]|e] o'];
    by_fields.
Qed.

(** The only members a stream-load writes. *)
Lemma ParseStream_changes (o : PdfParserObject) :
  let o' := (ParseStream o).2 in
  o' = set_IsDirty (m_IsDirty o')
         (set_Stream (m_Stream o')
            (set_pEncrypt (m_pEncrypt o') (set_device (m_device o') o))).
Proof.
  rewrite ParseStream_cases.
  destruct o as [v ref odoc dirty dl dls st odev enc tr lod off bs so].
  cbn [m_DelayedLoadDone m_device m_Document m_Variant].
  destruct dl; last done.
  destruct odev as [dev|]; last done.
  destruct odoc as [doc|]; last done.
  cbv zeta.
  destruct v as [| | | | | | |dict| |]; try done.
  match goal with
  | |- context [ResolveLength doc dict ?x] =>
      pose proof (ResolveLength_frame doc dict x) as Hframe;
      destruct (ResolveLength doc dict x) as [[n|e] o1]
  end.
  - done.
  - cbn in *. by rewrite Hframe.
Qed.

Lemma DelayedLoadStream_changes (o : PdfParserObject) :
  let o' := (DelayedLoadStream o).2 in
  o' = set_DelayedLoadStreamDone (m_DelayedLoadStreamDone o')
         (set_Stream (m_Stream o')
            (set_DelayedLoadDone (m_DelayedLoadDone o')
               (set_lStreamOffset (m_lStreamOffset o')
                  (set_bStream (m_bStream o')
                     (set_IsDirty (m_IsDirty o')
                        (set_Variant (m_Variant o')
                           (set_pEncrypt (m_pEncrypt o')
                              (set_device (m_device o') o)))))))).
Proof.
  rewrite DelayedLoadStream_run.
  pose proof (DelayedLoad_changes o) as Hdl. cbv zeta in Hdl.
  destruct (DelayedLoad o) as [[[]|e] o2]; cbn [snd] in Hdl;
    last by_fields.
  destruct (m_DelayedLoadStreamDone o2) eqn:Hdone; first by_fields.
  rewrite DelayedLoadStreamImpl_run.
  destruct (is_nullptr (m_Stream o2)); last by_fields.
  destruct (HasStreamToParse o2); last by_fields.
  pose proof (ParseStream_changes o2) as Hps. cbv zeta in Hps.
  destruct (ParseStream o2) as [[[]|e] o3]; by_fields.
Qed.

(** A body-load run again on an object that agrees with the first one on
    device content, offset, reference and encryption context. *)
Lemma ParseFileComplete_rerun (bIsTrailer : bool) (o o' p : PdfParserObject)
    (dev dev1 : PdfInputDevice) :
  m_device o = Some dev ->
  ParseFileComplete bIsTrailer o = (Ok tt, o') ->
  m_device p = Some dev1 -> dev_data dev1 = dev_data dev ->
  m_lOffset p = m_lOffset o ->
  m_IndirectReference p = m_IndirectReference o ->
  SetCurrentReference (m_IndirectReference o) <$> m_pEncrypt p =
    SetCurrentReference (m_IndirectReference o) <$> m_pEncrypt o ->
  exists p', ParseFileComplete bIsTrailer p = (Ok tt, p') /\
    m_device p' = m_device o' /\ m_pEncrypt p' = m_pEncrypt o' /\
    (m_Variant p = m_Variant o -> m_Variant p' = m_Variant o') /\
    (m_Variant p = m_Variant o' -> m_Variant p' = m_Variant o') /\
    (m_bStream p = m_bStream o' -> m_bStream p' = m_bStream o') /\
    (m_lStreamOffset p = m_lStreamOffset o' ->
     m_lStreamOffset p' = m_lStreamOffset o') /\
    (m_IsDirty p = false -> m_IsDirty p' = false) /\
    (m_IsDirty p = m_IsDirty o' -> m_IsDirty p' = m_IsDirty o').
Proof.
  intros Hdev Hrun Hdev1 Hdata Hoff Href Henc.
  rewrite (ParseFileComplete_run bIsTrailer o dev Hdev) in Hrun.
  rewrite (ParseFileComplete_run bIsTrailer p dev1 Hdev1).
  cbv zeta in *.
  rewrite Hoff, Href, Henc, (Seek_same_data _ dev dev1 Hdata).
  destruct (GetNextToken (Seek (m_lOffset o) dev)) as [[[t ty]|] d1];
    last done.
  destruct (strncmp_eq t "endobj").
  { injection Hrun as <-. eexists. split; first done.
    destruct o, p. cbn in *. subst. by repeat split. }
  destruct (GetNextVariant _ _ _ _) as [[v|e] d2]; last done.
  destruct bIsTrailer.
  { injection Hrun as <-. eexists. split; first done.
    destruct o, p. cbn in *. subst. by repeat split. }
  destruct (GetNextToken d2) as [[[t2 ty2]|] d3]; last done.
  destruct (strncmp_eq t2 "endobj").
  { injection Hrun as <-. eexists. split; first done.
    destruct o, p. cbn in *. subst. by repeat split. }
  destruct (IsDictionary v && strncmp_eq t2 "stream"); last done.
  injection Hrun as <-. eexists. split; first done.
  destruct o, p. cbn in *. subst. by repeat split.
Qed.

(** X10.  A successful body-load can be run again and reproduces itself,
    as long as the tokenizer left the content of the device alone: the
    second run seeks back to the recorded offset, reads the same tokens
    and ends in exactly the same object. *)
Theorem ParseFileComplete_repeatable (bIsTrailer : bool)
    (o o1 : PdfParserObject) (dev dev1 : PdfInputDevice) :
  m_device o = Some dev ->
  ParseFileComplete bIsTrailer o = (Ok tt, o1) ->
  m_device o1 = Some dev1 -> dev_data dev1 = dev_data dev ->
  ParseFileComplete bIsTrailer o1 = (Ok tt, o1).
Proof.
  intros Hdev Hrun Hdev1 Hdata.
  pose proof (ParseFileComplete_changes bIsTrailer o) as Hch.
  rewrite Hrun in Hch. cbv zeta in Hch. cbn [snd] in Hch.
  assert (Henc1 : m_pEncrypt o1 =
                  SetCurrentReference (m_IndirectReference o) <$> m_pEncrypt o).
  { rewrite (ParseFileComplete_run bIsTrailer o dev Hdev) in Hrun.
    cbv zeta in Hrun. destruct o.
    repeat case_match; simplify_eq; done. }
  destruct (ParseFileComplete_rerun bIsTrailer o o1 o1 dev dev1)
    as (p' & Hrun' & Hd & He & _ & Hv & Hb & Hs & _ & Hdirty); try done.
  - rewrite Hch. by destruct o.
  - rewrite Hch. by destruct o.
  - rewrite Henc1. by destruct (m_pEncrypt o).
  - rewrite Hrun'. f_equal.
    pose proof (ParseFileComplete_changes bIsTrailer o1) as Hch'.
    rewrite Hrun' in Hch'. cbv zeta in Hch'. cbn [snd] in Hch'.
    rewrite Hch', Hd, He, Hv, Hb, Hs, Hdirty by done.
    by destruct o1.
Qed.

End Compose.

(** * From the file to the stream, and back to unloaded *)

Section Lifecycle2.
Context {T : PdfTokenizer}.

Lemma ParseFileComplete_ok_key (bIsTrailer : bool) (o o' : PdfParserObject) :
  ParseFileComplete bIsTrailer o = (Ok tt, o') ->
  m_pEncrypt o' = SetCurrentReference (m_IndirectReference o) <$> m_pEncrypt o.
Proof.
  destruct (m_device o) as [dev|] eqn:Hdev.
  2: by rewrite ParseFileComplete_no_device.
  rewrite (ParseFileComplete_run bIsTrailer o dev Hdev). cbv zeta.
  destruct o. repeat case_match; intros; simplify_eq; done.
Qed.

Lemma FreeObjectMemory_run (bForce : bool) (o : PdfParserObject) :
  FreeObjectMemory bForce o =
    (Ok tt,
     if IsLoadOnDemand o && (bForce || negb (m_IsDirty o))
     then set_DelayedLoadStreamDone false
            (set_DelayedLoadDone false
               (set_IsDirty false (set_Stream None (set_Variant PdfNull o))))
     else o).
Proof.
  unfold FreeObjectMemory, IsLoadOnDemand. unfold_monad.
  destruct o as [v ref odoc dirty dl dls st odev enc tr lod off bs so].
  cbn. by destruct (lod && (bForce || negb dirty)).
Qed.

Lemma ParseFile_changes (pEncrypt : option PdfEncrypt) (bIsTrailer : bool)
    (o : PdfParserObject) :
  let o' := (ParseFile pEncrypt bIsTrailer o).2 in
  m_bLoadOnDemand o' = m_bLoadOnDemand o /\ m_Document o' = m_Document o /\
  m_Stream o' = m_Stream o /\
  m_DelayedLoadStreamDone o' = m_DelayedLoadStreamDone o.
Proof.
  destruct (m_device o) as [dev|] eqn:Hdev.
  2: by rewrite ParseFile_no_device.
  rewrite (ParseFile_run pEncrypt bIsTrailer o dev Hdev). cbv zeta.
  assert (Hfinish : forall o' d,
    m_bLoadOnDemand o' = m_bLoadOnDemand o -> m_Document o' = m_Document o ->
    m_Stream o' = m_Stream o ->
    m_DelayedLoadStreamDone o' = m_DelayedLoadStreamDone o ->
    let o'' := (if m_bLoadOnDemand o
                then (Ok tt, HeaderDone pEncrypt bIsTrailer d o')
                else DelayedLoad (HeaderDone pEncrypt bIsTrailer d o')).2 in
    m_bLoadOnDemand o'' = m_bLoadOnDemand o /\ m_Document o'' = m_Document o /\
    m_Stream o'' = m_Stream o /\
    m_DelayedLoadStreamDone o'' = m_DelayedLoadStreamDone o).
  { intros o' d H1 H2 H3 H4. destruct (m_bLoadOnDemand o) eqn:Hlod.
    - by destruct o'.
    - pose proof (DelayedLoad_changes (HeaderDone pEncrypt bIsTrailer d o'))
        as Hch. cbv zeta in Hch |- *.
      destruct (DelayedLoad (HeaderDone pEncrypt bIsTrailer d o'))
        as [res o'']. unfold HeaderDone in Hch. by_fields. }
  destruct bIsTrailer; first by apply Hfinish.
  destruct (GetNextNumber _) as [[obj|e] d1]; last by destruct o.
  destruct (GetNextNumber d1) as [[gen|e] d2]; last by destruct o.
  destruct (IsNextToken "obj" d2) as [[[]|e] d3]; try by destruct o.
  apply Hfinish; by destruct o.
Qed.

(** X11.  Only a dictionary is ever marked as having a stream to parse.
    Every object built by a constructor satisfies "marked implies that
    the body is loaded and is a dictionary", and [ParseFile], the
    body-load and the stream-load keep it.  So the stream hook of such
    an object never fails for want of a dictionary. *)
Theorem stream_mark_means_dictionary :
  let marked_ok o :=
    HasStreamToParse o = true ->
    IsDictionary (m_Variant o) = true /\ m_DelayedLoadDone o = true in
  (forall doc rDevice lOffset,
     marked_ok (PdfParserObject_new doc rDevice lOffset)) /\
  marked_ok PdfParserObject_of_buffer /\
  (forall o bDelayed, marked_ok o -> marked_ok (SetLoadOnDemand bDelayed o).2) /\
  (forall o pEncrypt bIsTrailer,
     marked_ok o -> marked_ok (ParseFile pEncrypt bIsTrailer o).2) /\
  (forall o, marked_ok o -> marked_ok (DelayedLoad o).2) /\
  (forall o, marked_ok o -> marked_ok (DelayedLoadStream o).2) /\
  (forall o, marked_ok o ->
     (DelayedLoadStreamImpl o).1 <> Raise InvalidDataType).
Proof.
  intros marked_ok. unfold HasStreamToParse in marked_ok.
  assert (Hload : forall o, marked_ok o -> marked_ok (DelayedLoad o).2).
  { intros o Hm. subst marked_ok. cbn beta in *. rewrite DelayedLoad_run.
    destruct (m_DelayedLoadDone o) eqn:Hdone.
    { cbn. intros Hbs. destruct (Hm Hbs). by rewrite Hdone. }
    assert (Hbs : m_bStream o = false).
    { destruct (m_bStream o); last done. by destruct Hm. }
    destruct (m_device o) as [dev|] eqn:Hdev.
    2: { rewrite ParseFileComplete_no_device by done. cbn. by rewrite Hbs. }
    rewrite (ParseFileComplete_run _ o dev Hdev). cbv zeta.
    destruct o as [v ref odoc dirty dl dls st odev enc tr lod off bs so].
    cbn in Hbs. subst bs.
    clear Hm Hdone. cbn.
    destruct (GetNextToken (Seek off dev)) as [[[t ty]|] d1]; last done.
    destruct (strncmp_eq t "endobj"); first done.
    destruct (GetNextVariant _ _ _ _) as [[v'|e] d2]; last done.
    destruct tr; first done.
    destruct (GetNextToken d2) as [[[t2 ty2]|] d3]; last done.
    destruct (strncmp_eq t2 "endobj"); first done.
    destruct (IsDictionary v') eqn:Hdict; last done.
    by destruct (strncmp_eq t2 "stream"). }
  assert (Hstream : forall o, marked_ok o -> marked_ok (DelayedLoadStream o).2).
  { intros o Hm. specialize (Hload o Hm). subst marked_ok. cbn beta in *.
    rewrite DelayedLoadStream_run.
    destruct (DelayedLoad o) as [[[]|e] o2]; cbn [snd] in Hload; last done.
    destruct (m_DelayedLoadStreamDone o2); first done.
    rewrite DelayedLoadStreamImpl_run.
    destruct (is_nullptr (m_Stream o2)); last done.
    destruct (HasStreamToParse o2); last by destruct o2.
    pose proof (ParseStream_changes o2) as Hch. cbv zeta in Hch.
    destruct (ParseStream o2) as [[[]|e] o3]; by_fields. }
  refine (conj _ (conj _ (conj _ (conj _ (conj Hload (conj Hstream _)))))).
  - intros doc rDevice lOffset. by subst marked_ok.
  - by subst marked_ok.
  - intros o b Hm. subst marked_ok. cbn beta in *. by destruct o.
  - intros o enc tr Hm.
    destruct (m_device o) as [dev|] eqn:Hdev.
    2: by rewrite ParseFile_no_device.
    rewrite (ParseFile_run enc tr o dev Hdev). cbv zeta.
    assert (Hfinish : forall o' d, marked_ok o' ->
      marked_ok (if m_bLoadOnDemand o then (Ok tt, HeaderDone enc tr d o')
                 else DelayedLoad (HeaderDone enc tr d o')).2).
    { intros o' d Hm'.
      assert (Hh : marked_ok (HeaderDone enc tr d o'))
        by (subst marked_ok; cbn beta in *; by destruct o').
      destruct (m_bLoadOnDemand o); first done. by apply Hload. }
    destruct tr; first by apply Hfinish.
    destruct (GetNextNumber _) as [[obj|e] d1];
      last by (subst marked_ok; cbn beta in *; destruct o).
    destruct (GetNextNumber d1) as [[gen|e] d2];
      last by (subst marked_ok; cbn beta in *; destruct o).
    destruct (IsNextToken "obj" d2) as [[[]|e] d3];
      try by (subst marked_ok; cbn beta in *; destruct o).
    apply Hfinish. subst marked_ok. cbn beta in *. by destruct o.
  - intros o Hm. rewrite DelayedLoadStreamImpl_run.
    destruct (is_nullptr (m_Stream o)); last done.
    destruct (HasStreamToParse o) eqn:Hhas; last done.
    destruct (Hm Hhas) as (Hdict & Hdone).
    rewrite ParseStream_cases, Hdone.
    destruct (m_device o) as [dev|]; last done.
    destruct (m_Document o) as [doc|]; last done.
    cbv zeta.
    destruct (m_Variant o) as [| | | | | | |dict| |]; try done.
    rewrite (ResolveLength_run doc dict (StreamStart o dev))
      by by destruct o.
    destruct (dict !! KeyLength) as [[]|]; try done.
    cbn. by destruct (GetObject _ _ _).1 as [[]|].
Qed.

(** X12.  From the file to the stream.  For an object built by the
    constructor on a document and a device: when the header reads as
    [obj gen obj], the value parses to a dictionary, the token after it
    begins with [stream], and [/Length] is the number [n], then
    [ParseFile] followed by a stream-load succeeds, whether the body was
    forced or loaded on demand.  The object has the reference of the
    header and the dictionary as value, is fully loaded and clean, and
    its stream holds the [n] bytes that follow the end-of-line marker
    after the [stream] token. *)
Theorem parse_then_load_stream (doc : PdfDocument)
    (dev d1 d2 d3 d4 d5 d6 : PdfInputDevice) (lOffset obj gen n : Z)
    (lod : bool) (pEncrypt : option PdfEncrypt) (t t2 : string)
    (ty ty2 : EPdfTokenType) (dict : gmap string PdfVariant) :
  let o0 := set_bLoadOnDemand lod
              (PdfParserObject_new (Some doc) (Some dev) lOffset) in
  let ref := PdfReference_of obj gen in
  GetNextNumber (Seek (m_lOffset o0) dev) = (Ok obj, d1) ->
  GetNextNumber d1 = (Ok gen, d2) ->
  IsNextToken "obj" d2 = (Ok true, d3) ->
  GetNextToken d3 = (Some (t, ty), d4) ->
  strncmp_eq t "endobj" = false ->
  GetNextVariant t ty (SetCurrentReference ref <$> pEncrypt) d4 =
    (Ok (PdfDictionary dict), d5) ->
  GetNextToken d5 = (Some (t2, ty2), d6) ->
  strncmp_eq t2 "endobj" = false ->
  strncmp_eq t2 "stream" = true ->
  LengthIs doc dict (ConsumeStreamEol d6) n ->
  exists o', (ParseFile pEncrypt false;; DelayedLoadStream) o0 = (Ok tt, o') /\
    m_IndirectReference o' = ref /\
    m_Variant o' = PdfDictionary dict /\
    m_Stream o' =
      Some (mkStream (Payload (m_pEncrypt o') (Read n (ConsumeStreamEol d6)))) /\
    m_IsDirty o' = false /\
    m_DelayedLoadDone o' = true /\ m_DelayedLoadStreamDone o' = true.
Proof.
  intros o0 ref H1 H2 H3 H4 Hne H5 H6 Hne2 Hst Hlen.
  assert (Hd0 : (if 0 <=? m_lOffset o0 then Seek (m_lOffset o0) dev else dev)
                = Seek (m_lOffset o0) dev).
  { destruct (Z.leb_spec 0 (m_lOffset o0)) as [|Hneg]; first done.
    subst o0. cbn in *. destruct (lOffset <? 0) eqn:Hlt.
    - by rewrite Seek_Tell.
    - apply Z.ltb_ge in Hlt. lia. }
  set (o1 := HeaderDone pEncrypt false d3 (set_IndirectReference ref o0)).
  set (o2 := set_lStreamOffset (Tell d6)
               (set_bStream true
                  (set_device (Some d6)
                     (set_IsDirty false
                        (set_Variant (PdfDictionary dict)
                           (set_device (Some d5)
                              (set_pEncrypt (SetCurrentReference ref <$> pEncrypt)
                                 o1))))))).
  assert (Hbody : ParseFileComplete false o1 = (Ok tt, o2)).
  { rewrite (ParseFileComplete_run false o1 d3) by done. cbv zeta.
    replace (Seek (m_lOffset o1) d3) with d3 by (symmetry; apply Seek_Tell).
    change (m_IndirectReference o1) with ref.
    change (m_pEncrypt o1) with pEncrypt.
    rewrite H4, Hne, H5, H6, Hne2, Hst. done. }
  set (o3 := set_DelayedLoadDone true o2).
  assert (Hload : DelayedLoad o1 = (Ok tt, o3)).
  { rewrite DelayedLoad_run. change (m_DelayedLoadDone o1) with false.
    change (m_bIsTrailer o1) with false. by rewrite Hbody. }
  assert (Hstart : StreamStart o3 d6 = ConsumeStreamEol d6).
  { unfold StreamStart. change (m_lStreamOffset o3) with (Tell d6).
    by rewrite Seek_Tell. }
  assert (Hps : ParseStream o3 = (Ok tt, StreamLoaded o3 d6 dict n)).
  { apply ParseStream_read with doc; first done. by rewrite Hstart. }
  assert (Hdls : DelayedLoadStream o3 =
                 (Ok tt, set_DelayedLoadStreamDone true
                           (StreamLoaded o3 d6 dict n))).
  { rewrite DelayedLoadStream_run, DelayedLoad_run.
    change (m_DelayedLoadDone o3) with true. cbv iota.
    change (m_DelayedLoadStreamDone o3) with false. cbv iota.
    rewrite DelayedLoadStreamImpl_run.
    change (is_nullptr (m_Stream o3)) with true.
    change (HasStreamToParse o3) with true. cbv iota. by rewrite Hps. }
  exists (set_DelayedLoadStreamDone true (StreamLoaded o3 d6 dict n)).
  split.
  - unfold mbind, M_bind.
    rewrite (ParseFile_run pEncrypt false o0 dev) by done. cbv zeta.
    rewrite Hd0, H1, H2, H3. fold ref o1.
    change (m_bLoadOnDemand o0) with lod. destruct lod.
    + rewrite DelayedLoadStream_run, Hload.
      change (m_DelayedLoadStreamDone o3) with false. cbv iota.
      rewrite DelayedLoadStreamImpl_run.
      change (is_nullptr (m_Stream o3)) with true.
      change (HasStreamToParse o3) with true. cbv iota. by rewrite Hps.
    + by rewrite Hload.
  - unfold StreamLoaded. rewrite Hstart. done.
Qed.

End Lifecycle2.

(** * Freeing and reloading *)

Section Reload.
Context {T : PdfTokenizer}.

(** X13.  Free and reload.  An unloaded object that supports demand
    loading is body-loaded, then its memory is freed (forced, or not
    forced on a clean object), then it is body-loaded again.  As long as
    the tokenizer left the content of the device alone, the second load
    succeeds and brings back the same value, stream mark and stream
    start offset, with the device and the encryption context as the
    first load left them; the object is clean and has no stream. *)
Theorem free_and_reload (o o1 : PdfParserObject) (dev dev1 : PdfInputDevice)
    (bForce : bool) :
  m_device o = Some dev ->
  m_DelayedLoadDone o = false ->
  m_Variant o = PdfNull ->
  IsLoadOnDemand o = true ->
  DelayedLoad o = (Ok tt, o1) ->
  m_device o1 = Some dev1 -> dev_data dev1 = dev_data dev ->
  bForce = true \/ m_IsDirty o1 = false ->
  exists o2, (FreeObjectMemory bForce;; DelayedLoad) o1 = (Ok tt, o2) /\
    m_Variant o2 = m_Variant o1 /\
    HasStreamToParse o2 = HasStreamToParse o1 /\
    m_lStreamOffset o2 = m_lStreamOffset o1 /\
    m_IndirectReference o2 = m_IndirectReference o1 /\
    m_device o2 = m_device o1 /\ m_pEncrypt o2 = m_pEncrypt o1 /\
    m_DelayedLoadDone o2 = true /\
    m_IsDirty o2 = false /\ m_Stream o2 = None.
Proof.
  intros Hdev Hnot Hnull Hlod Hload Hdev1 Hdata Hfree.
  rewrite DelayedLoad_run, Hnot in Hload.
  destruct (ParseFileComplete (m_bIsTrailer o) o) as [[[]|e] o'] eqn:Hrun;
    last done.
  injection Hload as <-.
  pose proof (ParseFileComplete_changes (m_bIsTrailer o) o) as Hch.
  rewrite Hrun in Hch. cbv zeta in Hch. cbn [snd] in Hch.
  pose proof (ParseFileComplete_ok_key _ _ _ Hrun) as Hkey.
  set (freed := set_DelayedLoadStreamDone false
                  (set_DelayedLoadDone false
                     (set_IsDirty false
                        (set_Stream None
                           (set_Variant PdfNull (set_DelayedLoadDone true o')))))).
  assert (Hfreed : FreeObjectMemory bForce (set_DelayedLoadDone true o') =
                   (Ok tt, freed)).
  { rewrite FreeObjectMemory_run.
    replace (IsLoadOnDemand (set_DelayedLoadDone true o')) with true
      by (unfold IsLoadOnDemand in *; by_fields).
    destruct Hfree as [-> | Hclean]; first done.
    rewrite Hclean. by rewrite orb_true_r. }
  destruct (ParseFileComplete_rerun (m_bIsTrailer o) o o' freed dev dev1)
    as (p' & Hrun' & Hd & He & Hv & _ & Hb & Hs & Hdirty & _); try done.
  - subst freed. by destruct o'.
  - subst freed. by_fields.
  - subst freed. by_fields.
  - replace (m_pEncrypt freed) with (m_pEncrypt o') by by destruct o'.
    rewrite Hkey. by destruct (m_pEncrypt o).
  - assert (Htr : m_bIsTrailer freed = m_bIsTrailer o)
      by (subst freed; by_fields).
    assert (Hload2 : DelayedLoad freed = (Ok tt, set_DelayedLoadDone true p')).
    { rewrite DelayedLoad_run.
      replace (m_DelayedLoadDone freed) with false by by destruct o'.
      by rewrite Htr, Hrun'. }
    exists (set_DelayedLoadDone true p'). split.
    { unfold mbind, M_bind. by rewrite Hfreed. }
    pose proof (ParseFileComplete_changes (m_bIsTrailer o) freed) as Hch'.
    rewrite Hrun' in Hch'. cbv zeta in Hch'. cbn [snd] in Hch'.
    assert (Hv' : m_Variant p' = m_Variant o')
      by (apply Hv; rewrite Hnull; by destruct o').
    assert (Hb' : m_bStream p' = m_bStream o')
      by (apply Hb; by destruct o').
    assert (Hs' : m_lStreamOffset p' = m_lStreamOffset o')
      by (apply Hs; by destruct o').
    assert (Hdirty' : m_IsDirty p' = false)
      by (apply Hdirty; by destruct o').
    assert (Hst : m_Stream p' = None /\
                  m_IndirectReference p' = m_IndirectReference o').
    { rewrite Hch'. subst freed. by destruct o'. }
    destruct Hst as (Hst & Href).
    unfold HasStreamToParse.
    destruct o', p'. cbn in *. by subst.
Qed.

(** X14.  An object that is parsed and loaded with demand loading on can
    always be freed without force.  For an object built by the
    constructor with demand loading switched on, after a successful
    [ParseFile] and a successful stream-load, [FreeObjectMemory(false)]
    resets it to unloaded: null value, no stream, both load flags back to
    "not loaded".  The recorded offset, the reference and the stream mark
    stay, which is what a later reload reads from. *)
Theorem fresh_load_can_be_freed (doc : option PdfDocument)
    (rDevice : option PdfInputDevice) (lOffset : Z)
    (pEncrypt : option PdfEncrypt) (bIsTrailer : bool)
    (o1 o3 : PdfParserObject) :
  let o0 := (SetLoadOnDemand true (PdfParserObject_new doc rDevice lOffset)).2 in
  ParseFile pEncrypt bIsTrailer o0 = (Ok tt, o1) ->
  DelayedLoadStream o1 = (Ok tt, o3) ->
  exists o4, FreeObjectMemory false o3 = (Ok tt, o4) /\
    m_Variant o4 = PdfNull /\ m_Stream o4 = None /\
    m_DelayedLoadDone o4 = false /\ m_DelayedLoadStreamDone o4 = false /\
    m_lOffset o4 = m_lOffset o1 /\
    m_IndirectReference o4 = m_IndirectReference o1 /\
    HasStreamToParse o4 = HasStreamToParse o3 /\
    m_lStreamOffset o4 = m_lStreamOffset o3.
Proof.
  intros o0 Hparse Hstream.
  assert (Hc1 : m_IsDirty o1 = false).
  { change o1 with (Ok tt, o1).2. rewrite <- Hparse.
    by apply ParseFile_clean. }
  pose proof (DelayedLoadStream_ok_clean o1 o3 Hc1 Hstream) as Hc3.
  destruct (ParseFile_changes pEncrypt bIsTrailer o0) as (Hlod1 & _).
  rewrite Hparse in Hlod1. cbn [snd] in Hlod1.
  change (m_bLoadOnDemand o0) with true in Hlod1.
  pose proof (DelayedLoadStream_changes o1) as Hch.
  rewrite Hstream in Hch. cbv zeta in Hch. cbn [snd] in Hch.
  assert (Hlod3 : m_bLoadOnDemand o3 = true).
  { rewrite Hch. by destruct o1. }
  rewrite FreeObjectMemory_run. unfold IsLoadOnDemand, HasStreamToParse.
  rewrite Hlod3, Hc3. cbn [andb orb negb].
  eexists. split; first done.
  rewrite Hch. by destruct o1, o3.
Qed.

(** X15.  Once a stream-load has dropped the encryption context on
    account of a [Crypt] filter, the context stays dropped: freeing the
    object keeps it dropped, and a body-load after that hands the value
    parser no context at all, so the value then parsed is the one the
    parser gives without decryption. *)
Theorem dropped_context_stays_dropped (o : PdfParserObject)
    (dev : PdfInputDevice) (doc : PdfDocument)
    (dict : gmap string PdfVariant) (e : PdfEncrypt) (n : Z)
    (bForce bIsTrailer : bool) :
  ReadyForStream o dev doc dict ->
  LengthIs doc dict (StreamStart o dev) n ->
  m_pEncrypt o = Some e ->
  IsMetadataEncrypted e = false ->
  HasCryptFilter dict = true ->
  let o1 := (ParseStream o).2 in
  let o2 := (FreeObjectMemory bForce o1).2 in
  m_pEncrypt o1 = None /\ m_pEncrypt o2 = None /\
  m_pEncrypt (ParseFileComplete bIsTrailer o2).2 = None /\
  forall dev1 t ty d1 v d2,
    m_device o2 = Some dev1 ->
    GetNextToken (Seek (m_lOffset o2) dev1) = (Some (t, ty), d1) ->
    strncmp_eq t "endobj" = false ->
    GetNextVariant t ty None d1 = (Ok v, d2) ->
    m_Variant (ParseFileComplete bIsTrailer o2).2 = v.
Proof.
  intros Hready Hlen Henc Hmeta Hcrypt o1 o2.
  assert (H1 : m_pEncrypt o1 = None).
  { subst o1. rewrite (ParseStream_read o dev doc dict n Hready Hlen).
    unfold StreamLoaded, StreamEncrypt. rewrite Henc, Hmeta, Hcrypt.
    by destruct o. }
  assert (H2 : m_pEncrypt o2 = None).
  { subst o2. rewrite FreeObjectMemory_run. cbn [snd].
    destruct (_ && _); by destruct o1. }
  split; first done. split; first done. split.
  - pose proof (ParseFileComplete_changes bIsTrailer o2) as Hch.
    destruct (m_device o2) as [dev2|] eqn:Hdev2.
    2: by rewrite ParseFileComplete_no_device.
    rewrite (ParseFileComplete_run bIsTrailer o2 dev2 Hdev2). cbv zeta.
    rewrite H2. destruct o2. repeat case_match; done.
  - intros dev1 t ty d1 v d2 Hdev1 Htok Hne Hvar.
    rewrite (ParseFileComplete_run bIsTrailer o2 dev1 Hdev1). cbv zeta.
    rewrite H2, Htok, Hne. cbn [fmap option_fmap option_map]. rewrite Hvar.
    destruct o2. repeat case_match; done.
Qed.

(** X16.  A stream-load does not depend on the reference the shared
    encryption context was last keyed with: the context is keyed with
    the reference of the object right before the decrypting stream is
    made.  An object whose context carries a stale key gets the same
    outcome and the same stream, and on success ends in the same
    object. *)
Theorem ParseStream_ignores_stale_key (o : PdfParserObject)
    (stale : PdfReference) :
  let keyed := set_pEncrypt (SetCurrentReference stale <$> m_pEncrypt o) o in
  (ParseStream keyed).1 = (ParseStream o).1 /\
  m_Stream (ParseStream keyed).2 = m_Stream (ParseStream o).2 /\
  ((ParseStream o).1 = Ok tt -> ParseStream keyed = ParseStream o).
Proof.
  intros keyed. rewrite !ParseStream_cases.
  replace (m_DelayedLoadDone keyed) with (m_DelayedLoadDone o) by by destruct o.
  replace (m_Document keyed) with (m_Document o) by by destruct o.
  replace (m_Variant keyed) with (m_Variant o) by by destruct o.
  replace (m_device keyed) with (m_device o) by by destruct o.
  destruct (m_DelayedLoadDone o); last by destruct o.
  destruct (m_device o) as [dev|] eqn:Hdev; last by destruct o.
  destruct (m_Document o) as [doc|]; last by destruct o.
  cbv zeta.
  assert (Hstart : StreamStart keyed dev = StreamStart o dev) by by destruct o.
  rewrite Hstart.
  destruct (m_Variant o) as [| | | | | | |dict| |]; try by destruct o.
  rewrite (ResolveLength_run doc dict (StreamStart o dev)
             (set_device (Some (StreamStart o dev)) keyed)) by by destruct o.
  rewrite (ResolveLength_run doc dict (StreamStart o dev)
             (set_device (Some (StreamStart o dev)) o)) by by destruct o.
  assert (Hloaded : forall n,
            StreamLoaded keyed dev dict n = StreamLoaded o dev dict n).
  { intros n. unfold StreamLoaded, StreamEncrypt. rewrite Hstart.
    destruct o as [v ref odoc dirty dl dls st odev enc tr lod off bs so].
    cbn. by destruct enc. }
  destruct (dict !! KeyLength) as [[]|]; try by destruct o.
  - by rewrite Hloaded.
  - destruct (GetObject (GetObjects doc) r (StreamStart o dev)).1 as [[]|];
      try by destruct o.
    by rewrite Hloaded.
Qed.

End Reload.

(** * More runs on the sample documents *)

Module MoreRuns.
Import RefTokenizer Samples MoreSamples.

Lemma ParseStream_frame_witness :
  let o := stream_object length_dangling None after_lf in
  (ParseStream o).1 = Raise InvalidHandle /\
  m_Stream (ParseStream o).2 = None /\
  m_Variant (ParseStream o).2 = PdfDictionary length_dangling /\
  (ParseStream o).2 = set_device (m_device (ParseStream o).2) o.
Proof.
  destruct (ParseStream_frame (T:=tokenizer)
              (stream_object length_dangling None after_lf))
    as ((Hv & _) & Hfail).
  split; [vm_compute; reflexivity|].
  split; [vm_compute; reflexivity|].
  split; [exact Hv|].
  apply Hfail. vm_compute. discriminate.
Defined.

Lemma ParseStream_repeatable_witness :
  let o := stream_object length_crypt (Some enc_no_metadata) after_lf in
  let o1 := (ParseStream o).2 in
  ParseStream o = (Ok tt, o1) /\
  m_Stream o1 = Some (mkStream (bytes "HELLO")) /\
  ParseStream o1 = (Ok tt, o1).
Proof.
  assert (H : ParseStream (stream_object length_crypt (Some enc_no_metadata)
                             after_lf) =
              (Ok tt, (ParseStream (stream_object length_crypt
                                      (Some enc_no_metadata) after_lf)).2))
    by (vm_compute; reflexivity).
  split; [exact H|]. split; [vm_compute; reflexivity|].
  exact (ParseStream_repeatable (T:=tokenizer) _ _ H).
Defined.

Lemma ParseStream_ignores_cursor_witness :
  let o := stream_object length_indirect None after_lf in
  let moved := set_device (Some (Seek 4 after_lf)) o in
  m_device o = Some after_lf /\
  dev_data (Seek 4 after_lf) = dev_data after_lf /\
  m_DelayedLoadDone o = true /\ m_Document o <> None /\
  ParseStream moved = ParseStream o.
Proof.
  split; [reflexivity|]. split; [reflexivity|]. split; [reflexivity|].
  split; [discriminate|].
  destruct (ParseStream_ignores_cursor (T:=tokenizer)
              (stream_object length_indirect None after_lf)
              after_lf (Seek 4 after_lf) eq_refl eq_refl)
    as (_ & _ & Hsame).
  apply Hsame; [reflexivity | discriminate].
Defined.

Lemma ParseStream_marker_bounds_witness :
  let loads dev k :=
    let o := stream_object length_direct None dev in
    ReadyForStream o dev doc length_direct /\
    LengthIs doc length_direct (StreamStart o dev) 5 /\
    exists o', ParseStream o = (Ok tt, o') /\
      m_Stream o' =
        Some (mkStream (Payload (m_pEncrypt o') (Read 5 (Seek k dev)))) in
  loads after_nothing 0 /\ loads after_space 1 /\
  Read 5 (Seek 0 after_nothing) = bytes "HELLO" /\
  Read 5 (Seek 1 after_space) = LF :: bytes "HELL".
Proof.
  assert (Hready : forall dev, ReadyForStream
                     (stream_object length_direct None dev)
                     dev doc length_direct)
    by (intros dev; repeat split; reflexivity).
  assert (Hlen : forall dev, LengthIs doc length_direct
                   (StreamStart (stream_object length_direct None dev) dev) 5)
    by (intros dev; left; vm_compute; reflexivity).
  split; [|split; [|split; reflexivity]].
  - split; [exact (Hready after_nothing)|].
    split; [exact (Hlen after_nothing)|].
    destruct (ParseStream_marker_bounds (T:=tokenizer) _ _ _ _ 5
                (Hready after_nothing) (Hlen after_nothing))
      as (o' & Hrun & _ & Hnone & _).
    exists o'. split; [exact Hrun|]. exact (Hnone eq_refl).
  - split; [exact (Hready after_space)|].
    split; [exact (Hlen after_space)|].
    destruct (ParseStream_marker_bounds (T:=tokenizer) _ _ _ _ 5
                (Hready after_space) (Hlen after_space))
      as (o' & Hrun & _ & _ & Hone).
    exists o'. split; [exact Hrun|].
    apply (Hone eq_refl); vm_compute; discriminate.
Defined.

Lemma ParseFile_deferred_witness :
  let o := fresh true hello_file in
  let o' := (ParseFile (Some enc_all) false o).2 in
  m_device o = Some hello_file /\ m_bLoadOnDemand o = true /\
  (ParseFile (Some enc_all) false o).1 = Ok tt /\
  m_Variant o' = PdfNull /\ m_DelayedLoadDone o' = false /\
  m_pEncrypt o' = Some enc_all /\ m_bIsTrailer o' = false /\
  m_lOffset o' = 8.
Proof.
  split; [reflexivity|]. split; [reflexivity|].
  assert (Hok : (ParseFile (Some enc_all) false (fresh true hello_file)).1
                = Ok tt) by (vm_compute; reflexivity).
  split; [exact Hok|].
  destruct (ParseFile_deferred (T:=tokenizer) (Some enc_all) false
              (fresh true hello_file) hello_file eq_refl eq_refl)
    as ((Hv & _ & _ & Hdl & _) & _ & Hrec & _).
  destruct (Hrec Hok) as (Henc & Htr & _).
  split; [exact Hv|]. split; [exact Hdl|]. split; [exact Henc|].
  split; [exact Htr|]. vm_compute; reflexivity.
Defined.

Lemma header_reference_in_range_witness :
  let o := fresh true wide_header_file in
  let o' := (ParseFile None false o).2 in
  m_device o = Some wide_header_file /\
  ParseFile None false o = (Ok tt, o') /\
  GetNextNumber (Seek 0 wide_header_file) =
    (Ok 4294967303, Seek 10 wide_header_file) /\
  GetNextNumber (Seek 10 wide_header_file) =
    (Ok 65536, Seek 16 wide_header_file) /\
  m_IndirectReference o' = mkReference 7 0 /\
  0 <= ObjectNumber (m_IndirectReference o') < 2 ^ 32 /\
  0 <= GenerationNumber (m_IndirectReference o') < 2 ^ 16.
Proof.
  assert (Hrun : ParseFile None false (fresh true wide_header_file) =
                 (Ok tt, (ParseFile None false (fresh true wide_header_file)).2))
    by (vm_compute; reflexivity).
  split; [reflexivity|]. split; [exact Hrun|].
  split; [vm_compute; reflexivity|]. split; [vm_compute; reflexivity|].
  split; [vm_compute; reflexivity|].
  destruct (header_reference_in_range (T:=tokenizer) None
              (fresh true wide_header_file) _ wide_header_file eq_refl Hrun)
    as (obj & gen & d1 & d2 & _ & _ & _ & _ & Hobj & Hgen & _).
  split; [exact Hobj | exact Hgen].
Defined.

Lemma ParseFileComplete_failures_witness :
  let o := set_lOffset 7 (fresh true header_only_file) in
  let p := set_lOffset 7 (fresh true bad_value_file) in
  let q := set_lOffset 7 (fresh true value_only_file) in
  m_device o = Some header_only_file /\
  GetNextToken (Seek (m_lOffset o) header_only_file) =
    (None, Seek 7 header_only_file) /\
  (ParseFileComplete false o).1 = Raise UnexpectedEOF /\
  GetNextToken (Seek (m_lOffset p) bad_value_file) =
    (Some (")", Delimiter), Seek 9 bad_value_file) /\
  GetNextVariant ")" Delimiter None (Seek 9 bad_value_file) =
    (Raise InvalidDataType, Seek 9 bad_value_file) /\
  (ParseFileComplete false p).1 = Raise InvalidDataType /\
  m_Variant (ParseFileComplete false p).2 = PdfNull /\
  GetNextToken (Seek (m_lOffset q) value_only_file) =
    (Some ("5", Token), Seek 9 value_only_file) /\
  GetNextVariant "5" Token None (Seek 9 value_only_file) =
    (Ok (PdfNumber 5), Seek 9 value_only_file) /\
  GetNextToken (Seek 9 value_only_file) = (None, Seek 10 value_only_file) /\
  (ParseFileComplete false q).1 = Raise UnexpectedEOF /\
  m_Variant (ParseFileComplete false q).2 = PdfNumber 5.
Proof.
  assert (A1 : GetNextToken (Seek 7 header_only_file) =
                 (None, Seek 7 header_only_file)) by (vm_compute; reflexivity).
  assert (B1 : GetNextToken (Seek 7 bad_value_file) =
                 (Some (")", Delimiter), Seek 9 bad_value_file))
    by (vm_compute; reflexivity).
  assert (B2 : GetNextVariant ")" Delimiter None (Seek 9 bad_value_file) =
                 (Raise InvalidDataType, Seek 9 bad_value_file))
    by (vm_compute; reflexivity).
  assert (C1 : GetNextToken (Seek 7 value_only_file) =
                 (Some ("5", Token), Seek 9 value_only_file))
    by (vm_compute; reflexivity).
  assert (C2 : GetNextVariant "5" Token None (Seek 9 value_only_file) =
                 (Ok (PdfNumber 5), Seek 9 value_only_file))
    by (vm_compute; reflexivity).
  assert (C3 : GetNextToken (Seek 9 value_only_file) =
                 (None, Seek 10 value_only_file)) by (vm_compute; reflexivity).
  destruct (ParseFileComplete_failures (T:=tokenizer) false
              (set_lOffset 7 (fresh true header_only_file)) header_only_file
              eq_refl) as (Ha & _ & _).
  destruct (ParseFileComplete_failures (T:=tokenizer) false
              (set_lOffset 7 (fresh true bad_value_file)) bad_value_file
              eq_refl) as (_ & Hb & _).
  destruct (ParseFileComplete_failures (T:=tokenizer) false
              (set_lOffset 7 (fresh true value_only_file)) value_only_file
              eq_refl) as (_ & _ & Hc).
  destruct (Ha _ A1) as (Ha1 & _).
  destruct (Hb _ _ _ _ _ B1 eq_refl B2) as (Hb1 & Hb2 & _).
  destruct (Hc _ _ _ _ _ _ eq_refl C1 eq_refl C2 C3) as (Hc1 & Hc2 & _).
  split; [reflexivity|]. split; [exact A1|]. split; [exact Ha1|].
  split; [exact B1|]. split; [exact B2|]. split; [exact Hb1|].
  split; [exact Hb2|]. split; [exact C1|]. split; [exact C2|].
  split; [exact C3|]. split; [exact Hc1 | exact Hc2].
Defined.

Lemma ParseFileComplete_trailer_value_witness :
  let o := fresh true trailer_file in
  m_device o = Some trailer_file /\
  GetNextToken (Seek (m_lOffset o) trailer_file) =
    (Some ("<<", Delimiter), Seek 2 trailer_file) /\
  strncmp_eq "<<" "endobj" = false /\
  GetNextVariant "<<" Delimiter None (Seek 2 trailer_file) =
    (Ok (PdfDictionary trailer_dict), Seek 13 trailer_file) /\
  exists o', ParseFileComplete true o = (Ok tt, o') /\
    m_Variant o' = PdfDictionary trailer_dict /\ m_IsDirty o' = false /\
    m_device o' = Some (Seek 13 trailer_file) /\
    m_bStream o' = false /\ m_lStreamOffset o' = 0.
Proof.
  assert (H1 : GetNextToken (Seek 0 trailer_file) =
                 (Some ("<<", Delimiter), Seek 2 trailer_file))
    by (vm_compute; reflexivity).
  assert (H2 : GetNextVariant "<<" Delimiter None (Seek 2 trailer_file) =
                 (Ok (PdfDictionary trailer_dict), Seek 13 trailer_file))
    by (vm_compute; reflexivity).
  split; [reflexivity|]. split; [exact H1|]. split; [reflexivity|].
  split; [exact H2|].
  exact (ParseFileComplete_trailer_value (T:=tokenizer)
           (fresh true trailer_file) trailer_file _ _ "<<" Delimiter _
           eq_refl H1 eq_refl H2).
Defined.

Lemma ParseFileComplete_ignores_cursor_and_key_witness :
  let o := set_pEncrypt (Some enc_all) (header_read hello_file) in
  m_device o = Some (Seek 8 hello_file) /\
  dev_data (Seek 40 hello_file) = dev_data (Seek 8 hello_file) /\
  ParseFileComplete false
    (set_pEncrypt (Some (SetCurrentReference (mkReference 3 0) enc_all))
       (set_device (Some (Seek 40 hello_file)) o))
  = ParseFileComplete false o.
Proof.
  split; [reflexivity|]. split; [reflexivity|].
  exact (ParseFileComplete_ignores_cursor_and_key (T:=tokenizer) false
           (set_pEncrypt (Some enc_all) (header_read hello_file))
           (Seek 8 hello_file) (Seek 40 hello_file) (mkReference 3 0)
           eq_refl eq_refl).
Defined.

Lemma ParseFileComplete_repeatable_witness :
  let o := header_read hello_file in
  let o1 := (ParseFileComplete false o).2 in
  m_device o = Some (Seek 8 hello_file) /\
  ParseFileComplete false o = (Ok tt, o1) /\
  m_device o1 = Some (Seek 31 hello_file) /\
  dev_data (Seek 31 hello_file) = dev_data (Seek 8 hello_file) /\
  HasStreamToParse o1 = true /\
  ParseFileComplete false o1 = (Ok tt, o1).
Proof.
  assert (Hrun : ParseFileComplete false (header_read hello_file) =
                 (Ok tt, (ParseFileComplete false (header_read hello_file)).2))
    by (vm_compute; reflexivity).
  assert (Hdev1 : m_device (ParseFileComplete false (header_read hello_file)).2
                  = Some (Seek 31 hello_file)) by (vm_compute; reflexivity).
  split; [reflexivity|]. split; [exact Hrun|]. split; [exact Hdev1|].
  split; [reflexivity|]. split; [vm_compute; reflexivity|].
  exact (ParseFileComplete_repeatable (T:=tokenizer) false
           (header_read hello_file) _
           (Seek 8 hello_file) (Seek 31 hello_file)
           eq_refl Hrun Hdev1 eq_refl).
Defined.

Lemma stream_mark_means_dictionary_witness :
  let o := (DelayedLoad (header_read hello_file)).2 in
  HasStreamToParse o = true /\
  IsDictionary (m_Variant o) = true /\ m_DelayedLoadDone o = true.
Proof.
  assert (Hmark : HasStreamToParse (DelayedLoad (header_read hello_file)).2
                  = true) by (vm_compute; reflexivity).
  split; [exact Hmark|].
  destruct (stream_mark_means_dictionary (T:=tokenizer))
    as (Hnew & _ & Hlod & Hparse & Hload & _).
  exact (Hload _ (Hparse _ None false
                    (Hlod _ true (Hnew (Some doc) (Some hello_file) 0)))
           Hmark).
Defined.

(** The scenario of the specification: object (12, 0) with [/Length 5]
    and the stream [HELLO]. *)
Lemma parse_then_load_stream_witness :
  let o0 := set_bLoadOnDemand true
              (PdfParserObject_new (Some doc) (Some hello_file) 0) in
  GetNextNumber (Seek (m_lOffset o0) hello_file) = (Ok 12, Seek 2 hello_file) /\
  GetNextNumber (Seek 2 hello_file) = (Ok 0, Seek 4 hello_file) /\
  IsNextToken "obj" (Seek 4 hello_file) = (Ok true, Seek 8 hello_file) /\
  GetNextToken (Seek 8 hello_file) =
    (Some ("<<", Delimiter), Seek 11 hello_file) /\
  GetNextVariant "<<" Delimiter None (Seek 11 hello_file) =
    (Ok (PdfDictionary length_direct), Seek 24 hello_file) /\
  GetNextToken (Seek 24 hello_file) =
    (Some ("stream", Token), Seek 31 hello_file) /\
  LengthIs doc length_direct (ConsumeStreamEol (Seek 31 hello_file)) 5 /\
  Read 5 (ConsumeStreamEol (Seek 31 hello_file)) = bytes "HELLO" /\
  exists o', (ParseFile None false;; DelayedLoadStream) o0 = (Ok tt, o') /\
    m_IndirectReference o' = mkReference 12 0 /\
    m_Variant o' = PdfDictionary length_direct /\
    m_Stream o' =
      Some (mkStream (Payload (m_pEncrypt o')
                        (Read 5 (ConsumeStreamEol (Seek 31 hello_file))))) /\
    m_IsDirty o' = false /\
    m_DelayedLoadDone o' = true /\ m_DelayedLoadStreamDone o' = true.
Proof.
  assert (H1 : GetNextNumber (Seek 0 hello_file) = (Ok 12, Seek 2 hello_file))
    by (vm_compute; reflexivity).
  assert (H2 : GetNextNumber (Seek 2 hello_file) = (Ok 0, Seek 4 hello_file))
    by (vm_compute; reflexivity).
  assert (H3 : IsNextToken "obj" (Seek 4 hello_file) = (Ok true, Seek 8 hello_file))
    by (vm_compute; reflexivity).
  assert (H4 : GetNextToken (Seek 8 hello_file) =
                 (Some ("<<", Delimiter), Seek 11 hello_file))
    by (vm_compute; reflexivity).
  assert (H5 : GetNextVariant "<<" Delimiter None (Seek 11 hello_file) =
                 (Ok (PdfDictionary length_direct), Seek 24 hello_file))
    by (vm_compute; reflexivity).
  assert (H6 : GetNextToken (Seek 24 hello_file) =
                 (Some ("stream", Token), Seek 31 hello_file))
    by (vm_compute; reflexivity).
  assert (H7 : LengthIs doc length_direct
                 (ConsumeStreamEol (Seek 31 hello_file)) 5)
    by (left; vm_compute; reflexivity).
  split; [exact H1|]. split; [exact H2|]. split; [exact H3|].
  split; [exact H4|]. split; [exact H5|]. split; [exact H6|].
  split; [exact H7|]. split; [vm_compute; reflexivity|].
  exact (parse_then_load_stream (T:=tokenizer) doc hello_file _ _ _ _ _ _
           0 12 0 5 true None "<<" "stream" Delimiter Token length_direct
           H1 H2 H3 H4 eq_refl H5 H6 eq_refl eq_refl H7).
Defined.

Lemma free_and_reload_witness :
  let o := header_read hello_file in
  let o1 := (DelayedLoad o).2 in
  m_device o = Some (Seek 8 hello_file) /\
  m_DelayedLoadDone o = false /\ m_Variant o = PdfNull /\
  IsLoadOnDemand o = true /\
  DelayedLoad o = (Ok tt, o1) /\
  m_device o1 = Some (Seek 31 hello_file) /\
  dev_data (Seek 31 hello_file) = dev_data (Seek 8 hello_file) /\
  m_IsDirty o1 = false /\
  m_Variant o1 = PdfDictionary length_direct /\
  exists o2, (FreeObjectMemory false;; DelayedLoad) o1 = (Ok tt, o2) /\
    m_Variant o2 = m_Variant o1 /\
    HasStreamToParse o2 = HasStreamToParse o1 /\
    m_lStreamOffset o2 = m_lStreamOffset o1.
Proof.
  assert (Hload : DelayedLoad (header_read hello_file) =
                  (Ok tt, (DelayedLoad (header_read hello_file)).2))
    by (vm_compute; reflexivity).
  assert (Hdev1 : m_device (DelayedLoad (header_read hello_file)).2 =
                  Some (Seek 31 hello_file)) by (vm_compute; reflexivity).
  assert (Hclean : m_IsDirty (DelayedLoad (header_read hello_file)).2 = false)
    by (vm_compute; reflexivity).
  split; [reflexivity|]. split; [reflexivity|]. split; [reflexivity|].
  split; [reflexivity|]. split; [exact Hload|]. split; [exact Hdev1|].
  split; [reflexivity|]. split; [exact Hclean|].
  split; [vm_compute; reflexivity|].
  destruct (free_and_reload (T:=tokenizer) (header_read hello_file) _
              (Seek 8 hello_file) (Seek 31 hello_file) false
              eq_refl eq_refl eq_refl eq_refl Hload Hdev1 eq_refl
              (or_intror Hclean))
    as (o2 & Hrun & Hv & Hb & Hs & _).
  exists o2. split; [exact Hrun|]. split; [exact Hv|].
  split; [exact Hb | exact Hs].
Defined.

Lemma fresh_load_can_be_freed_witness :
  let o0 := (SetLoadOnDemand true
               (PdfParserObject_new (Some doc) (Some hello_file) 0)).2 in
  let o1 := (ParseFile None false o0).2 in
  let o3 := (DelayedLoadStream o1).2 in
  ParseFile None false o0 = (Ok tt, o1) /\
  DelayedLoadStream o1 = (Ok tt, o3) /\
  m_Stream o3 = Some (mkStream (bytes "HELLO")) /\
  exists o4, FreeObjectMemory false o3 = (Ok tt, o4) /\
    m_Variant o4 = PdfNull /\ m_Stream o4 = None /\
    m_DelayedLoadDone o4 = false /\ m_DelayedLoadStreamDone o4 = false /\
    m_lOffset o4 = 8 /\ HasStreamToParse o4 = true.
Proof.
  assert (H1 : ParseFile None false (fresh true hello_file) =
               (Ok tt, (ParseFile None false (fresh true hello_file)).2))
    by (vm_compute; reflexivity).
  assert (H3 : DelayedLoadStream
                 (ParseFile None false (fresh true hello_file)).2 =
               (Ok tt, (DelayedLoadStream
                          (ParseFile None false (fresh true hello_file)).2).2))
    by (vm_compute; reflexivity).
  split; [exact H1|]. split; [exact H3|]. split; [vm_compute; reflexivity|].
  destruct (fresh_load_can_be_freed (T:=tokenizer) (Some doc)
              (Some hello_file) 0 None false _ _ H1 H3)
    as (o4 & Hrun & Hv & Hst & Hdl & Hdls & Hoff & _ & Hmark & _).
  exists o4. split; [exact Hrun|]. split; [exact Hv|]. split; [exact Hst|].
  split; [exact Hdl|]. split; [exact Hdls|].
  split; [rewrite Hoff; vm_compute; reflexivity|].
  rewrite Hmark. vm_compute; reflexivity.
Defined.

Lemma dropped_context_stays_dropped_witness :
  let o := stream_object length_crypt (Some enc_no_metadata) after_lf in
  let o1 := (ParseStream o).2 in
  let o2 := (FreeObjectMemory true o1).2 in
  ReadyForStream o after_lf doc length_crypt /\
  LengthIs doc length_crypt (StreamStart o after_lf) 5 /\
  m_pEncrypt o = Some enc_no_metadata /\
  IsMetadataEncrypted enc_no_metadata = false /\
  HasCryptFilter length_crypt = true /\
  m_pEncrypt o1 = None /\ m_pEncrypt o2 = None /\
  m_pEncrypt (ParseFileComplete false o2).2 = None.
Proof.
  assert (Hready : ReadyForStream
                     (stream_object length_crypt (Some enc_no_metadata) after_lf)
                     after_lf doc length_crypt)
    by (repeat split; reflexivity).
  assert (Hlen : LengthIs doc length_crypt
                   (StreamStart (stream_object length_crypt
                                   (Some enc_no_metadata) after_lf) after_lf) 5)
    by (left; vm_compute; reflexivity).
  assert (Hcrypt : HasCryptFilter length_crypt = true)
    by (vm_compute; reflexivity).
  split; [exact Hready|]. split; [exact Hlen|]. split; [reflexivity|].
  split; [reflexivity|]. split; [exact Hcrypt|].
  destruct (dropped_context_stays_dropped (T:=tokenizer)
              (stream_object length_crypt (Some enc_no_metadata) after_lf)
              _ _ _ enc_no_metadata 5 true false
              Hready Hlen eq_refl eq_refl Hcrypt)
    as (H1 & H2 & H3 & _).
  split; [exact H1|]. split; [exact H2 | exact H3].
Defined.

Lemma ParseStream_ignores_stale_key_witness :
  let o := stream_object length_direct (Some enc_all) after_lf in
  let keyed := set_pEncrypt
                 (Some (SetCurrentReference (mkReference 3 0) enc_all)) o in
  (ParseStream o).1 = Ok tt /\
  m_Stream (ParseStream o).2 =
    Some (mkStream (xor_cipher (mkReference 12 0) (bytes "HELLO"))) /\
  ParseStream keyed = ParseStream o.
Proof.
  assert (Hok : (ParseStream (stream_object length_direct (Some enc_all)
                                after_lf)).1 = Ok tt)
    by (vm_compute; reflexivity).
  split; [exact Hok|]. split; [vm_compute; reflexivity|].
  destruct (ParseStream_ignores_stale_key (T:=tokenizer)
              (stream_object length_direct (Some enc_all) after_lf)
              (mkReference 3 0)) as (_ & _ & Hsame).
  exact (Hsame Hok).
Defined.

End MoreRuns.

(** * The annotation collection *)
Section AnnotationCollection.
Import Annotations.
Local Open Scope nat_scope.
Variable TryCreateFromObject : PdfReference -> bool.

Lemma initLoop_run (objs : list PdfReference) : forall i m annots,
  NoDup objs ->
  exists m',
    initLoop TryCreateFromObject objs i m annots =
      (m', annots ++ ((fun obj => if TryCreateFromObject obj
                                  then Some (mkAnnotation obj) else None)
                        <$> objs)) /\
    forall r j, m' !! r = Some j <->
      (exists k, objs !! k = Some r /\ j = i + k) \/
      ((r ∉ objs) /\ m !! r = Some j).
Proof.
  induction objs as [|obj rest IH]; intros i m annots Hnd.
  - exists m. split; [by rewrite app_nil_r|].
    intros r j. split.
    + intros H. right. split; [apply not_elem_of_nil | done].
    + intros [(k & Hk & _) | [_ H]]; [done | done].
  - apply NoDup_cons in Hnd as [Hobj Hnd].
    destruct (IH (S i) (<[obj := i]> m)
                (annots ++ [if TryCreateFromObject obj
                            then Some (mkAnnotation obj) else None]) Hnd)
      as (m' & Hrun & Hm').
    exists m'. split.
    + cbn [initLoop]. rewrite Hrun. by rewrite <- app_assoc.
    + intros r j. rewrite Hm'. split.
      * intros [(k & Hk & ->) | [Hr Hins]].
        -- left. exists (S k). split; [done | lia].
        -- apply lookup_insert_Some in Hins as [[<- <-] | [Hne Hm]].
           ++ left. exists 0. split; [done | lia].
           ++ right. split; [|done].
              rewrite not_elem_of_cons. done.
      * intros [(k & Hk & ->) | [Hr Hm]].
        -- destruct k as [|k].
           ++ injection Hk as <-. right. split; [done|].
              rewrite lookup_insert_Some. left. split; [done | lia].
           ++ left. exists k. split; [done | lia].
        -- apply not_elem_of_cons in Hr as [Hne Hr].
           right. split; [done|].
           rewrite lookup_insert_Some. right. done.
Qed.

Lemma InStep_NoDup (c : PdfAnnotationCollection) :
  InStep c -> NoDup (annotArray c).
Proof.
  intros (m & _ & Hm & _). apply NoDup_alt. intros i j r Hi Hj.
  apply Hm in Hi, Hj. congruence.
Qed.

Lemma InStep_init (c : PdfAnnotationCollection) :
  InStep c -> initAnnotations TryCreateFromObject c = c.
Proof. intros (m & Hmap & _). unfold initAnnotations. by rewrite Hmap. Qed.

Lemma fixIndices_lookup (index : nat) (m : gmap PdfReference nat)
    (r : PdfReference) :
  fixIndices index m !! r =
    (fun second => if index <? second then second - 1 else second) <$> m !! r.
Proof. unfold fixIndices. by rewrite lookup_fmap. Qed.

(** What both removals do to a collection in step: the entry at [index]
    leaves the array, the vector and the map. *)
Lemma remove_in_step (c : PdfAnnotationCollection) (index : nat)
    (ref : PdfReference) :
  InStep c -> annotArray c !! index = Some ref ->
  InStep (mkCollection (RemoveAt index <$> page_Annots c) (m_annotArray c)
            (fixIndices index <$> (delete ref <$> m_annotMap c))
            (delete index (m_Annots c))) /\
  annotArray (mkCollection (RemoveAt index <$> page_Annots c) (m_annotArray c)
            (fixIndices index <$> (delete ref <$> m_annotMap c))
            (delete index (m_Annots c))) = delete index (annotArray c).
Proof.
  intros Hin Href.
  assert (Hnd := InStep_NoDup c Hin).
  destruct Hin as (m & Hmap & Hm & Hlen & Hslot).
  assert (Harr : annotArray (mkCollection (RemoveAt index <$> page_Annots c)
            (m_annotArray c)
            (fixIndices index <$> (delete ref <$> m_annotMap c))
            (delete index (m_Annots c))) = delete index (annotArray c)).
  { unfold annotArray, RemoveAt. cbn.
    destruct (m_annotArray c); [|done]. by destruct (page_Annots c). }
  split; [|done].
  assert (Hother : forall k r, annotArray c !! k = Some r -> k <> index ->
                               r <> ref).
  { intros k r Hk Hne ->. apply Hne.
    eapply NoDup_lookup; eauto. }
  exists (fixIndices index (delete ref m)). rewrite Harr.
  cbn [m_annotMap m_Annots].
  split; [by rewrite Hmap|]. split; [|split].
  - intros r j. rewrite fixIndices_lookup. split.
    + intros H. apply fmap_Some in H as (k & Hk & ->).
      apply lookup_delete_Some in Hk as [Hne Hk].
      apply Hm in Hk.
      assert (k <> index) by (intros ->; congruence).
      destruct (index <? k) eqn:Hlt.
      * apply Nat.ltb_lt in Hlt.
        rewrite list_lookup_delete_ge by lia.
        by replace (S (k - 1)) with k by lia.
      * apply Nat.ltb_ge in Hlt.
        rewrite list_lookup_delete_lt by lia. done.
    + intros H. destruct (decide (j < index)) as [Hlt | Hge].
      * rewrite list_lookup_delete_lt in H by done.
        assert (r <> ref) by (eapply Hother; eauto; lia).
        apply Hm in H. rewrite lookup_delete_ne by done. rewrite H. cbn [fmap option_fmap option_map].
        destruct (index <? j) eqn:E; [apply Nat.ltb_lt in E; lia | done].
      * rewrite list_lookup_delete_ge in H by lia.
        assert (r <> ref) by (eapply Hother; eauto; lia).
        apply Hm in H. rewrite lookup_delete_ne by done. rewrite H. cbn [fmap option_fmap option_map].
        destruct (index <? S j) eqn:E; [f_equal; lia |].
        apply Nat.ltb_ge in E. lia.
  - rewrite !length_delete; [lia | by eauto |].
    apply lookup_lt_is_Some. rewrite Hlen.
    apply lookup_lt_is_Some. by eauto.
  - intros i annot H. destruct (decide (i < index)).
    + rewrite list_lookup_delete_lt in H by done.
      rewrite list_lookup_delete_lt by done. by apply Hslot.
    + rewrite list_lookup_delete_ge in H by lia.
      rewrite list_lookup_delete_ge by lia. by apply Hslot.
Qed.

(** Opening a collection on distinct entries brings it in step. *)
Lemma opened_in_step (annots : option (list PdfReference)) :
  NoDup (default [] annots) ->
  InStep (initAnnotations TryCreateFromObject
            (PdfAnnotationCollection_new annots)).
Proof.
  intros Hnd. unfold initAnnotations. cbn.
  destruct annots as [arr|]; cbn in *.
  - destruct (initLoop_run arr 0 ∅ [] Hnd) as (m & Hrun & Hm).
    rewrite Hrun. cbn. exists m. unfold annotArray. cbn.
    split; [done|]. split; [|split].
    + intros r j. rewrite Hm. split.
      * intros [(k & Hk & ->) | [_ H]]; done.
      * intros H. left. by exists j.
    + by rewrite length_fmap.
    + intros i annot H.
      apply list_lookup_fmap_Some in H as (obj & Heq & Hobj).
      rewrite Hobj. destruct (TryCreateFromObject obj); [|done].
      by injection Heq as ->.
  - exists ∅. unfold annotArray. cbn. repeat split; try done.
Qed.

(** X17.  Opening a collection on a page whose [/Annots] entries are
    distinct objects brings the three containers in step: the map sends
    each reference to its index in the array, the vector holds, index by
    index, the annotation made of the object or a placeholder where
    [TryCreateFromObject] refuses it, and [GetCount] is the size of the
    array; a page without [/Annots] gives an empty collection. *)
Theorem initAnnotations_in_step (annots : option (list PdfReference)) :
  NoDup (default [] annots) ->
  let c := initAnnotations TryCreateFromObject
             (PdfAnnotationCollection_new annots) in
  InStep c /\
  annotArray c = default [] annots /\
  page_Annots c = annots /\
  m_Annots c = (fun obj => if TryCreateFromObject obj
                           then Some (mkAnnotation obj) else None)
                 <$> default [] annots /\
  (GetCount TryCreateFromObject (PdfAnnotationCollection_new annots)).1 =
    GetSize (default [] annots).
Proof.
  intros Hnd. unfold GetCount, GetSize, initAnnotations. cbn.
  destruct annots as [arr|]; cbn in *.
  - destruct (initLoop_run arr 0 ∅ [] Hnd) as (m & Hrun & Hm).
    rewrite Hrun. cbn. unfold InStep, annotArray. cbn.
    repeat split; try done.
    + exists m. split; [done|]. split; [|split].
      * intros r j. rewrite Hm. split.
        -- intros [(k & Hk & ->) | [_ H]]; done.
        -- intros H. left. by exists j.
      * by rewrite length_fmap.
      * intros i annot H.
        apply list_lookup_fmap_Some in H as (obj & Heq & Hobj).
        rewrite Hobj. destruct (TryCreateFromObject obj); [|done].
        by injection Heq as ->.
    + by rewrite length_fmap.
  - unfold InStep, annotArray. cbn. repeat split; try done.
    exists ∅. repeat split; try done.
Qed.

(** X18.  Adding an annotation whose object is not in the array keeps the
    containers in step: its reference goes to the end of the array and is
    recorded under the old size, the count grows by one, and the
    annotation is the one [getAt] returns at the old count. *)
Theorem addAnnotation_in_step (c : PdfAnnotationCollection)
    (annot : PdfAnnotation) :
  InStep c ->
  GetObjectReference annot ∉ annotArray c ->
  let c' := addAnnotation TryCreateFromObject annot c in
  InStep c' /\
  annotArray c' = annotArray c ++ [GetObjectReference annot] /\
  m_annotMap c' ≫= (fun m => m !! GetObjectReference annot) =
    Some (GetCount TryCreateFromObject c).1 /\
  (GetCount TryCreateFromObject c').1 =
    S (GetCount TryCreateFromObject c).1 /\
  getAt TryCreateFromObject (GetCount TryCreateFromObject c).1 c' =
    (Done (Some annot), c').
Proof.
  intros Hin Hfresh.
  assert (Hinit := InStep_init c Hin).
  destruct Hin as (m & Hmap & Hm & Hlen & Hslot).
  set (ref := GetObjectReference annot) in *.
  assert (Harr : annotArray (addAnnotation TryCreateFromObject annot c) =
                 annotArray c ++ [ref]).
  { unfold addAnnotation, annotArray, AddIndirectSafe. rewrite Hinit. done. }
  assert (Hmap' : m_annotMap (addAnnotation TryCreateFromObject annot c) =
                  Some (<[ref := length (annotArray c)]> m)).
  { unfold addAnnotation. rewrite Hinit. cbn. by rewrite Hmap. }
  assert (Hvec : m_Annots (addAnnotation TryCreateFromObject annot c) =
                 m_Annots c ++ [Some annot]).
  { unfold addAnnotation. by rewrite Hinit. }
  assert (Hstep : InStep (addAnnotation TryCreateFromObject annot c)).
  { exists (<[ref := length (annotArray c)]> m).
    rewrite Harr, Hvec. split; [done|]. split; [|split].
    - intros r j. rewrite lookup_insert_Some, lookup_snoc_Some, Hm. split.
      + intros [[<- <-] | [Hne H]]; [by right | left].
        split; [|done]. by eapply lookup_lt_Some.
      + intros [[_ H] | [-> <-]]; [right | by left].
        split; [|done]. intros <-. apply Hfresh.
        by eapply list_elem_of_lookup_2.
    - rewrite !length_app. cbn. lia.
    - intros i a H. apply lookup_snoc_Some in H as [[Hlt H] | [Hi H]].
      + rewrite lookup_app_l by lia. by apply Hslot.
      + injection H as <-. rewrite Hi, Hlen.
        by rewrite list_lookup_middle.
  }
  cbn zeta. split; [done|]. split; [done|].
  unfold GetCount, getAt.
  rewrite (InStep_init _ Hstep), Hinit, Hmap', Hvec.
  cbn [fst snd mbind option_bind].
  split; [by rewrite lookup_insert_eq, Hlen|].
  split; [rewrite length_app; cbn; lia|].
  rewrite length_app. cbn [length].
  destruct (length (m_Annots c) + 1 <=? length (m_Annots c)) eqn:E;
    [apply Nat.leb_le in E; lia|].
  by rewrite list_lookup_middle.
Qed.

(** X19.  Removing by the reference of an entry keeps the containers in
    step: the entry leaves the array and the vector at its index, the
    reference is no longer in the array, and the count drops by one. *)
Theorem RemoveAnnot_in_step (c : PdfAnnotationCollection)
    (ref : PdfReference) (index : nat) :
  InStep c ->
  annotArray c !! index = Some ref ->
  let c' := RemoveAnnot TryCreateFromObject ref c in
  InStep c' /\
  annotArray c' = delete index (annotArray c) /\
  m_Annots c' = delete index (m_Annots c) /\
  (ref ∉ annotArray c') /\
  S (GetCount TryCreateFromObject c').1 = (GetCount TryCreateFromObject c).1.
Proof.
  intros Hin Href.
  assert (Hinit := InStep_init c Hin).
  assert (Hnd := InStep_NoDup c Hin).
  destruct (remove_in_step c index ref Hin Href) as [Hstep Harr].
  destruct Hin as (m & Hmap & Hm & Hlen & Hslot).
  assert (Hrun : RemoveAnnot TryCreateFromObject ref c =
            mkCollection (RemoveAt index <$> page_Annots c) (m_annotArray c)
              (fixIndices index <$> (delete ref <$> m_annotMap c))
              (delete index (m_Annots c))).
  { unfold RemoveAnnot. rewrite Hinit, Hmap. cbn.
    apply Hm in Href. by rewrite Href. }
  cbn zeta. rewrite Hrun. split; [done|]. split; [done|]. split; [done|].
  split.
  - rewrite Harr. intros Hel.
    apply list_elem_of_lookup in Hel as (j & Hj).
    destruct (decide (j < index)).
    + rewrite list_lookup_delete_lt in Hj by done.
      assert (j = index) by (eapply NoDup_lookup; eauto). lia.
    + rewrite list_lookup_delete_ge in Hj by lia.
      assert (S j = index) by (eapply NoDup_lookup; eauto). lia.
  - unfold GetCount. rewrite (InStep_init _ Hstep), Hinit. cbn.
    rewrite length_delete.
    + assert (index < length (m_Annots c)); [|lia].
      rewrite Hlen. by eapply lookup_lt_Some.
    + apply lookup_lt_is_Some. rewrite Hlen. by eapply lookup_lt_Some.
Qed.

(** X20.  Removing by the index of an annotation is removing by the
    reference of that annotation: [RemoveAnnotAt] succeeds and leaves the
    collection [RemoveAnnot] leaves, which is in step. *)
Theorem RemoveAnnotAt_is_RemoveAnnot (c : PdfAnnotationCollection)
    (index : nat) (annot : PdfAnnotation) :
  InStep c ->
  m_Annots c !! index = Some (Some annot) ->
  RemoveAnnotAt TryCreateFromObject index c =
    (Done tt, RemoveAnnot TryCreateFromObject (GetObjectReference annot) c) /\
  InStep (RemoveAnnotAt TryCreateFromObject index c).2.
Proof.
  intros Hin Hannot.
  assert (Hinit := InStep_init c Hin).
  assert (Href : annotArray c !! index = Some (GetObjectReference annot)).
  { destruct Hin as (m & _ & _ & _ & Hslot). by apply Hslot. }
  destruct (remove_in_step c index _ Hin Href) as [Hstep _].
  destruct Hin as (m & Hmap & Hm & Hlen & Hslot).
  assert (Hrun : RemoveAnnotAt TryCreateFromObject index c =
            (Done tt,
             mkCollection (RemoveAt index <$> page_Annots c) (m_annotArray c)
               (fixIndices index <$>
                  (delete (GetObjectReference annot) <$> m_annotMap c))
               (delete index (m_Annots c)))).
  { unfold RemoveAnnotAt. rewrite Hinit, Hannot.
    destruct (length (m_Annots c) <=? index) eqn:E; [|done].
    apply Nat.leb_le in E. apply lookup_lt_Some in Hannot. lia. }
  rewrite Hrun. split; [|done]. f_equal.
  unfold RemoveAnnot. rewrite Hinit, Hmap. cbn.
  apply Hm in Href. by rewrite Href.
Qed.

(** X21.  An annotation that was just added is taken out again by
    [RemoveAnnot]: array, map and vector are what they were before. *)
Theorem add_then_remove (c : PdfAnnotationCollection)
    (annot : PdfAnnotation) :
  InStep c ->
  GetObjectReference annot ∉ annotArray c ->
  let c' := RemoveAnnot TryCreateFromObject (GetObjectReference annot)
              (addAnnotation TryCreateFromObject annot c) in
  annotArray c' = annotArray c /\
  m_annotMap c' = m_annotMap c /\
  m_Annots c' = m_Annots c.
Proof.
  intros Hin Hfresh.
  assert (Hinit := InStep_init c Hin).
  destruct Hin as (m & Hmap & Hm & Hlen & Hslot).
  set (ref := GetObjectReference annot) in *.
  assert (Hadd : addAnnotation TryCreateFromObject annot c =
            mkCollection (Some (annotArray c ++ [ref])) true
              (Some (<[ref := length (annotArray c)]> m))
              (m_Annots c ++ [Some annot])).
  { unfold addAnnotation, annotArray, AddIndirectSafe, GetSize.
    rewrite Hinit, Hmap. done. }
  assert (Hd : forall A (l : list A) x, delete (length l) (l ++ [x]) = l).
  { intros A l x. induction l as [|y l IH]; [done|]. cbn. f_equal. exact IH. }
  cbn zeta. rewrite Hadd. unfold RemoveAnnot, initAnnotations.
  cbn [m_annotMap mbind option_bind]. rewrite lookup_insert_eq.
  unfold annotArray at 1, RemoveAt.
  cbn [page_Annots m_annotArray m_annotMap m_Annots default
       fmap option_fmap option_map].
  rewrite Hd, <- Hlen, Hd. split; [done|]. split; [|done].
  rewrite Hmap. f_equal. apply map_eq. intros r.
  rewrite fixIndices_lookup.
  assert (Hnone : m !! ref = None).
  { destruct (m !! ref) as [j|] eqn:E; [|done].
    apply Hm in E. exfalso. apply Hfresh. by eapply list_elem_of_lookup_2. }
  rewrite delete_insert_id by done.
  destruct (m !! r) as [j|] eqn:E; [|done]. cbn [fmap option_fmap option_map].
  apply Hm in E. apply lookup_lt_Some in E.
  destruct (length (m_Annots c) <? j) eqn:E'; [|done].
  apply Nat.ltb_lt in E'. lia.
Qed.

(** X22.  Removing a placeholder by its index leaves the reference of its
    object in the map, under the index that was removed, although the
    reference has left the array: the containers are out of step. *)
Theorem RemoveAnnotAt_placeholder (c : PdfAnnotationCollection)
    (index : nat) (ref : PdfReference) :
  InStep c ->
  m_Annots c !! index = Some None ->
  annotArray c !! index = Some ref ->
  let c' := (RemoveAnnotAt TryCreateFromObject index c).2 in
  (RemoveAnnotAt TryCreateFromObject index c).1 = Done tt /\
  annotArray c' = delete index (annotArray c) /\
  (ref ∉ annotArray c') /\
  m_annotMap c' ≫= (fun m => m !! ref) = Some index /\
  ~ InStep c'.
Proof.
  intros Hin Hnull Href.
  assert (Hinit := InStep_init c Hin).
  assert (Hnd := InStep_NoDup c Hin).
  destruct Hin as (m & Hmap & Hm & Hlen & Hslot).
  assert (Hrun : RemoveAnnotAt TryCreateFromObject index c =
            (Done tt,
             mkCollection (RemoveAt index <$> page_Annots c) (m_annotArray c)
               (fixIndices index <$> m_annotMap c)
               (delete index (m_Annots c)))).
  { unfold RemoveAnnotAt. rewrite Hinit, Hnull.
    destruct (length (m_Annots c) <=? index) eqn:E; [|done].
    apply Nat.leb_le in E. apply lookup_lt_Some in Hnull. lia. }
  cbn zeta. rewrite Hrun. cbn [fst snd].
  assert (Harr : annotArray (mkCollection (RemoveAt index <$> page_Annots c)
            (m_annotArray c) (fixIndices index <$> m_annotMap c)
            (delete index (m_Annots c))) = delete index (annotArray c)).
  { unfold annotArray, RemoveAt. cbn.
    destruct (m_annotArray c); [|done]. by destruct (page_Annots c). }
  assert (Hout : ref ∉ delete index (annotArray c)).
  { intros Hel. apply list_elem_of_lookup in Hel as (j & Hj).
    destruct (decide (j < index)).
    - rewrite list_lookup_delete_lt in Hj by done.
      assert (j = index) by (eapply NoDup_lookup; eauto). lia.
    - rewrite list_lookup_delete_ge in Hj by lia.
      assert (S j = index) by (eapply NoDup_lookup; eauto). lia. }
  assert (Hstale : fixIndices index m !! ref = Some index).
  { rewrite fixIndices_lookup. apply Hm in Href. rewrite Href.
    cbn [fmap option_fmap option_map]. by rewrite Nat.ltb_irrefl. }
  split; [done|]. split; [done|]. rewrite Harr. split; [done|].
  split; [cbn; by rewrite Hmap|].
  intros (m' & Hmap' & Hm' & _).
  cbn in Hmap'. rewrite Hmap in Hmap'. cbn in Hmap'. injection Hmap' as <-.
  apply Hm' in Hstale. rewrite Harr in Hstale.
  apply Hout. by eapply list_elem_of_lookup_2.
Qed.

End AnnotationCollection.

Module AnnotationRuns.
Import Annotations AnnotSamples.
Local Open Scope nat_scope.

Lemma initAnnotations_in_step_witness :
  NoDup (default [] page_entries) /\
  InStep opened /\
  m_Annots opened =
    [Some (mkAnnotation (mkReference 7 0)); None;
     Some (mkAnnotation (mkReference 9 0))] /\
  (GetCount valid (PdfAnnotationCollection_new page_entries)).1 = 3.
Proof.
  assert (Hnd : NoDup (default [] page_entries))
    by (apply (bool_decide_unpack _); vm_compute; reflexivity).
  split; [exact Hnd|].
  destruct (initAnnotations_in_step valid page_entries Hnd)
    as (Hin & _ & _ & Hvec & Hcount).
  split; [exact Hin|]. split; [exact Hvec | exact Hcount].
Defined.

Lemma addAnnotation_in_step_witness :
  InStep opened /\
  (GetObjectReference note ∉ annotArray opened) /\
  InStep (addAnnotation valid note opened) /\
  annotArray (addAnnotation valid note opened) =
    [mkReference 7 0; mkReference 8 0; mkReference 9 0; mkReference 20 0] /\
  getAt valid 3 (addAnnotation valid note opened) =
    (Done (Some note), addAnnotation valid note opened).
Proof.
  assert (Hin : InStep opened)
    by (apply opened_in_step, (bool_decide_unpack _);
        vm_compute; reflexivity).
  assert (Hfresh : GetObjectReference note ∉ annotArray opened)
    by (apply (bool_decide_unpack _); vm_compute; reflexivity).
  split; [exact Hin|]. split; [exact Hfresh|].
  destruct (addAnnotation_in_step valid opened note Hin Hfresh)
    as (Hin' & Harr & _ & _ & Hget).
  split; [exact Hin'|]. split; [exact Harr | exact Hget].
Defined.

Lemma RemoveAnnot_in_step_witness :
  InStep opened /\
  annotArray opened !! 2 = Some (mkReference 9 0) /\
  InStep (RemoveAnnot valid (mkReference 9 0) opened) /\
  annotArray (RemoveAnnot valid (mkReference 9 0) opened) =
    [mkReference 7 0; mkReference 8 0] /\
  S (GetCount valid (RemoveAnnot valid (mkReference 9 0) opened)).1 = 3.
Proof.
  assert (Hin : InStep opened)
    by (apply opened_in_step, (bool_decide_unpack _);
        vm_compute; reflexivity).
  assert (Href : annotArray opened !! 2 = Some (mkReference 9 0))
    by (vm_compute; reflexivity).
  split; [exact Hin|]. split; [exact Href|].
  destruct (RemoveAnnot_in_step valid opened (mkReference 9 0) 2 Hin Href)
    as (Hin' & Harr & _ & _ & Hcount).
  split; [exact Hin'|]. split; [exact Harr | exact Hcount].
Defined.

Lemma RemoveAnnotAt_is_RemoveAnnot_witness :
  InStep opened /\
  m_Annots opened !! 0 = Some (Some (mkAnnotation (mkReference 7 0))) /\
  RemoveAnnotAt valid 0 opened =
    (Done tt, RemoveAnnot valid (mkReference 7 0) opened) /\
  InStep (RemoveAnnotAt valid 0 opened).2.
Proof.
  assert (Hin : InStep opened)
    by (apply opened_in_step, (bool_decide_unpack _);
        vm_compute; reflexivity).
  assert (Hannot : m_Annots opened !! 0 =
                   Some (Some (mkAnnotation (mkReference 7 0))))
    by (vm_compute; reflexivity).
  split; [exact Hin|]. split; [exact Hannot|].
  exact (RemoveAnnotAt_is_RemoveAnnot valid opened 0
           (mkAnnotation (mkReference 7 0)) Hin Hannot).
Defined.

Lemma add_then_remove_witness :
  InStep opened /\
  (GetObjectReference note ∉ annotArray opened) /\
  annotArray (RemoveAnnot valid (mkReference 20 0)
                (addAnnotation valid note opened)) = annotArray opened /\
  m_annotMap (RemoveAnnot valid (mkReference 20 0)
                (addAnnotation valid note opened)) = m_annotMap opened /\
  m_Annots (RemoveAnnot valid (mkReference 20 0)
              (addAnnotation valid note opened)) = m_Annots opened.
Proof.
  assert (Hin : InStep opened)
    by (apply opened_in_step, (bool_decide_unpack _);
        vm_compute; reflexivity).
  assert (Hfresh : GetObjectReference note ∉ annotArray opened)
    by (apply (bool_decide_unpack _); vm_compute; reflexivity).
  split; [exact Hin|]. split; [exact Hfresh|].
  exact (add_then_remove valid opened note Hin Hfresh).
Defined.

Lemma RemoveAnnotAt_placeholder_witness :
  InStep opened /\
  m_Annots opened !! 1 = Some None /\
  annotArray opened !! 1 = Some (mkReference 8 0) /\
  annotArray (RemoveAnnotAt valid 1 opened).2 =
    [mkReference 7 0; mkReference 9 0] /\
  m_annotMap (RemoveAnnotAt valid 1 opened).2
    ≫= (fun m => m !! mkReference 8 0) = Some 1 /\
  ~ InStep (RemoveAnnotAt valid 1 opened).2.
Proof.
  assert (Hin : InStep opened)
    by (apply opened_in_step, (bool_decide_unpack _);
        vm_compute; reflexivity).
  assert (Hnull : m_Annots opened !! 1 = Some None)
    by (vm_compute; reflexivity).
  assert (Href : annotArray opened !! 1 = Some (mkReference 8 0))
    by (vm_compute; reflexivity).
  split; [exact Hin|]. split; [exact Hnull|]. split; [exact Href|].
  destruct (RemoveAnnotAt_placeholder valid opened 1 (mkReference 8 0)
              Hin Hnull Href) as (_ & Harr & _ & Hstale & Hout).
  split; [exact Harr|]. split; [exact Hstale | exact Hout].
Defined.

End AnnotationRuns.

(** * Style markers in font names *)
Section ExtractBaseName.
Import FontNames.
Local Open Scope nat_scope.

Lemma starts_with_app (short ext s : list Ascii.ascii) :
  starts_with (short ++ ext) s = true -> starts_with short s = true.
Proof.
  revert s. induction short as [|a short IH]; intros s H; [done|].
  destruct s as [|b s]; [done|]. cbn in *.
  apply andb_true_iff in H as [-> H]. by apply IH.
Qed.

Lemma find_head (needle s : list Ascii.ascii) :
  starts_with needle s = true -> find needle s = Some 0.
Proof. intros H. destruct s; cbn; by rewrite H. Qed.

Lemma find_cons (needle : list Ascii.ascii) (b : Ascii.ascii) (s : list Ascii.ascii) :
  starts_with needle (b :: s) = false ->
  find needle (b :: s) = S <$> find needle s.
Proof. intros H. cbn [find]. by rewrite H. Qed.

Lemma starts_with_length (needle s : list Ascii.ascii) :
  starts_with needle s = true -> length needle <= length s.
Proof.
  revert s. induction needle as [|a needle IH]; intros s H; cbn; [lia|].
  destruct s as [|b s]; [done|]. cbn in *.
  apply andb_true_iff in H as [_ H]. apply IH in H. lia.
Qed.

(** Where [find] answers, the needle fits in the rest of the string. *)
Lemma find_bound (needle s : list Ascii.ascii) (i : nat) :
  find needle s = Some i -> i + length needle <= length s.
Proof.
  revert i. induction s as [|b s IH]; intros i H.
  - cbn in H. destruct (starts_with needle []) eqn:E; [|done].
    injection H as <-. by apply starts_with_length in E.
  - destruct (starts_with needle (b :: s)) eqn:E.
    + rewrite find_head in H by done. injection H as <-.
      by apply starts_with_length in E.
    + rewrite find_cons in H by done.
      apply fmap_Some in H as (j & Hj & ->). apply IH in Hj. cbn. lia.
Qed.

(** A marker that begins with another one is never found before it. *)
Lemma find_extension (short ext s : list Ascii.ascii) (i : nat) :
  find (short ++ ext) s = Some i ->
  exists j, find short s = Some j /\ j <= i.
Proof.
  revert i. induction s as [|b s IH]; intros i H.
  - cbn in H. destruct (starts_with (short ++ ext) []) eqn:E; [|done].
    injection H as <-. apply starts_with_app in E.
    exists 0. split; [by apply find_head | lia].
  - destruct (starts_with (short ++ ext) (b :: s)) eqn:E.
    + apply starts_with_app in E. exists 0.
      split; [by apply find_head | lia].
    + rewrite find_cons in H by done.
      apply fmap_Some in H as (k & Hk & ->).
      destruct (IH k Hk) as (j & Hj & Hle).
      destruct (starts_with short (b :: s)) eqn:E'.
      * exists 0. split; [by apply find_head | lia].
      * exists (S j). rewrite find_cons by done. rewrite Hj.
        split; [done | lia].
Qed.

Lemma BoldItalic_extends_Bold :
  BoldItalic = Bold ++ String.list_ascii_of_string "Italic".
Proof. reflexivity. Qed.

(** In front of a marker, a stretch without commas is skipped. *)
Lemma find_after_plain (needle base rest : list Ascii.ascii) :
  comma ∉ base ->
  find (comma :: needle) (base ++ rest) =
    (fun k => length base + k) <$> find (comma :: needle) rest.
Proof.
  intros Hplain. induction base as [|b base IH].
  - cbn [app length]. by destruct (find _ rest).
  - apply not_elem_of_cons in Hplain as [Hne Hplain].
    change ((b :: base) ++ rest) with (b :: (base ++ rest)).
    rewrite find_cons.
    + rewrite IH by done. by destruct (find _ rest).
    + cbn. destruct (Ascii.eqb comma b) eqn:E; [|done].
      apply Ascii.eqb_eq in E. done.
Qed.

Lemma erase_within (index count : nat) (s : list Ascii.ascii) :
  index <= length s ->
  exists name, erase index count s = Some name /\
               length name <= length s /\
               length s <= length name + count.
Proof.
  intros Hle. unfold erase.
  destruct (length s <? index) eqn:E; [apply Nat.ltb_lt in E; lia|].
  eexists. split; [done|].
  rewrite length_app, length_take, length_drop. lia.
Qed.

Lemma erase_Some (index count : nat) (s name : list Ascii.ascii) :
  erase index count s = Some name ->
  length name <= length s.
Proof.
  unfold erase. destruct (length s <? index) eqn:E; [done|].
  intros [= <-]. rewrite length_app, length_take, length_drop. lia.
Qed.

Lemma erase_behind (base : list Ascii.ascii) (k count : nat)
    (name : list Ascii.ascii) :
  erase (length base + k) count (base ++ name) =
    (fun n => base ++ n) <$> erase k count name.
Proof.
  unfold erase. rewrite length_app.
  destruct (length name <? k) eqn:E.
  - apply Nat.ltb_lt in E.
    destruct (length base + length name <? length base + k) eqn:E';
      [done | apply Nat.ltb_ge in E'; lia].
  - apply Nat.ltb_ge in E.
    destruct (length base + length name <? length base + k) eqn:E';
      [apply Nat.ltb_lt in E'; lia|].
    cbn. f_equal.
    rewrite take_app_add, <- Nat.add_assoc, drop_app_add.
    by rewrite app_assoc.
Qed.

Lemma find_BoldItalic_after (base rest : list Ascii.ascii) :
  comma ∉ base ->
  find BoldItalic (base ++ rest) =
    (fun k => length base + k) <$> find BoldItalic rest.
Proof. apply (find_after_plain (tail BoldItalic)). Qed.

Lemma find_Bold_after (base rest : list Ascii.ascii) :
  comma ∉ base ->
  find Bold (base ++ rest) = (fun k => length base + k) <$> find Bold rest.
Proof. apply (find_after_plain (tail Bold)). Qed.

Lemma find_Italic_after (base rest : list Ascii.ascii) :
  comma ∉ base ->
  find Italic (base ++ rest) =
    (fun k => length base + k) <$> find Italic rest.
Proof. apply (find_after_plain (tail Italic)). Qed.

Lemma extractItalic_behind (base rest name : list Ascii.ascii)
    (isBold isItalic : bool) :
  comma ∉ base ->
  extractItalic (base ++ rest) (base ++ name) isBold isItalic =
    behind base (extractItalic rest name isBold isItalic).
Proof.
  intros Hplain. unfold extractItalic.
  rewrite find_Italic_after by done.
  destruct (find Italic rest) as [k|]; [|done].
  cbn [fmap option_fmap option_map]. rewrite erase_behind.
  by destruct (erase k _ name).
Qed.

Lemma extractBold_behind (base rest name : list Ascii.ascii)
    (isBold isItalic : bool) :
  comma ∉ base ->
  extractBold (base ++ rest) (base ++ name) isBold isItalic =
    behind base (extractBold rest name isBold isItalic).
Proof.
  intros Hplain. unfold extractBold.
  rewrite find_Bold_after by done.
  destruct (find Bold rest) as [k|]; cbn [fmap option_fmap option_map].
  - rewrite erase_behind.
    destruct (erase k _ name); cbn [fmap option_fmap option_map]; [|done].
    by apply extractItalic_behind.
  - by apply extractItalic_behind.
Qed.

(** Unfolds the first block of [extractBaseName] behind a stem without
    commas. *)
Ltac behind_stem Hplain :=
  unfold extractBaseName;
  rewrite find_BoldItalic_after by exact Hplain;
  match goal with
  | |- context [find BoldItalic ?rest] =>
      destruct (find BoldItalic rest) as [?k|];
      cbn [fmap option_fmap option_map];
      [ rewrite erase_behind;
        match goal with
        | |- context [erase ?k ?n ?name] =>
            destruct (erase k n name);
            cbn [fmap option_fmap option_map];
            [ by apply extractBold_behind | done ]
        end
      | by apply extractBold_behind ]
  end.

(** X23.  What [extractBaseName] reports when it returns: [isBold] is
    set exactly when it was set on entry or [",Bold"] occurs in the name,
    [isItalic] exactly when it was set on entry or [",BoldItalic"] or
    [",Italic"] occurs; no flag is ever cleared, and the name returned
    is not longer than the name given. *)
Theorem extractBaseName_flags (fontName : list Ascii.ascii)
    (isBold isItalic : bool) (name : list Ascii.ascii) (b i : bool) :
  extractBaseName fontName isBold isItalic = Returns name b i ->
  b = isBold || occurs Bold fontName /\
  i = isItalic || occurs BoldItalic fontName || occurs Italic fontName /\
  length name <= length fontName.
Proof.
  unfold extractBaseName, extractBold, extractItalic, occurs. intros H.
  destruct (find BoldItalic fontName) as [i1|] eqn:E1.
  - rewrite BoldItalic_extends_Bold in E1.
    destruct (find_extension _ _ _ _ E1) as (j & Hj & _).
    rewrite Hj in *.
    destruct (erase i1 _ fontName) as [n1|] eqn:Er1; [|done].
    destruct (erase j _ n1) as [n2|] eqn:Er2; [|done].
    apply erase_Some in Er1, Er2.
    destruct (find Italic fontName) as [i3|].
    + destruct (erase i3 _ n2) as [n3|] eqn:Er3; [|done].
      apply erase_Some in Er3. injection H as <- <- <-.
      rewrite !orb_true_r. repeat split; lia.
    + injection H as <- <- <-.
      rewrite !orb_true_r. repeat split; lia.
  - destruct (find Bold fontName) as [j|].
    + destruct (erase j _ fontName) as [n2|] eqn:Er2; [|done].
      apply erase_Some in Er2.
      destruct (find Italic fontName) as [i3|].
      * destruct (erase i3 _ n2) as [n3|] eqn:Er3; [|done].
        apply erase_Some in Er3. injection H as <- <- <-.
        rewrite !orb_true_r. repeat split; lia.
      * injection H as <- <- <-.
        rewrite orb_true_r, !orb_false_r. repeat split; lia.
    + destruct (find Italic fontName) as [i3|].
      * destruct (erase i3 _ fontName) as [n3|] eqn:Er3; [|done].
        apply erase_Some in Er3. injection H as <- <- <-.
        rewrite orb_true_r, !orb_false_r. repeat split; lia.
      * injection H as <- <- <-.
        rewrite !orb_false_r. repeat split; lia.
Qed.

(** X24.  Unless both [",Bold"] and [",Italic"] occur in the name, no
    [erase] is out of range and [extractBaseName] returns; a name in
    which neither occurs is returned as it is, with the flags as they
    were. *)
Theorem extractBaseName_returns (fontName : list Ascii.ascii)
    (isBold isItalic : bool) :
  occurs Bold fontName && occurs Italic fontName = false ->
  (exists name b i,
     extractBaseName fontName isBold isItalic = Returns name b i) /\
  (occurs Bold fontName = false -> occurs Italic fontName = false ->
   extractBaseName fontName isBold isItalic =
     Returns fontName isBold isItalic).
Proof.
  unfold extractBaseName, extractBold, extractItalic, occurs. intros H.
  destruct (find Bold fontName) as [j|] eqn:E2.
  - destruct (find Italic fontName) as [i3|] eqn:E3; [done|].
    split; [|done].
    destruct (find BoldItalic fontName) as [i1|] eqn:E1.
    + assert (Hfit := find_bound _ _ _ E1).
      rewrite BoldItalic_extends_Bold in E1.
      destruct (find_extension _ _ _ _ E1) as (j' & Hj' & Hle).
      rewrite E2 in Hj'. injection Hj' as <-.
      destruct (erase_within i1 (length BoldItalic) fontName)
        as (n1 & -> & _ & Hn1); [lia|].
      destruct (erase_within j (length Bold) n1) as (n2 & -> & _);
        [lia|].
      by eauto.
    + apply find_bound in E2.
      destruct (erase_within j (length Bold) fontName) as (n2 & -> & _);
        [lia|].
      by eauto.
  - assert (E1 : find BoldItalic fontName = None).
    { destruct (find BoldItalic fontName) as [i1|] eqn:E1; [|done].
      rewrite BoldItalic_extends_Bold in E1.
      destruct (find_extension _ _ _ _ E1) as (j' & Hj' & _). congruence. }
    rewrite E1.
    destruct (find Italic fontName) as [i3|] eqn:E3.
    + split; [|done]. apply find_bound in E3.
      destruct (erase_within i3 (length Italic) fontName) as (n3 & -> & _);
        [lia|].
      by eauto.
    + split; [by eauto | done].
Qed.

(** X25.  A stem without commas in front of the name goes through
    [extractBaseName] untouched: the outcome on [base ++ rest] is the
    outcome on [rest] with [base] put back in front of the name. *)
Theorem extractBaseName_behind_stem (base rest : list Ascii.ascii)
    (isBold isItalic : bool) :
  comma ∉ base ->
  extractBaseName (base ++ rest) isBold isItalic =
    behind base (extractBaseName rest isBold isItalic).
Proof.
  intros Hplain. unfold extractBaseName.
  rewrite find_BoldItalic_after by done.
  destruct (find BoldItalic rest) as [k|];
    cbn [fmap option_fmap option_map].
  - rewrite erase_behind.
    destruct (erase k _ rest); cbn [fmap option_fmap option_map]; [|done].
    by apply extractBold_behind.
  - by apply extractBold_behind.
Qed.

(** X26.  The three style markers at the end of a name without commas
    are cut off and set their flags: [",Bold"] sets [isBold],
    [",Italic"] sets [isItalic], [",BoldItalic"] sets both, and the
    other flag is left as it was. *)
Theorem extractBaseName_suffix (base : list Ascii.ascii)
    (isBold isItalic : bool) :
  comma ∉ base ->
  extractBaseName (base ++ Bold) isBold isItalic =
    Returns base true isItalic /\
  extractBaseName (base ++ Italic) isBold isItalic =
    Returns base isBold true /\
  extractBaseName (base ++ BoldItalic) isBold isItalic =
    Returns base true true.
Proof.
  intros Hplain.
  assert (Hstem : forall rest,
            extractBaseName (base ++ rest) isBold isItalic =
            behind base (extractBaseName rest isBold isItalic))
    by (intros rest; behind_stem Hplain).
  rewrite !Hstem.
  replace (extractBaseName Bold isBold isItalic)
    with (Returns [] true isItalic) by reflexivity.
  replace (extractBaseName Italic isBold isItalic)
    with (Returns [] isBold true) by reflexivity.
  replace (extractBaseName BoldItalic isBold isItalic)
    with (Returns [] true true) by reflexivity.
  cbn [behind]. by rewrite app_nil_r.
Qed.

(** X27.  The markers are looked for in the name as given but erased
    from the name as shortened so far.  Behind a stem without commas,
    [",Italic,Bold"] is cut off whole, [",Bold,Italic"] leaves [",Ital"]
    behind, and [",BoldItalic,Italic"] ends in [std::out_of_range] with
    both flags set. *)
Theorem extractBaseName_stale_index (base : list Ascii.ascii)
    (isBold isItalic : bool) :
  comma ∉ base ->
  extractBaseName (base ++ Italic ++ Bold) isBold isItalic =
    Returns base true true /\
  extractBaseName (base ++ Bold ++ Italic) isBold isItalic =
    Returns (base ++ take 5 Italic) true true /\
  extractBaseName (base ++ BoldItalic ++ Italic) isBold isItalic =
    out_of_range true true.
Proof.
  intros Hplain.
  assert (Hstem : forall rest,
            extractBaseName (base ++ rest) isBold isItalic =
            behind base (extractBaseName rest isBold isItalic))
    by (intros rest; behind_stem Hplain).
  rewrite !Hstem.
  replace (extractBaseName (Italic ++ Bold) isBold isItalic)
    with (Returns [] true true) by reflexivity.
  replace (extractBaseName (Bold ++ Italic) isBold isItalic)
    with (Returns (take 5 Italic) true true) by reflexivity.
  replace (extractBaseName (BoldItalic ++ Italic) isBold isItalic)
    with (out_of_range true true) by reflexivity.
  cbn [behind]. by rewrite app_nil_r.
Qed.

End ExtractBaseName.

Module FontRuns.
Import FontNames FontSamples.
Local Open Scope nat_scope.

Lemma extractBaseName_flags_witness :
  extractBaseName Times_Bold false false = Returns Times true false /\
  true = false || occurs Bold Times_Bold /\
  false = false || occurs BoldItalic Times_Bold || occurs Italic Times_Bold /\
  length Times <= length Times_Bold.
Proof.
  assert (Hrun : extractBaseName Times_Bold false false =
                 Returns Times true false) by (vm_compute; reflexivity).
  split; [exact Hrun|].
  exact (extractBaseName_flags Times_Bold false false Times true false Hrun).
Defined.

Lemma extractBaseName_returns_witness :
  occurs Bold Times_Bold && occurs Italic Times_Bold = false /\
  exists name b i, extractBaseName Times_Bold false false = Returns name b i.
Proof.
  assert (Hone : occurs Bold Times_Bold && occurs Italic Times_Bold = false)
    by (vm_compute; reflexivity).
  split; [exact Hone|].
  exact (proj1 (extractBaseName_returns Times_Bold false false Hone)).
Defined.

Lemma extractBaseName_behind_stem_witness :
  (comma ∉ Arial) /\
  extractBaseName (Arial ++ Italic) false false =
    behind Arial (extractBaseName Italic false false).
Proof.
  assert (Hplain : comma ∉ Arial)
    by (apply (bool_decide_unpack _); vm_compute; reflexivity).
  split; [exact Hplain|].
  exact (extractBaseName_behind_stem Arial Italic false false Hplain).
Defined.

Lemma extractBaseName_suffix_witness :
  (comma ∉ Arial) /\
  extractBaseName (Arial ++ Bold) false false = Returns Arial true false /\
  extractBaseName (Arial ++ Italic) false false = Returns Arial false true /\
  extractBaseName (Arial ++ BoldItalic) false false = Returns Arial true true.
Proof.
  assert (Hplain : comma ∉ Arial)
    by (apply (bool_decide_unpack _); vm_compute; reflexivity).
  split; [exact Hplain|].
  exact (extractBaseName_suffix Arial false false Hplain).
Defined.

Lemma extractBaseName_stale_index_witness :
  (comma ∉ Arial) /\
  extractBaseName (Arial ++ Italic ++ Bold) false false =
    Returns Arial true true /\
  extractBaseName (Arial ++ Bold ++ Italic) false false =
    Returns (Arial ++ take 5 Italic) true true /\
  extractBaseName (Arial ++ BoldItalic ++ Italic) false false =
    out_of_range true true.
Proof.
  assert (Hplain : comma ∉ Arial)
    by (apply (bool_decide_unpack _); vm_compute; reflexivity).
  split; [exact Hplain|].
  exact (extractBaseName_stale_index Arial false false Hplain).
Defined.

End FontRuns.
